(** * fsoc optimize events / recommendations: a shallow embedding

    This development embeds [cmd/optimize/events.go]: the two commands
    [listEvents] and [listRecommendations], the entity lookup
    [listOptimizations], the extractors, the blocker join and the follow
    loop. The uql query client is an external collaborator: it is a
    parameter of the development, every call to it is recorded in a trace.

    Go strings are byte strings: [string]. Go maps are [gmap string _];
    where the source ranges over a map the iteration order is a parameter.
    A run-time panic is an outcome of its own, distinct from a returned
    error. *)

From Stdlib Require Import ZArith String Ascii List Bool Lia.
From stdpp Require Import base option list gmap strings pretty.
Import ListNotations.
Local Open Scope string_scope.
Local Open Scope Z_scope.

(** ** The parts of package [strings] the source uses *)
Module Strings.

(** [strings.Contains s substr] *)
Fixpoint Contains (s substr : string) : bool :=
  String.prefix substr s ||
  match s with
  | EmptyString => false
  | String _ s' => Contains s' substr
  end.

(** [strings.HasPrefix s prefix] *)
Definition HasPrefix (s pre : string) : bool := String.prefix pre s.

(** [strings.Join elems sep] *)
Definition Join (elems : list string) (sep : string) : string :=
  String.concat sep elems.

(** [strings.Split s sep] for a separator of one byte: the segments
    between the separators, [[""]] for the empty string. *)
Fixpoint Split (s : string) (sep : ascii) : list string :=
  match s with
  | EmptyString => [EmptyString]
  | String c s' =>
      if Ascii.eqb c sep then EmptyString :: Split s' sep
      else match Split s' sep with
           | seg :: segs => String c seg :: segs
           | [] => [String c EmptyString]
           end
  end.

End Strings.

(** ** Dynamic values and the uql data model *)

(** A Go [any] as this code meets it: the cells of a uql result table.
    [time.Time] is an instant, kept as an integer. [*uql.DataSet] may be a
    nil pointer inside a non-nil interface. *)
Inductive any : Type :=
| ANil
| AString (s : string)
| ATime (t : Z)
| AInt (n : Z)
| ABool (b : bool)
| AComplexData (c : ComplexData)
| ADataSet (p : option DataSet)
with ComplexData : Type :=
| mkComplexData (cdData : list (list any))
with DataSet : Type :=
| mkDataSet (dsName : string) (dsData : list (list any)) (dsLinks : gmap string string).

Definition cdData (c : ComplexData) : list (list any) :=
  match c with mkComplexData d => d end.
Definition Name (d : DataSet) : string :=
  match d with mkDataSet n _ _ => n end.
Definition Data (d : DataSet) : list (list any) :=
  match d with mkDataSet _ d _ => d end.
Definition Links (d : DataSet) : gmap string string :=
  match d with mkDataSet _ _ l => l end.

(** The dynamic type of a value, as [%T] prints it. *)
Definition typeName (v : any) : string :=
  match v with
  | ANil => "<nil>"
  | AString _ => "string"
  | ATime _ => "time.Time"
  | AInt _ => "int"
  | ABool _ => "bool"
  | AComplexData _ => "uql.ComplexData"
  | ADataSet _ => "*uql.DataSet"
  end.

Record Error := mkError { Title : string; Detail : string }.

(** A uql response: [Errors()], [HasErrors()] and [Main()]. *)
Record Response := mkResponse { Errors : list Error; Main : option DataSet }.

Definition HasErrors (r : Response) : bool :=
  match Errors r with [] => false | _ => true end.

(** ** Errors and panics *)

(** Go [error] values built by this file. [Errorf] is a finished message,
    [ErrorfT] a message that prints a cell's type, [Wrap] is
    [fmt.Errorf("<prefix>: %w", err)], [ClientError] an error of the uql
    client. *)
Inductive error : Type :=
| Errorf (msg : string)
| ErrorfT (msg : string) (cell : any)
| Wrap (prefix : string) (cause : error)
| ClientError (msg : string).

(** The run-time panics this code can raise. *)
Inductive panic : Type :=
| PanicTypeAssertion (wanted : string) (got : any)
| PanicIndexOutOfRange (index : nat) (len : nat)
| PanicNilDereference.

Inductive outcome (A : Type) : Type :=
| Ret (a : A)
| Panicked (p : panic)
| OutOfFuel.
Arguments Ret {A} a.
Arguments Panicked {A} p.
Arguments OutOfFuel {A}.

(** ** Rows *)

Record EventsRow := mkEventsRow {
  Timestamp : Z;
  EventAttributes : gmap string any
}.

Record recommendationRow := mkRecommendationRow {
  recEventsRow : EventsRow;
  BlockersAttributes : gmap string any;
  BlockersPresent : string;
  Blockers : list string
}.

(** ** Flags *)

Record eventsFlags := mkEventsFlags {
  clusterId : string;
  namespace : string;
  workloadName : string;
  optimizerId : string;
  since : string;
  until : string;
  count : Z;
  follow : bool;
  followInterval : Z;
  solutionName : string
}.

Record eventsCmdFlags := mkEventsCmdFlags {
  evFlags : eventsFlags;
  includeProgress : bool;
  events : list string
}.

Record recommendationsCmdFlags := mkRecommendationsCmdFlags {
  recFlags : eventsFlags;
  includeInvalidated : bool
}.

Definition defaultEvents : list string :=
  [ "optimization_baselined"; "optimization_started"; "optimization_ended";
    "stage_started"; "stage_ended"; "experiment_started"; "experiment_ended";
    "experiment_deployment_started"; "experiment_deployment_completed";
    "experiment_measurement_started"; "experiment_measurement_completed";
    "experiment_described"; "recommendation_identified";
    "recommendation_verified"; "recommendation_invalidated" ].

Definition progressEvents : list string :=
  [ "optimization_progress"; "stage_progress"; "experiment_progress" ].

(** ** Observable effects *)

Inductive level := LvlWarn | LvlError.

(** What a run does to the outside, in order: the two calls of the uql
    client, the log, the status line, the three output calls, the sleep of
    the follow loop and the start of its goroutine. *)
Inductive event : Type :=
| EvExecuteQuery (query : string)
| EvContinueQuery (data_set : option DataSet) (link : string)
| EvLog (lvl : level) (msg : string)
| EvStatus (msg : string)
| EvOutputEvents (items : list EventsRow) (total : nat)
| EvOutputEventsCustom (items : list EventsRow) (total : nat)
| EvOutputRecommendations (items : list recommendationRow) (total : nat)
| EvSleep (d : Z)
| EvGo (data_set : option DataSet).

Definition isQuery (e : event) : bool :=
  match e with
  | EvExecuteQuery _ | EvContinueQuery _ _ => true
  | _ => false
  end.

Definition isContinue (e : event) : bool :=
  match e with
  | EvContinueQuery _ _ => true
  | _ => false
  end.

Definition isGo (e : event) : bool :=
  match e with
  | EvGo _ => true
  | _ => false
  end.

(** The state a run threads: the remote service and the trace so far. *)
Record St (W : Type) := mkSt { world : W; trace : list event }.
Arguments mkSt {W} world trace.
Arguments world {W} s.
Arguments trace {W} s.

Definition M (W A : Type) : Type := St W -> outcome A * St W.

Definition ret {W A} (a : A) : M W A := fun s => (Ret a, s).

Definition bind {W A B} (c : M W A) (k : A -> M W B) : M W B :=
  fun s =>
    match c s with
    | (Ret a, s') => k a s'
    | (Panicked p, s') => (Panicked p, s')
    | (OutOfFuel, s') => (OutOfFuel, s')
    end.

Definition emit {W} (e : event) : M W unit :=
  fun s => (Ret tt, mkSt (world s) (trace s ++ [e])).

Definition lift {W A} (o : outcome A) : M W A := fun s => (o, s).

Definition outOfFuel {W A} : M W A := fun s => (OutOfFuel, s).

Declare Scope go_scope.
Delimit Scope go_scope with go.
Notation "'let*' x ':=' c 'in' k" := (bind c (fun x => k))
  (at level 10, x pattern, c at level 100, k at level 200) : go_scope.
Notation "'do' c 'then' k" := (bind c (fun _ => k))
  (at level 10, c at level 100, k at level 200) : go_scope.

Fixpoint forEach {W A} (l : list A) (body : A -> M W unit) : M W unit :=
  match l with
  | [] => ret tt
  | a :: l' => (do body a then forEach l' body)%go
  end.

(** ** Text *)

Definition nl : string := String (ascii_of_nat 10) EmptyString.
Definition tab : string := String (ascii_of_nat 9) EmptyString.
Definition dq : string := String (ascii_of_nat 34) EmptyString.

(** [strconv.Itoa] *)
Definition Itoa (n : Z) : string := pretty n.

(** [{{ with .X }}before{{ . }}after{{ end -}}] of text/template: nothing
    for the empty string. *)
Definition withField (x before after : string) : string :=
  if decide (x = "") then "" else before ++ x ++ after.

Record eventsTemplateValues := mkEventsTemplateValues {
  etSince : string; etUntil : string; etEvents : string;
  etFilter : string; etLimits : string
}.

Definition eventsTemplate (v : eventsTemplateValues) : string :=
  nl ++ withField (etSince v) "SINCE " nl
     ++ withField (etUntil v) "UNTIL " nl
     ++ "FETCH events(" ++ nl ++ tab ++ tab ++ etEvents v ++ nl ++ tab ++ ")" ++ nl ++ tab
     ++ withField (etFilter v) "[" ("]" ++ nl ++ tab)
     ++ "{attributes, timestamp}" ++ nl
     ++ withField (etLimits v) "LIMITS events.count(" (")" ++ nl)
     ++ "ORDER events.asc()" ++ nl.

Record recommendationsTemplateValues := mkRecommendationsTemplateValues {
  rtSince : string; rtUntil : string; rtIncludeInvalidated : bool;
  rtFilter : string; rtLimits : string; rtSolutionName : string
}.

Definition recommendationsTemplate (v : recommendationsTemplateValues) : string :=
  nl ++ withField (rtSince v) "SINCE " nl
     ++ withField (rtUntil v) "UNTIL " nl
     ++ "FETCH events("
     ++ (if rtIncludeInvalidated v
         then nl ++ tab ++ tab ++ rtSolutionName v ++ ":recommendation_identified,"
              ++ nl ++ tab ++ tab ++ rtSolutionName v ++ ":recommendation_invalidated,"
         else "")
     ++ nl ++ tab ++ tab ++ rtSolutionName v ++ ":recommendation_verified"
     ++ nl ++ tab ++ ")" ++ nl ++ tab
     ++ withField (rtFilter v) "[" ("]" ++ nl ++ tab)
     ++ "{attributes, timestamp}" ++ nl
     ++ withField (rtLimits v) "LIMITS events.count(" (")" ++ nl)
     ++ "ORDER events.asc()" ++ nl.

Definition optimizationStartedTemplate (v : recommendationsTemplateValues) : string :=
  nl ++ withField (rtSince v) "SINCE " nl
     ++ withField (rtUntil v) "UNTIL " nl
     ++ "FETCH events(" ++ nl ++ tab ++ tab ++ rtSolutionName v ++ ":optimization_started"
     ++ nl ++ tab ++ ")" ++ nl ++ tab
     ++ withField (rtFilter v) "[" ("]" ++ nl ++ tab)
     ++ "{attributes, timestamp}" ++ nl
     ++ "ORDER events.asc()" ++ nl.

Record optimizationTemplateValues := mkOptimizationTemplateValues {
  otSince : string; otUntil : string; otSolutionName : string; otFilter : string
}.

Definition optimizationTemplate (v : optimizationTemplateValues) : string :=
  nl ++ withField (otSince v) "SINCE " nl
     ++ withField (otUntil v) "UNTIL " nl
     ++ "FETCH attributes(optimize.optimization.optimizer_id)" ++ nl
     ++ "FROM entities(" ++ otSolutionName v ++ ":optimization)[" ++ otFilter v ++ "]" ++ nl.

(** ** Results of a command and of one follow poll *)

(** What a [RunE] closure does at its end: it returns (an error or nil), or,
    for [listEvents] only, it enters the follow loop on the last data set. *)
Inductive cmdResult : Type :=
| Returned (err : option error)
| EnterFollow (data_set : DataSet).

Record followEventResult := mkFollowEventResult {
  fr_data_set : option DataSet;
  fr_err : option error;
  cursorExhausted : bool
}.

(** [append(s, x)] *)
Definition Append {A} (s : list A) (x : A) : list A := (s ++ [x])%list.

(** A type assertion [v.(string)] without the [ok] result. *)
Definition assertString (v : any) : outcome string :=
  match v with
  | AString s => Ret s
  | _ => Panicked (PanicTypeAssertion "string" v)
  end.

(** [m[key]] on a [map[string]any]: the nil interface for an absent key. *)
Definition mapIndex (m : gmap string any) (key : string) : any :=
  default ANil (m !! key).

Section Commands.

Context {W : Type}.

(** [uql.ClientV1.ExecuteQuery] and [uql.ClientV1.ContinueQuery]: a
    response or a transport error, and the next state of the service. *)
Variable ExecuteQuery : string -> W -> (Response + string) * W.
Variable ContinueQuery : option DataSet -> string -> W -> (Response + string) * W.

(** [strconv.Quote], which [%q] applies to a string. *)
Variable Quote : string -> string.

(** [sliceToMap], defined elsewhere in the package: the key/value pairs of
    an attribute bag as a map. Both callers drop its error. *)
Variable sliceToMap : list (list any) -> gmap string any.

(** The order in which [range] visits a map, which Go leaves open: one
    order per recommendation row. *)
Variable mapRange : nat -> gmap string any -> list (string * any).

Local Open Scope go_scope.

Definition executeQuery (query : string) : M W (Response + string) :=
  fun s =>
    let '(r, w) := ExecuteQuery query (world s) in
    (Ret r, mkSt w (trace s ++ [EvExecuteQuery query])).

Definition continueQuery (data_set : option DataSet) (link : string)
  : M W (Response + string) :=
  fun s =>
    let '(r, w) := ContinueQuery data_set link (world s) in
    (Ret r, mkSt w (trace s ++ [EvContinueQuery data_set link])).

(** [if resp.HasErrors() { log.Error(headline); for ... log.Errorf("%s: %s", ...) }] *)
Definition logErrors (headline : string) (resp : Response) : M W unit :=
  if HasErrors resp then
    do emit (EvLog LvlError headline) then
    forEach (Errors resp)
      (fun e => emit (EvLog LvlError (Title e ++ ": " ++ Detail e)))
  else ret tt.

(** *** [extractEventsData] (lines 702-717) *)

Fixpoint extractEventsRows (rows : list (list any)) (results : list EventsRow)
  : outcome (list EventsRow * option error) :=
  match rows with
  | [] => Ret (results, None)
  | row :: rows' =>
      match row !! 0%nat with
      | None => Panicked (PanicIndexOutOfRange 0 (length row))
      | Some (AComplexData attributes) =>
          let attributesMap := sliceToMap (cdData attributes) in
          match row !! 1%nat with
          | None => Panicked (PanicIndexOutOfRange 1 (length row))
          | Some (ATime timestamp) =>
              extractEventsRows rows'
                (results ++ [mkEventsRow timestamp attributesMap])
          | Some cell => Panicked (PanicTypeAssertion "time.Time" cell)
          end
      | Some cell => Panicked (PanicTypeAssertion "uql.ComplexData" cell)
      end
  end.

Definition extractEventsData (dataset : option DataSet)
  : outcome (list EventsRow * option error) :=
  match dataset with
  | None => Ret ([], None)
  | Some d => extractEventsRows (Data d) []
  end.

(** *** [extractStartedBlockersData] (lines 676-700) *)

Fixpoint extractStartedBlockersRows (rows : list (list any))
    (results : gmap string (gmap string any))
  : outcome (gmap string (gmap string any) * option error) :=
  match rows with
  | [] => Ret (results, None)
  | row :: rows' =>
      match row !! 0%nat with
      | None => Panicked (PanicIndexOutOfRange 0 (length row))
      | Some (AComplexData attributes) =>
          let attributesMap := sliceToMap (cdData attributes) in
          let newAttributes :=
            filter (fun kv => Strings.HasPrefix (fst kv) "optimize.ignored_blockers" = true)
                   attributesMap in
          match assertString (mapIndex attributesMap "optimize.optimization.optimizer_id") with
          | Ret id =>
              match assertString (mapIndex attributesMap "optimize.optimization.num") with
              | Ret num =>
                  let uniqueKey := id ++ "-" ++ num in
                  extractStartedBlockersRows rows' (<[uniqueKey := newAttributes]> results)
              | Panicked p => Panicked p
              | OutOfFuel => OutOfFuel
              end
          | Panicked p => Panicked p
          | OutOfFuel => OutOfFuel
          end
      | Some cell => Panicked (PanicTypeAssertion "uql.ComplexData" cell)
      end
  end.

Definition extractStartedBlockersData (dataset : option DataSet)
  : outcome (gmap string (gmap string any) * option error) :=
  match dataset with
  | None => Ret (∅, None)
  | Some d => extractStartedBlockersRows (Data d) ∅
  end.

(** *** [listOptimizations] (lines 737-826) *)

(** The row loop of one page, lines 781-790 and 811-820; [where_] is
    [""] on the first page and ["page N "] on the later ones. *)
Fixpoint optimizationIds (where_ : string) (index : nat) (rows : list (list any))
    (results : list string) : list string * option error :=
  match rows with
  | [] => (results, None)
  | row :: rows' =>
      match row with
      | [] =>
          (results, Some (Errorf (where_ ++ "optimization data row " ++ pretty index
                                    ++ " has no columns")))
      | AString idStr :: _ =>
          optimizationIds where_ (S index) rows' (results ++ [idStr])
      | cell :: _ =>
          (results, Some (ErrorfT (where_ ++ "optimization data row " ++ pretty index
                                     ++ " value %v (type %T) could not be converted to string")
                                  cell))
      end
  end.

Definition hasLink (d : DataSet) (link : string) : bool :=
  bool_decide (is_Some (Links d !! link)).

(** The loop [for page := 2; next_ok; page++], entered with [next_ok]. *)
Fixpoint optimizationPages (fuel page : nat) (mainDataSet : DataSet)
    (results : list string) : M W (list string * option error) :=
  match fuel with
  | O => outOfFuel
  | S fuel' =>
      let* r := continueQuery (Some mainDataSet) "next" in
      match r with
      | inr e =>
          ret (results, Some (Wrap ("page " ++ pretty page ++ " uql.ClientV1.ContinueQuery")
                                   (ClientError e)))
      | inl resp =>
          do logErrors ("Continuation of optimization query (page " ++ pretty page
                          ++ ") encountered errors. Returned data may not be complete!") resp
          then
          match Main resp with
          | None =>
              do emit (EvLog LvlError
                         ("Continuation of optimization query (page " ++ pretty page
                            ++ ") has nil main data. Returned data may not be complete!"))
              then ret (results, None)
          | Some mainDataSet' =>
              match optimizationIds ("page " ++ pretty page ++ " ") 0 (Data mainDataSet') results with
              | (results', Some e) => ret (results', Some e)
              | (results', None) =>
                  if hasLink mainDataSet' "next"
                  then optimizationPages fuel' (S page) mainDataSet' results'
                  else ret (results', None)
              end
          end
      end
  end.

Definition listOptimizations (fuel : nat) (flags : eventsFlags)
  : M W (list string * option error) :=
  let filterList : list string := [] in
  let filterList :=
    if decide (namespace flags <> "")
    then Append filterList ("attributes(" ++ dq ++ "k8s.namespace.name" ++ dq ++ ") = "
                              ++ Quote (namespace flags))
    else filterList in
  let filterList :=
    if decide (workloadName flags <> "")
    then Append filterList ("attributes(" ++ dq ++ "k8s.workload.name" ++ dq ++ ") = "
                              ++ Quote (workloadName flags))
    else filterList in
  if (length filterList <? 1)%nat then
    ret ([], Some (Errorf "sanity check failed, optimizations query must at least filter on namespace or workload name, otherwise this query can be skipped"))
  else
    let filterList :=
      if decide (clusterId flags <> "")
      then Append filterList ("attributes(" ++ dq ++ "k8s.cluster.id" ++ dq ++ ") = "
                                ++ Quote (clusterId flags))
      else filterList in
    let tempVals :=
      mkOptimizationTemplateValues (since flags) (until flags) (solutionName flags)
        (Strings.Join filterList " && ") in
    let query := optimizationTemplate tempVals in
    let* r := executeQuery query in
    match r with
    | inr e => ret ([], Some (Wrap "uql.ClientV1.ExecuteQuery" (ClientError e)))
    | inl resp =>
        do logErrors "Execution of optimization query encountered errors. Returned data may not be complete!" resp
        then
        match Main resp with
        | None => ret ([], None)
        | Some mainDataSet =>
            match optimizationIds "" 0 (Data mainDataSet) [] with
            | (results, Some e) => ret (results, Some e)
            | (results, None) =>
                if hasLink mainDataSet "next"
                then optimizationPages fuel 2 mainDataSet results
                else ret (results, None)
            end
        end
    end.

(** *** The code the two commands share

    [listEvents] and [listRecommendations] repeat the same text for the
    filter (lines 171-189 and 472-490), the cap (191-196 and 492-497), the
    first page (204-232 and 505-533) and the page loop (248-281 and
    545-578); the copies differ in the words "events"/"recommendations"
    and "event"/"recommendation" of their messages, the parameters
    [what] and [noun] here. *)

(** The filter. [inl] is an early [return] of the command. *)
Definition filterClauses (fuel : nat) (flags : eventsFlags)
  : M W (option error + list string) :=
  let filterList : list string := [] in
  let filterList :=
    if decide (clusterId flags <> "")
    then Append filterList ("attributes(k8s.cluster.id) = " ++ Quote (clusterId flags))
    else filterList in
  if decide (optimizerId flags <> "") then
    ret (inr (Append filterList
                ("attributes(optimize.optimization.optimizer_id) = "
                   ++ Quote (optimizerId flags))))
  else if decide (namespace flags <> "" \/ workloadName flags <> "") then
    let* res := listOptimizations fuel flags in
    match res with
    | (_, Some err) => ret (inl (Some (Wrap "listOptimizations" err)))
    | (optimizerIds, None) =>
        if (length optimizerIds <? 1)%nat then
          do emit (EvStatus ("No optimization entities found matching the given criteria" ++ nl))
          then ret (inl None)
        else
          let optIdStr := Strings.Join optimizerIds (dq ++ ", " ++ dq) in
          ret (inr (Append filterList
                      ("attributes(optimize.optimization.optimizer_id) IN [" ++ dq
                         ++ optIdStr ++ dq ++ "]")))
    end
  else ret (inr filterList).

(** The cap: the text of [tempVals.Limits], or the error. *)
Definition limits (flags : eventsFlags) : error + string :=
  if decide (count flags <> -1) then
    if decide (count flags > 1000)
    then inl (Errorf "counts higher than 1000 are not supported")
    else inr (Itoa (count flags))
  else inr "".

(** The first page: the query is executed and its rows extracted. [inl]
    is an early [return]. *)
Definition firstPage (what noun query : string)
  : M W (option error + list EventsRow * option DataSet) :=
  let* r := executeQuery query in
  match r with
  | inr e => ret (inl (Some (Wrap "uql.ClientV1.ExecuteQuery" (ClientError e))))
  | inl resp =>
      do logErrors ("Execution of " ++ what
                      ++ " query encountered errors. Returned data may not be complete!") resp
      then
      match Main resp with
      | None =>
          do emit (EvStatus ("No " ++ noun ++ " results found for given input" ++ nl))
          then ret (inl None)
      | Some main_data_set =>
          match Data main_data_set with
          | [] =>
              do emit (EvStatus ("No " ++ noun ++ " results found for given input" ++ nl))
              then ret (inl None)
          | [] :: _ =>
              ret (inl (Some (Errorf ("main dataset " ++ Name main_data_set
                                        ++ " first row has no columns"))))
          | (ADataSet data_set :: _) :: _ =>
              let* res := lift (extractEventsData data_set) in
              match res with
              | (_, Some err) => ret (inl (Some (Wrap "extractEventsData" err)))
              | (rows, None) => ret (inr (rows, data_set))
              end
          | (cell :: _) :: _ =>
              ret (inl (Some (ErrorfT ("main dataset " ++ Name main_data_set
                                         ++ " first row first column (type %T) could not be converted to *uql.DataSet")
                                      cell)))
          end
      end
  end.

(** [_, next_ok = data_set.Links["next"]] on a pointer that may be nil. *)
Definition nextLink (data_set : option DataSet) : outcome bool :=
  match data_set with
  | None => Panicked PanicNilDereference
  | Some d => Ret (hasLink d "next")
  end.

(** The loop [for page := 2; next_ok; page++], entered with [next_ok]:
    the rows of all pages and the last data set, or the error returned. *)
Fixpoint continuePages (what : string) (fuel page : nat)
    (data_set : option DataSet) (rows : list EventsRow)
  : M W (error + list EventsRow * option DataSet) :=
  match fuel with
  | O => outOfFuel
  | S fuel' =>
      let* r := continueQuery data_set "next" in
      match r with
      | inr e =>
          ret (inl (Wrap ("page " ++ pretty page ++ " uql.ClientV1.ContinueQuery")
                         (ClientError e)))
      | inl resp =>
          do logErrors ("Continuation of " ++ what ++ " query (page " ++ pretty page
                          ++ ") encountered errors. Returned data may not be complete!") resp
          then
          match Main resp with
          | None =>
              do emit (EvLog LvlError
                         ("Continuation of " ++ what ++ " query (page " ++ pretty page
                            ++ ") has nil main data. Returned data may not be complete!"))
              then ret (inr (rows, data_set))
          | Some main_data_set =>
              match Data main_data_set with
              | [] =>
                  ret (inl (Errorf ("page " ++ pretty page ++ " main dataset "
                                      ++ Name main_data_set ++ " has no rows")))
              | [] :: _ =>
                  ret (inl (Errorf ("page " ++ pretty page ++ " main dataset "
                                      ++ Name main_data_set ++ " first row has no columns")))
              | (ADataSet data_set' :: _) :: _ =>
                  let* res := lift (extractEventsData data_set') in
                  match res with
                  | (_, Some err) =>
                      ret (inl (Wrap ("page " ++ pretty page ++ " extractEventsData") err))
                  | (newRows, None) =>
                      let rows' := (rows ++ newRows)%list in
                      let* next_ok := lift (nextLink data_set') in
                      if next_ok : bool
                      then continuePages what fuel' (S page) data_set' rows'
                      else ret (inr (rows', data_set'))
                  end
              | (cell :: _) :: _ =>
                  ret (inl (ErrorfT ("page " ++ pretty page ++ " main dataset "
                                       ++ Name main_data_set
                                       ++ " first row first column (type %T) could not be converted to *uql.DataSet")
                                    cell))
              end
          end
      end
  end.

(** *** [listEvents] (lines 154-321), up to the follow loop

    [text/template] cannot fail on these templates and values, so the
    [Execute] error branches are not taken. The closure is cut in two at
    line 189, after the filter list: [eventsQuery] is the rest. The
    [append] of line 163 writes to the caller's flags, which the closure
    does not read again. *)

Definition eventsTempVals (flags : eventsCmdFlags) (filterList : list string)
    (tvLimits : string) : eventsTemplateValues :=
  let f := evFlags flags in
  let events_ :=
    if includeProgress flags then (events flags ++ progressEvents)%list else events flags in
  let fullyQualifiedEvents := map (fun value => solutionName f ++ ":" ++ value) events_ in
  mkEventsTemplateValues (since f) (until f)
    (Strings.Join fullyQualifiedEvents ("," ++ nl ++ tab ++ tab))
    (Strings.Join filterList " && ") tvLimits.

Definition eventsQuery (fuel : nat) (flags : eventsCmdFlags) (filterList : list string)
  : M W cmdResult :=
  let f := evFlags flags in
  match limits f with
  | inl e => ret (Returned (Some e))
  | inr tvLimits =>
      let query := eventsTemplate (eventsTempVals flags filterList tvLimits) in
      let* page1 := firstPage "events" "event" query in
      match page1 with
      | inl early => ret (Returned early)
      | inr (eventRows, data_set) =>
          let next_ok :=
            match data_set with Some d => hasLink d "next" | None => false end in
          let next_ok := if decide (count f <> -1) then false else next_ok in
          let next_ok := if follow f then false else next_ok in
          let* pages :=
            (if next_ok then continuePages "events" fuel 2 data_set eventRows
             else ret (inr (eventRows, data_set))) in
          match pages with
          | inl e => ret (Returned (Some e))
          | inr (eventRows, data_set) =>
              do emit (EvOutputEvents eventRows (length eventRows)) then
              match follow f, data_set with
              | true, Some d => ret (EnterFollow d)
              | _, _ => ret (Returned None)
              end
          end
      end
  end.

Definition listEvents (fuel : nat) (flags : eventsCmdFlags) : M W cmdResult :=
  let* fl := filterClauses fuel (evFlags flags) in
  match fl with
  | inl early => ret (Returned early)
  | inr filterList => eventsQuery fuel flags filterList
  end.

(** *** [followDatasetAndPrint] (lines 329-374) *)

Definition followDatasetAndPrint (data_set : option DataSet) : M W followEventResult :=
  let* r := continueQuery data_set "follow" in
  match r with
  | inr e =>
      ret (mkFollowEventResult None
             (Some (Wrap "follow uql.ClientV1.ContinueQuery" (ClientError e))) false)
  | inl resp =>
      do logErrors "Following of events query encountered errors. Returned data may not be complete!" resp
      then
      match Main resp with
      | None =>
          do emit (EvLog LvlError "Following of events query has nil main data. Returned data may not be complete!")
          then ret (mkFollowEventResult data_set None false)
      | Some main_data_set =>
          match Data main_data_set with
          | [] =>
              ret (mkFollowEventResult None
                     (Some (Errorf ("follow main dataset " ++ Name main_data_set
                                      ++ " has no rows"))) false)
          | [] :: _ =>
              ret (mkFollowEventResult None
                     (Some (Errorf ("follow main dataset " ++ Name main_data_set
                                      ++ " first row has no columns"))) false)
          | (ADataSet data_set' :: _) :: _ =>
              let* res := lift (extractEventsData data_set') in
              match res with
              | (_, Some err) =>
                  ret (mkFollowEventResult data_set'
                         (Some (Wrap "follow extractEventsData" err)) false)
              | (newRows, None) =>
                  let newRowsCount := length newRows in
                  if (0 <? newRowsCount)%nat then
                    do emit (EvOutputEventsCustom newRows newRowsCount)
                    then ret (mkFollowEventResult data_set' None false)
                  else ret (mkFollowEventResult data_set' None true)
              end
          | (cell :: _) :: _ =>
              ret (mkFollowEventResult None
                     (Some (ErrorfT ("follow main dataset " ++ Name main_data_set
                                       ++ " first row first column (type %T) could not be converted to *uql.DataSet")
                                    cell)) false)
          end
      end
  end.

(** *** [getOptimizationBlockerData] (lines 636-674) *)

Definition getOptimizationBlockerData (tempVals : recommendationsTemplateValues)
  : M W (gmap string (gmap string any) * option error) :=
  let query := optimizationStartedTemplate tempVals in
  let* r := executeQuery query in
  match r with
  | inr e => ret (∅, Some (Wrap "uql.ExecuteQuery" (ClientError e)))
  | inl resp =>
      do logErrors "Execution of optimization_started query encountered errors. Returned data may not be complete!" resp
      then
      match Main resp with
      | None =>
          ret (∅, Some (Errorf "no optimization_started results found for given input"))
      | Some main_data_set =>
          match Data main_data_set with
          | [] =>
              ret (∅, Some (Errorf "no optimization_started results found for given input"))
          | [] :: _ =>
              ret (∅, Some (Errorf ("main dataset " ++ Name main_data_set
                                      ++ " first row has no columns")))
          | (ADataSet data_set :: _) :: _ =>
              let* res := lift (extractStartedBlockersData data_set) in
              match res with
              | (_, Some err) => ret (∅, Some (Wrap "extractStartedBlockersData" err))
              | (startedBlockersData, None) => ret (startedBlockersData, None)
              end
          | (cell :: _) :: _ =>
              ret (∅, Some (ErrorfT ("main dataset " ++ Name main_data_set
                                       ++ " first row first column (type %T) could not be converted to *uql.DataSet")
                                    cell))
          end
      end
  end.

(** *** The blocker join of [listRecommendations] (lines 589-625) *)

(** The body of [for attr, val := range startedRow] (lines 605-616), on
    the pair of [BlockersAttributes] and [Blockers]. *)
Definition mergeBlocker (acc : gmap string any * list string) (kv : string * any)
  : gmap string any * list string :=
  let '(blockersAttributes, blockers) := acc in
  let '(attr, val) := kv in
  let blockersAttributes := <[attr := val]> blockersAttributes in
  if negb (Strings.Contains attr "principal") then
    let splitAttr := Strings.Split attr "." in
    if (3 <? length splitAttr)%nat then
      match splitAttr !! (length splitAttr - 2)%nat with
      | Some blockerID =>
          if negb (Strings.Contains (Strings.Join blockers ",") blockerID)
          then (blockersAttributes, Append blockers blockerID)
          else (blockersAttributes, blockers)
      | None => (blockersAttributes, blockers)
      end
    else (blockersAttributes, blockers)
  else (blockersAttributes, blockers).

Definition mergeBlockers (visited : list (string * any))
  : gmap string any * list string :=
  fold_left mergeBlocker visited (∅, []).

(** One turn of [for i := range recommendationRows]. *)
Definition joinRow (blockerRows : gmap string (gmap string any))
    (i : nat) (row : EventsRow) : M W recommendationRow :=
  let optimizerId := mapIndex (EventAttributes row) "optimize.optimization.optimizer_id" in
  let optimizationNum := mapIndex (EventAttributes row) "optimize.optimization.num" in
  let* id := lift (assertString optimizerId) in
  let* num := lift (assertString optimizationNum) in
  let uniqueKey := id ++ "-" ++ num in
  match blockerRows !! uniqueKey with
  | None =>
      do emit (EvLog LvlWarn
                 ("No optimization_started event found for recommendation with optimizer_id: "
                    ++ id ++ " and num: " ++ num))
      then ret (mkRecommendationRow row ∅ "false" [])
  | Some startedRow =>
      let '(blockersAttributes, blockers) := mergeBlockers (mapRange i startedRow) in
      let blockersPresent := if (0 <? length blockers)%nat then "true" else "false" in
      ret (mkRecommendationRow row blockersAttributes blockersPresent blockers)
  end.

Fixpoint joinRows (blockerRows : gmap string (gmap string any))
    (i : nat) (rows : list EventsRow) (acc : list recommendationRow)
  : M W (list recommendationRow) :=
  match rows with
  | [] => ret acc
  | row :: rows' =>
      let* r := joinRow blockerRows i row in
      joinRows blockerRows (S i) rows' (Append acc r)
  end.

(** *** [listRecommendations] (lines 462-634)

    The closure is cut in three: the filter, [recommendationsQuery] from
    line 490 on, which fetches the recommendation rows, and
    [recommendationsJoin] from line 580 on, which fetches the blocker rows
    and joins. *)

Definition recommendationsTempVals (flags : recommendationsCmdFlags)
    (filterList : list string) (tvLimits : string) : recommendationsTemplateValues :=
  let f := recFlags flags in
  mkRecommendationsTemplateValues (since f) (until f) (includeInvalidated flags)
    (Strings.Join filterList " && ") tvLimits (solutionName f).

Definition recommendationsJoin (tempVals : recommendationsTemplateValues)
    (recommendationRows : list EventsRow) : M W cmdResult :=
  let* blk := getOptimizationBlockerData tempVals in
  match blk with
  | (_, Some err) =>
      ret (Returned (Some (Wrap "failed to retrieve optimization_started blocker data" err)))
  | (blockerRows, None) =>
      let* recommendationRowsWithBlockers :=
        joinRows blockerRows 0 recommendationRows [] in
      do emit (EvOutputRecommendations recommendationRowsWithBlockers
                 (length recommendationRowsWithBlockers))
      then ret (Returned None)
  end.

Definition recommendationsQuery (fuel : nat) (flags : recommendationsCmdFlags)
    (filterList : list string) : M W cmdResult :=
  let f := recFlags flags in
  match limits f with
  | inl e => ret (Returned (Some e))
  | inr tvLimits =>
      let tempVals := recommendationsTempVals flags filterList tvLimits in
      let query := recommendationsTemplate tempVals in
      let* page1 := firstPage "recommendations" "recommendation" query in
      match page1 with
      | inl early => ret (Returned early)
      | inr (recommendationRows, data_set) =>
          let next_ok :=
            match data_set with Some d => hasLink d "next" | None => false end in
          let next_ok := if decide (count f <> -1) then false else next_ok in
          let* pages :=
            (if next_ok
             then continuePages "recommendations" fuel 2 data_set recommendationRows
             else ret (inr (recommendationRows, data_set))) in
          match pages with
          | inl e => ret (Returned (Some e))
          | inr (recommendationRows, _) => recommendationsJoin tempVals recommendationRows
          end
      end
  end.

Definition listRecommendations (fuel : nat) (flags : recommendationsCmdFlags)
  : M W cmdResult :=
  let* fl := filterClauses fuel (recFlags flags) in
  match fl with
  | inl early => ret (Returned early)
  | inr filterList => recommendationsQuery fuel flags filterList
  end.

(** *** The follow loop of [listEvents] (lines 289-317)

    The loop runs in the goroutine of the command (the foreground), which
    blocks in [select] on the [interrupt] channel and on [followChan], and
    in the goroutine it starts for every result it receives (the
    background), which sleeps if the cursor was exhausted, polls, and
    sends its result to [followChan]. A state holds both, the two
    channels (each of capacity one) and the state of the run. *)

Inductive foreground : Type :=
| Selecting
| Exited (err : option error).

Inductive goroutine : Type :=
| Idle
| Started (followResult : followEventResult)
| Polling (followResult : followEventResult)
| Sending (result : followEventResult)
| Crashed (p : panic).

Record followState := mkFollowState {
  fg : foreground;
  interrupt : bool;
  followChan : option followEventResult;
  bg : goroutine;
  st : St W
}.

(** The steps: a signal arrives; the [select] takes the [interrupt] case;
    the [select] takes a result and returns its error; the [select] takes
    a result and starts the goroutine; the goroutine passes its [if
    followResult.cursorExhausted { time.Sleep(...) }]; it calls
    [followDatasetAndPrint]; it sends the result. *)
Inductive action : Type :=
| ASignal | AExit | AReturnErr | ADispatch | ASleep | APoll | ASend.

Definition crashed (s : followState) : bool :=
  match bg s with Crashed _ => true | _ => false end.

(** One step, where it is enabled. A panic ends the program: no step
    follows it. The goroutine already started runs on when the foreground
    has returned. *)
Definition followStep (interval : Z) (a : action) (s : followState)
  : option followState :=
  if crashed s then None else
  match a with
  | ASignal => Some (mkFollowState (fg s) true (followChan s) (bg s) (st s))
  | AExit =>
      match fg s, interrupt s with
      | Selecting, true =>
          Some (mkFollowState (Exited None) false (followChan s) (bg s) (st s))
      | _, _ => None
      end
  | AReturnErr =>
      match fg s, followChan s with
      | Selecting, Some followResult =>
          match fr_err followResult with
          | Some err =>
              Some (mkFollowState (Exited (Some err)) (interrupt s) None (bg s) (st s))
          | None => None
          end
      | _, _ => None
      end
  | ADispatch =>
      match fg s, followChan s with
      | Selecting, Some followResult =>
          match fr_err followResult with
          | Some _ => None
          | None =>
              Some (mkFollowState Selecting (interrupt s) None (Started followResult)
                      (mkSt (world (st s))
                            (trace (st s) ++ [EvGo (fr_data_set followResult)])))
          end
      | _, _ => None
      end
  | ASleep =>
      match bg s with
      | Started followResult =>
          Some (mkFollowState (fg s) (interrupt s) (followChan s) (Polling followResult)
                  (mkSt (world (st s))
                        (trace (st s)
                           ++ (if cursorExhausted followResult
                               then [EvSleep interval] else []))))
      | _ => None
      end
  | APoll =>
      match bg s with
      | Polling followResult =>
          match followDatasetAndPrint (fr_data_set followResult) (st s) with
          | (Ret result, st') =>
              Some (mkFollowState (fg s) (interrupt s) (followChan s) (Sending result) st')
          | (Panicked p, st') =>
              Some (mkFollowState (fg s) (interrupt s) (followChan s) (Crashed p) st')
          | (OutOfFuel, _) => None
          end
      | _ => None
      end
  | ASend =>
      match bg s, followChan s with
      | Sending result, None =>
          Some (mkFollowState (fg s) (interrupt s) (Some result) Idle (st s))
      | _, _ => None
      end
  end.

Fixpoint followRun (interval : Z) (acts : list action) (s : followState)
  : option followState :=
  match acts with
  | [] => Some s
  | a :: acts' =>
      match followStep interval a s with
      | Some s' => followRun interval acts' s'
      | None => None
      end
  end.

(** The state in which [listEvents] enters the loop: [followChan] holds
    the last data set of the first fetch. *)
Definition followInit (data_set : DataSet) (s : St W) : followState :=
  mkFollowState Selecting false
    (Some (mkFollowEventResult (Some data_set) None false)) Idle s.

(** A goroutine is in flight only while [followChan] is empty. *)
Definition handoff (s : followState) : Prop :=
  match followChan s with
  | Some _ => bg s = Idle
  | None => True
  end.

End Commands.

(** ** Reference definitions for the blocker join *)

(** The blocker id an attribute name proposes: the segment before the last
    one, for a name without "principal" and with more than three segments. *)
Definition blockerIdOf (attr : string) : option string :=
  if Strings.Contains attr "principal" then None
  else
    let splitAttr := Strings.Split attr "." in
    if (3 <? length splitAttr)%nat then splitAttr !! (length splitAttr - 2)%nat else None.

Definition candidates (visited : list (string * any)) : list string :=
  omap (fun kv => blockerIdOf (fst kv)) visited.

(** As the spec words it: the segment before the last one of every name
    without "principal". *)
Definition specBlockerIdOf (attr : string) : option string :=
  if Strings.Contains attr "principal" then None
  else
    let splitAttr := Strings.Split attr "." in
    splitAttr !! (length splitAttr - 2)%nat.

Definition specCandidates (visited : list (string * any)) : list string :=
  omap (fun kv => specBlockerIdOf (fst kv)) visited.

(** An ordered set of strings: [x] joins at the end unless it is there. *)
Definition addOnce (ids : list string) (x : string) : list string :=
  if decide (x ∈ ids) then ids else Append ids x.

Definition dedupFirst (xs : list string) : list string := fold_left addOnce xs [].

Fixpoint occurs (c : ascii) (s : string) : bool :=
  match s with
  | EmptyString => false
  | String d s' => Ascii.eqb d c || occurs c s'
  end.

(** Ids that cannot be mistaken for one another inside a comma-joined
    list: none is empty, none holds a comma, none lies inside another. *)
Definition separated (ids : list string) : bool :=
  forallb (fun a => negb (String.eqb a "") && negb (occurs "," a)) ids
  && forallb (fun a => forallb (fun b => implb (Strings.Contains a b) (String.eqb a b)) ids) ids.

(** ** A scripted service, for concrete runs *)

(** The service answers the calls it receives with the responses of a list,
    in order, whatever the call; past the end it reports a transport error. *)
Module Scripted.

Definition W : Type := list (Response + string).

Definition answer (w : W) : (Response + string) * W :=
  match w with
  | r :: w' => (r, w')
  | [] => (inr "no response", [])
  end.

Definition ExecuteQuery (query : string) (w : W) := answer w.
Definition ContinueQuery (data_set : option DataSet) (link : string) (w : W) := answer w.

(** Quoting of a string without special bytes. *)
Definition Quote (s : string) : string := dq ++ s ++ dq.

(** Modelled from the spec: [sliceToMap], which the package defines outside
    this file: "a list of key/value pairs to be flattened into a mapping -
    later duplicate keys within one bag overwrite earlier ones". Pairs that
    are not a string key and a value are passed over. *)
Definition sliceToMap (slice : list (list any)) : gmap string any :=
  fold_left
    (fun results subslice =>
       match subslice with
       | AString key :: val :: _ => <[key := val]> results
       | _ => results
       end)
    slice ∅.

End Scripted.

(** ** Traces *)

(** The events [logErrors headline resp] adds to the trace. *)
Definition errorLog (headline : string) (resp : Response) : list event :=
  if HasErrors resp
  then EvLog LvlError headline
         :: map (fun e => EvLog LvlError (Title e ++ ": " ++ Detail e)) (Errors resp)
  else [].

(** A run only adds to the trace, and every event it adds satisfies [P]. *)
Definition emits {W A : Type} (P : event -> bool) (c : M W A) : Prop :=
  forall s, exists t, trace (snd (c s)) = (trace s ++ t)%list /\ forallb P t = true.

Definition notQuery (e : event) : bool := negb (isQuery e).
Definition notContinue (e : event) : bool := negb (isContinue e).
Definition notGo (e : event) : bool := negb (isGo e).

(** ** Concrete inputs *)

Module Inputs.

(** The order of a visit: the one [map_to_list] gives. *)
Definition mapRange (i : nat) (m : gmap string any) : list (string * any) :=
  map_to_list m.

(** A recommendation event of optimizer "ns-wl-abc", optimization 3. *)
Definition recommendationAttributes : gmap string any :=
  {[ "optimize.optimization.optimizer_id" := AString "ns-wl-abc";
     "optimize.optimization.num" := AString "3" ]}.

Definition recommendation : EventsRow := mkEventsRow 1700000000 recommendationAttributes.

(** The same event without its "optimize.optimization.num". *)
Definition recommendationNoNum : EventsRow :=
  mkEventsRow 1700000000 {[ "optimize.optimization.optimizer_id" := AString "ns-wl-abc" ]}.

(** Blocker attributes of a started event: cpu-limit ignored by a
    principal for a reason, and a second blocker. *)
Definition startedRow : gmap string any :=
  {[ "optimize.ignored_blockers.cpu-limit.principal" := AString "alice";
     "optimize.ignored_blockers.cpu-limit.reason" := AString "approved";
     "optimize.ignored_blockers.cpu-limit.timestamp" := AString "2023-07-31";
     "optimize.ignored_blockers.memory.reason" := AString "approved" ]}.

Definition blockerRows : gmap string (gmap string any) :=
  {[ "ns-wl-abc-3" := startedRow ]}.

(** A lookup entry whose only attribute name has three segments. *)
Definition shortRow : gmap string any :=
  {[ "optimize.ignored_blockers.reason" := AString "approved" ]}.

Definition shortBlockerRows : gmap string (gmap string any) :=
  {[ "ns-wl-abc-3" := shortRow ]}.

(** Two blockers, the id of one inside the id of the other, visited
    longest first. *)
Definition nestedVisit : list (string * any) :=
  [ ("optimize.ignored_blockers.cpu-limit.reason", AString "approved");
    ("optimize.ignored_blockers.cpu.reason", AString "approved") ].

Definition s0 : St Scripted.W := mkSt [] [].

(** Cells, rows and pages as the service sends them. *)
Definition bag (kvs : list (string * string)) : any :=
  AComplexData (mkComplexData (map (fun kv => [AString (fst kv); AString (snd kv)]) kvs)).

Definition eventRow (kvs : list (string * string)) (t : Z) : list any :=
  [bag kvs; ATime t].

Definition dataSet (rows : list (list any)) (links : gmap string string) : DataSet :=
  mkDataSet "events" rows links.

Definition page (rows : list (list any)) (links : gmap string string) : Response :=
  mkResponse [] (Some (mkDataSet "main" [[ADataSet (Some (dataSet rows links))]] ∅)).

Definition nilMain : Response := mkResponse [] None.

Definition noRows : Response := mkResponse [] (Some (mkDataSet "main" [] ∅)).

Definition nextAndFollow : gmap string string :=
  {[ "next" := "/monitoring/v1/query/continue?cursor=n1";
     "follow" := "/monitoring/v1/query/continue?cursor=f1" ]}.

Definition followOnly : gmap string string :=
  {[ "follow" := "/monitoring/v1/query/continue?cursor=f2" ]}.

Definition recommendationEvent : list any :=
  eventRow [ ("optimize.optimization.optimizer_id", "ns-wl-abc");
             ("optimize.optimization.num", "3");
             ("optimize.recommendation.state", "Verified") ] 1700000000.

Definition recommendationEventNoNum : list any :=
  eventRow [ ("optimize.optimization.optimizer_id", "ns-wl-abc");
             ("optimize.recommendation.state", "Verified") ] 1700000000.

Definition startedEvent : list any :=
  eventRow [ ("optimize.optimization.optimizer_id", "ns-wl-abc");
             ("optimize.optimization.num", "3");
             ("optimize.ignored_blockers.cpu-limit.principal", "alice");
             ("optimize.ignored_blockers.cpu-limit.reason", "approved") ] 1690000000.

Definition otherEvent : list any :=
  eventRow [ ("optimize.optimization.optimizer_id", "ns-wl-abc");
             ("appd.event.type", "optimize:stage_started") ] 1700000100.

(** One row of the entity lookup. *)
Definition entities (ids : list string) : Response :=
  mkResponse [] (Some (mkDataSet "main" (map (fun id => [AString id]) ids) ∅)).

(** Flags, as the flag layer fills them. *)
Definition byOptimizer (count : Z) (follow : bool) : eventsFlags :=
  mkEventsFlags "" "" "" "ns-wl-abc" "" "" count follow 60000000000 "optimize".

Definition byNamespace (count : Z) : eventsFlags :=
  mkEventsFlags "" "payments" "" "" "-7d" "" count false 60000000000 "optimize".

Definition eventsCmd (f : eventsFlags) : eventsCmdFlags :=
  mkEventsCmdFlags f false defaultEvents.

Definition recommendationsCmd (f : eventsFlags) : recommendationsCmdFlags :=
  mkRecommendationsCmdFlags f false.

Definition start (script : Scripted.W) : St Scripted.W := mkSt script [].

End Inputs.

(** ** Reference definitions for the follow loop *)

(** The error of a follow poll whose main data set has the wrong shape: no
    rows, a first row without columns, or a first cell that is not a data
    set. *)
Definition followShapeError (main_data_set : DataSet) : option error :=
  match Data main_data_set with
  | [] => Some (Errorf ("follow main dataset " ++ Name main_data_set ++ " has no rows"))
  | [] :: _ =>
      Some (Errorf ("follow main dataset " ++ Name main_data_set
                      ++ " first row has no columns"))
  | (ADataSet _ :: _) :: _ => None
  | (cell :: _) :: _ =>
      Some (ErrorfT ("follow main dataset " ++ Name main_data_set
                       ++ " first row first column (type %T) could not be converted to *uql.DataSet")
                    cell)
  end.


(** ** Reference definition for the extractor *)

(** The record of a row of the expected shape: an attribute bag, then a
    timestamp, then any further columns. *)
Definition rowOf (sliceToMap : list (list any) -> gmap string any) (row : list any)
  : option EventsRow :=
  match row with
  | AComplexData attributes :: ATime timestamp :: _ =>
      Some (mkEventsRow timestamp (sliceToMap (cdData attributes)))
  | _ => None
  end.

(** ** Concrete states of the follow loop *)

Module FollowInputs.

Definition interval : Z := 60000000000.

(** The data set of the first fetch, with its "follow" link. *)
Definition first : DataSet := Inputs.dataSet [Inputs.otherEvent] Inputs.nextAndFollow.

Definition firstResult : followEventResult := mkFollowEventResult (Some first) None false.

(** The goroutine is about to poll; the service will answer with [script]. *)
Definition polling (signal : bool) (script : Scripted.W) : followState :=
  mkFollowState Selecting signal None (Polling firstResult) (Inputs.start script).

Definition step := followStep Scripted.ContinueQuery Scripted.sliceToMap interval.
Definition run := followRun Scripted.ContinueQuery Scripted.sliceToMap interval.

Definition isFollowPoll (e : event) : bool :=
  match e with
  | EvContinueQuery _ link => String.eqb link "follow"
  | _ => false
  end.

Definition isSleep (e : event) : bool :=
  match e with
  | EvSleep _ => true
  | _ => false
  end.

End FollowInputs.

(** ** Reference definitions for the page loops *)

Section Pages.

Context {W : Type}.
Variable ContinueQuery : option DataSet -> string -> W -> (Response + string) * W.
Variable sliceToMap : list (list any) -> gmap string any.

(** One page of a paginated answer: the response, the state of the service
    after it, the data set the response carries and the rows in it. *)
Record pageAnswer := mkPageAnswer {
  paResponse : Response;
  paWorld : W;
  paDataSet : DataSet;
  paRows : list EventsRow
}.

(** The service, asked in [w] to continue [ds] on "next", answers with the
    page [p]: a main data set whose first cell is the data set of [p], whose
    rows extract to the rows of [p]. *)
Definition servesNext (w : W) (ds : DataSet) (p : pageAnswer) : Prop :=
  ContinueQuery (Some ds) "next" w = (inl (paResponse p), paWorld p)
  /\ exists main_data_set rest1 rest2,
       Main (paResponse p) = Some main_data_set
       /\ Data main_data_set = (ADataSet (Some (paDataSet p)) :: rest1) :: rest2
       /\ extractEventsData sliceToMap (Some (paDataSet p)) = Ret (paRows p, None).

(** The pages that follow [ds]: each is served on the "next" link of the one
    before, and only the last has no "next" link. *)
Fixpoint servesPages (w : W) (ds : DataSet) (pages : list pageAnswer) : Prop :=
  match pages with
  | [] => False
  | [p] => servesNext w ds p /\ hasLink (paDataSet p) "next" = false
  | p :: rest =>
      servesNext w ds p /\ hasLink (paDataSet p) "next" = true
      /\ servesPages (paWorld p) (paDataSet p) rest
  end.

(** Pages that follow [ds], each served on the "next" link of the one
    before and each with a "next" link of its own: the loop goes on after
    the last of them. There may be none. *)
Fixpoint servesLinked (w : W) (ds : DataSet) (pages : list pageAnswer) : Prop :=
  match pages with
  | [] => True
  | p :: rest =>
      servesNext w ds p /\ hasLink (paDataSet p) "next" = true
      /\ servesLinked (paWorld p) (paDataSet p) rest
  end.

(** The state of the service and the data set in hand after these pages. *)
Definition pagesEnd (w : W) (ds : DataSet) (pages : list pageAnswer) : W * DataSet :=
  match last pages with
  | Some p => (paWorld p, paDataSet p)
  | None => (w, ds)
  end.

(** What the page loop adds to the trace along these pages, from page
    number [page] on. *)
Fixpoint pagesTrace (what : string) (page : nat) (ds : DataSet) (pages : list pageAnswer)
  : list event :=
  match pages with
  | [] => []
  | p :: rest =>
      (EvContinueQuery (Some ds) "next"
        :: errorLog ("Continuation of " ++ what ++ " query (page " ++ pretty page
                       ++ ") encountered errors. Returned data may not be complete!")
             (paResponse p)
        ++ pagesTrace what (S page) (paDataSet p) rest)%list
  end.

End Pages.

(** The only things a page loop does to the outside: [ContinueQuery] on
    "next", and the log. *)
Definition nextOrLog (e : event) : bool :=
  match e with
  | EvContinueQuery _ link => String.eqb link "next"
  | EvLog _ _ => true
  | _ => false
  end.

(** ** Reference definitions for the entity lookup *)

(** The id a row of the lookup gives: its first cell, when a string. *)
Definition idOfRow (row : list any) : option string :=
  match row with
  | AString idStr :: _ => Some idStr
  | _ => None
  end.

(** The error for a row that gives no id. *)
Definition optimizationRowError (where_ : string) (index : nat) (row : list any) : error :=
  match row with
  | [] => Errorf (where_ ++ "optimization data row " ++ pretty index ++ " has no columns")
  | cell :: _ =>
      ErrorfT (where_ ++ "optimization data row " ++ pretty index
                 ++ " value %v (type %T) could not be converted to string") cell
  end.

(** The error of the sanity check of [listOptimizations] (line 752). *)
Definition sanityError : error :=
  Errorf "sanity check failed, optimizations query must at least filter on namespace or workload name, otherwise this query can be skipped".

Section IdPages.

Context {W : Type}.
Variable ContinueQuery : option DataSet -> string -> W -> (Response + string) * W.

(** One page of the lookup: the response, the state of the service after
    it, the main data set of the response and the ids of its rows. *)
Record idPage := mkIdPage {
  ipResponse : Response;
  ipWorld : W;
  ipDataSet : DataSet;
  ipIds : list string
}.

Definition servesNextIds (w : W) (mainDataSet : DataSet) (p : idPage) : Prop :=
  ContinueQuery (Some mainDataSet) "next" w = (inl (ipResponse p), ipWorld p)
  /\ Main (ipResponse p) = Some (ipDataSet p)
  /\ mapM idOfRow (Data (ipDataSet p)) = Some (ipIds p).

Fixpoint servesIdPages (w : W) (mainDataSet : DataSet) (pages : list idPage) : Prop :=
  match pages with
  | [] => False
  | [p] => servesNextIds w mainDataSet p /\ hasLink (ipDataSet p) "next" = false
  | p :: rest =>
      servesNextIds w mainDataSet p /\ hasLink (ipDataSet p) "next" = true
      /\ servesIdPages (ipWorld p) (ipDataSet p) rest
  end.

End IdPages.

(** ** Reference definitions for the blocker data *)

(** The lookup entry a started event gives: the key of its optimizer id and
    optimization number, and its attributes under "optimize.ignored_blockers". *)
Definition startedEntry (sliceToMap : list (list any) -> gmap string any) (row : list any)
  : option (string * gmap string any) :=
  match row with
  | AComplexData attributes :: _ =>
      let attributesMap := sliceToMap (cdData attributes) in
      match mapIndex attributesMap "optimize.optimization.optimizer_id",
            mapIndex attributesMap "optimize.optimization.num" with
      | AString id, AString num =>
          Some (id ++ "-" ++ num,
                filter (fun kv => Strings.HasPrefix (fst kv) "optimize.ignored_blockers" = true)
                       attributesMap)
      | _, _ => None
      end
  | _ => None
  end.

Definition storeEntry (results : gmap string (gmap string any))
    (entry : string * gmap string any) : gmap string (gmap string any) :=
  <[fst entry := snd entry]> results.

(** Every attribute of every entry has the "optimize.ignored_blockers" prefix. *)
Definition onlyIgnoredBlockers (results : gmap string (gmap string any)) : Prop :=
  forall key attributes attr val,
    results !! key = Some attributes -> attributes !! attr = Some val ->
    Strings.HasPrefix attr "optimize.ignored_blockers" = true.

(** The key of a recommendation row, when both key attributes are strings. *)
Definition rowKey (row : EventsRow) : option string :=
  match mapIndex (EventAttributes row) "optimize.optimization.optimizer_id",
        mapIndex (EventAttributes row) "optimize.optimization.num" with
  | AString id, AString num => Some (id ++ "-" ++ num)
  | _, _ => None
  end.

Definition isWarning (e : event) : bool :=
  match e with
  | EvLog LvlWarn _ => true
  | _ => false
  end.

(** ** Reference definitions for the runs of the follow loop *)

Definition isFollowPoll (e : event) : bool :=
  match e with
  | EvContinueQuery _ link => String.eqb link "follow"
  | _ => false
  end.

Section FollowShape.

Context {W : Type}.

(** Either a result waits in [followChan] and no goroutine is in flight, or
    [followChan] is empty and a goroutine is in flight; once the foreground
    has returned, both may be at rest. *)
Definition oneActivity (s : followState (W := W)) : Prop :=
  match followChan s, bg s with
  | Some _, Idle => True
  | Some _, _ => False
  | None, Idle => fg s <> Selecting
  | None, _ => True
  end.

(** The state of a run that saw no signal, over the trace [base] it began
    with: no signal is pending, the foreground has not returned nil, and an
    error, wherever it sits, came after a poll on "follow". *)
Definition quietRun (base : list event) (s : followState (W := W)) : Prop :=
  exists t,
    trace (st s) = (base ++ t)%list
    /\ interrupt s = false
    /\ fg s <> Exited None
    /\ (forall r e, followChan s = Some r -> fr_err r = Some e ->
        existsb isFollowPoll t = true)
    /\ (forall r e, bg s = Sending r -> fr_err r = Some e -> existsb isFollowPoll t = true)
    /\ (forall e, fg s = Exited (Some e) -> existsb isFollowPoll t = true).

End FollowShape.

(** What the follow loop does to the outside: it starts goroutines, sleeps
    for the interval, polls on "follow", logs, and prints batches without
    headers. *)
Definition followEvent (interval : Z) (e : event) : bool :=
  match e with
  | EvGo _ => true
  | EvSleep d => Z.eqb d interval
  | EvContinueQuery _ link => String.eqb link "follow"
  | EvLog _ _ => true
  | EvOutputEventsCustom _ _ => true
  | _ => false
  end.


(** ** Reference definitions for what a command prints *)

(** The status line and the three output calls. *)
Definition isPrint (e : event) : bool :=
  match e with
  | EvStatus _ | EvOutputEvents _ _ | EvOutputEventsCustom _ _
  | EvOutputRecommendations _ _ => true
  | _ => false
  end.

Definition notPrint (e : event) : bool := negb (isPrint e).

Definition prints (t : list event) : nat := length (List.filter isPrint t).

(** One print for a command that returns nil or enters the follow loop,
    none for any other outcome: an error, a panic, a loop out of fuel. *)
Definition printsFor (o : outcome cmdResult) : nat :=
  match o with
  | Ret (Returned None) | Ret (EnterFollow _) => 1
  | _ => 0
  end.

(** A run only adds to the trace, and what it adds holds as many prints as
    [n] tells for its outcome. *)
Definition printing {W A : Type} (n : outcome A -> nat) (c : M W A) : Prop :=
  forall s, exists t,
    trace (snd (c s)) = (trace s ++ t)%list /\ prints t = n (fst (c s)).

(** One print for the early [return nil], none otherwise. *)
Definition printsEarly {A : Type} (o : outcome (option error + A)) : nat :=
  match o with
  | Ret (inl None) => 1
  | _ => 0
  end.

(** ** Concrete pages *)

Module PageInputs.

(** The record the extractor makes of a row. *)
Definition recordsOf (rows : list (list any)) : list EventsRow :=
  omap (rowOf Scripted.sliceToMap) rows.

(** The data set of the first fetch, and the two pages that follow it: the
    second page has a "next" link, the third has none. *)
Definition first : DataSet := Inputs.dataSet [Inputs.otherEvent] Inputs.nextAndFollow.
Definition second : DataSet := Inputs.dataSet [Inputs.recommendationEvent] Inputs.nextAndFollow.
Definition third : DataSet := Inputs.dataSet [Inputs.startedEvent] Inputs.followOnly.

Definition script : Scripted.W :=
  [ inl (Inputs.page [Inputs.recommendationEvent] Inputs.nextAndFollow);
    inl (Inputs.page [Inputs.startedEvent] Inputs.followOnly) ].

Definition pages : list (pageAnswer (W := Scripted.W)) :=
  [ mkPageAnswer (Inputs.page [Inputs.recommendationEvent] Inputs.nextAndFollow)
      [inl (Inputs.page [Inputs.startedEvent] Inputs.followOnly)]
      second (recordsOf [Inputs.recommendationEvent]);
    mkPageAnswer (Inputs.page [Inputs.startedEvent] Inputs.followOnly)
      [] third (recordsOf [Inputs.startedEvent]) ].

(** A page with a "next" link, then an answer without main data. *)
Definition nilScript : Scripted.W :=
  [ inl (Inputs.page [Inputs.recommendationEvent] Inputs.nextAndFollow);
    inl Inputs.nilMain ].

Definition linked : list (pageAnswer (W := Scripted.W)) :=
  [ mkPageAnswer (Inputs.page [Inputs.recommendationEvent] Inputs.nextAndFollow)
      [inl Inputs.nilMain]
      PageInputs.second (PageInputs.recordsOf [Inputs.recommendationEvent]) ].

(** Pages of the entity lookup. *)
Definition entitiesDataSet (ids : list string) (links : gmap string string) : DataSet :=
  mkDataSet "main" (map (fun id => [AString id]) ids) links.

Definition entitiesPage (ids : list string) (links : gmap string string) : Response :=
  mkResponse [] (Some (entitiesDataSet ids links)).

Definition firstIds : DataSet := entitiesDataSet ["ns-wl-abc"] Inputs.nextAndFollow.

Definition idScript : Scripted.W :=
  [ inl (entitiesPage ["ns-wl-def"; "ns-wl-ghi"] Inputs.nextAndFollow);
    inl (entitiesPage ["ns-wl-jkl"] ∅) ].

Definition idPages : list (idPage (W := Scripted.W)) :=
  [ mkIdPage (entitiesPage ["ns-wl-def"; "ns-wl-ghi"] Inputs.nextAndFollow)
      [inl (entitiesPage ["ns-wl-jkl"] ∅)]
      (entitiesDataSet ["ns-wl-def"; "ns-wl-ghi"] Inputs.nextAndFollow)
      ["ns-wl-def"; "ns-wl-ghi"];
    mkIdPage (entitiesPage ["ns-wl-jkl"] ∅) []
      (entitiesDataSet ["ns-wl-jkl"] ∅) ["ns-wl-jkl"] ].

(** A second started event of optimization 3 of "ns-wl-abc". *)
Definition startedAgain : list any :=
  Inputs.eventRow [ ("optimize.optimization.optimizer_id", "ns-wl-abc");
                    ("optimize.optimization.num", "3");
                    ("optimize.ignored_blockers.memory.reason", "approved") ] 1690000500.

(** What the lookup keeps of [Inputs.startedEvent] and of [startedAgain]. *)
Definition startedKept : gmap string any :=
  {[ "optimize.ignored_blockers.cpu-limit.principal" := AString "alice";
     "optimize.ignored_blockers.cpu-limit.reason" := AString "approved" ]}.

Definition startedAgainKept : gmap string any :=
  {[ "optimize.ignored_blockers.memory.reason" := AString "approved" ]}.

(** A recommendation of another optimizer, without a started event. *)
Definition recommendationOther : EventsRow :=
  mkEventsRow 1700000200
    {[ "optimize.optimization.optimizer_id" := AString "ns-wl-def";
       "optimize.optimization.num" := AString "1" ]}.

End PageInputs.

(** * Properties *)

(** ** The text functions on examples *)

Example Split_blocker :
  Strings.Split "optimize.ignored_blockers.cpu-limit.reason" "."
  = ["optimize"; "ignored_blockers"; "cpu-limit"; "reason"].
Proof. reflexivity. Qed.

Example Contains_principal :
  Strings.Contains "optimize.ignored_blockers.cpu-limit.principal" "principal" = true
  /\ Strings.Contains "optimize.ignored_blockers.cpu-limit.reason" "principal" = false
  /\ Strings.Contains "cpu-limit" "cpu" = true
  /\ Strings.Contains "cpu" "" = true.
Proof. repeat split; reflexivity. Qed.

Example Join_ids : Strings.Join ["a"; "b"; "c"] ", " = "a, b, c".
Proof. reflexivity. Qed.

Example Itoa_1000 : Itoa 1000 = "1000" /\ Itoa (-1) = "-1" /\ Itoa 0 = "0".
Proof. repeat split; reflexivity. Qed.

(** ** Facts about [Strings] *)

Section StringFacts.

Lemma prefix_nil_l (s : string) : String.prefix "" s = true.
Proof. by destruct s. Qed.

Lemma prefix_refl (t : string) : String.prefix t t = true.
Proof.
  induction t as [|c t IH]; simpl; [done |].
  destruct (ascii_dec c c); [done | congruence].
Qed.

Lemma prefix_app_l (t x y : string) :
  String.prefix t x = true -> String.prefix t (x ++ y) = true.
Proof.
  revert x. induction t as [|c t IH]; intros x; simpl.
  - intros _. by destruct (x ++ y).
  - destruct x as [|d x]; simpl; [done |].
    destruct (ascii_dec c d); [apply IH | done].
Qed.

Lemma prefix_app_sep (t x y : string) (c : ascii) :
  String.prefix t (x ++ String c y) = true -> occurs c t = false ->
  String.prefix t x = true.
Proof.
  revert x. induction t as [|d t IH]; intros x; simpl.
  - intros _ _. by destruct x.
  - intros Hp [Hd Ht]%orb_false_iff.
    destruct x as [|e x]; simpl in *.
    + destruct (ascii_dec d c) as [->|]; [|done].
      by rewrite Ascii.eqb_refl in Hd.
    + destruct (ascii_dec d e); [by apply IH | done].
Qed.

Lemma Contains_here (s t : string) :
  String.prefix t s = true -> Strings.Contains s t = true.
Proof. intros H. destruct s; simpl in *; rewrite H; done. Qed.

Lemma Contains_refl (t : string) : Strings.Contains t t = true.
Proof. apply Contains_here, prefix_refl. Qed.

Lemma Contains_empty (s : string) : Strings.Contains s "" = true.
Proof. apply Contains_here, prefix_nil_l. Qed.

Lemma Contains_app_l (x y t : string) :
  Strings.Contains x t = true -> Strings.Contains (x ++ y) t = true.
Proof.
  induction x as [|c x IH].
  - simpl. rewrite orb_false_r. intros H. destruct t; [|done]. apply Contains_empty.
  - cbn [Strings.Contains]. intros [H|H]%orb_true_iff.
    + by apply Contains_here, prefix_app_l.
    + change (String c x ++ y) with (String c (x ++ y)).
      cbn [Strings.Contains]. rewrite (IH H). apply orb_true_r.
Qed.

Lemma Contains_app_r (x y t : string) :
  Strings.Contains y t = true -> Strings.Contains (x ++ y) t = true.
Proof.
  intros H. induction x as [|c x IH]; [done |].
  change (String c x ++ y) with (String c (x ++ y)).
  cbn [Strings.Contains]. rewrite IH. apply orb_true_r.
Qed.

Lemma Contains_app_sep (x y t : string) (c : ascii) :
  Strings.Contains (x ++ String c y) t = true -> occurs c t = false ->
  Strings.Contains x t = true \/ Strings.Contains y t = true.
Proof.
  intros H Hc. induction x as [|d x IH].
  - change ("" ++ String c y) with (String c y) in H.
    cbn [Strings.Contains] in H. apply orb_true_iff in H as [H|H]; [|by right].
    left. apply Contains_here.
    by apply (prefix_app_sep t "" y c).
  - change (String d x ++ String c y) with (String d (x ++ String c y)) in H.
    cbn [Strings.Contains] in H. apply orb_true_iff in H as [H|H].
    + left. apply Contains_here.
      by apply (prefix_app_sep t (String d x) y c).
    + destruct (IH H) as [H'|H']; [left | by right].
      cbn [Strings.Contains]. rewrite H'. apply orb_true_r.
Qed.

Lemma Join_cons (b : string) (bs : list string) (sep : string) :
  Strings.Join (b :: bs) sep
  = match bs with [] => b | _ :: _ => b ++ sep ++ Strings.Join bs sep end.
Proof. done. Qed.

Lemma Contains_Join_elem (bs : list string) (t : string) :
  t ∈ bs -> Strings.Contains (Strings.Join bs ",") t = true.
Proof.
  induction bs as [|b bs IH]; [by intros ?%elem_of_nil |].
  rewrite Join_cons. intros [->|Hin]%elem_of_cons.
  - destruct bs; [apply Contains_refl | apply Contains_app_l, Contains_refl].
  - destruct bs as [|b' bs]; [by apply elem_of_nil in Hin |].
    apply Contains_app_r, Contains_app_r. by apply IH.
Qed.

Lemma Contains_Join_inv (bs : list string) (t : string) :
  Strings.Contains (Strings.Join bs ",") t = true ->
  occurs "," t = false -> t <> "" ->
  exists b, b ∈ bs /\ Strings.Contains b t = true.
Proof.
  intros H Hc Hne. induction bs as [|b bs IH].
  - simpl in H. rewrite orb_false_r in H. by destruct t.
  - rewrite Join_cons in H. destruct bs as [|b' bs].
    + exists b. split; [apply elem_of_cons; by left | done].
    + change (b ++ "," ++ Strings.Join (b' :: bs) ",")
        with (b ++ String "," (Strings.Join (b' :: bs) ",")) in H.
      apply Contains_app_sep in H as [H|H]; [| |done].
      * exists b. split; [apply elem_of_cons; by left | done].
      * destruct (IH H) as (x & Hx & Hx'). exists x. split; [apply elem_of_cons; by right | done].
Qed.

End StringFacts.

(** ** The blocker join *)

Section BlockerJoin.

Lemma separated_elem (ids : list string) (a : string) :
  separated ids = true -> a ∈ ids -> a <> "" /\ occurs "," a = false.
Proof.
  intros [H _]%andb_true_iff Ha%list_elem_of_In.
  rewrite forallb_forall in H. specialize (H a Ha).
  apply andb_true_iff in H as [H1 H2].
  split; [| by destruct (occurs "," a)].
  intros ->. done.
Qed.

Lemma separated_inside (ids : list string) (a b : string) :
  separated ids = true -> a ∈ ids -> b ∈ ids ->
  Strings.Contains a b = true -> a = b.
Proof.
  intros [_ H]%andb_true_iff Ha%list_elem_of_In Hb%list_elem_of_In Hc.
  rewrite forallb_forall in H. specialize (H a Ha).
  rewrite forallb_forall in H. specialize (H b Hb).
  rewrite Hc in H. simpl in H. by apply String.eqb_eq.
Qed.

Lemma separated_Contains_Join (ids bs : list string) (t : string) :
  separated ids = true -> bs ⊆ ids -> t ∈ ids ->
  Strings.Contains (Strings.Join bs ",") t = true <-> t ∈ bs.
Proof.
  intros Hsep Hsub Ht. split; [| apply Contains_Join_elem].
  intros H. destruct (separated_elem ids t Hsep Ht) as [Hne Hc].
  destruct (Contains_Join_inv bs t H Hc Hne) as (b & Hb & Hbt).
  by rewrite <- (separated_inside ids b t Hsep (Hsub _ Hb) Ht Hbt).
Qed.

Lemma mergeBlocker_fst (acc : gmap string any * list string) (kv : string * any) :
  fst (mergeBlocker acc kv) = <[fst kv := snd kv]> (fst acc).
Proof.
  destruct acc as [attrs bs], kv as [attr val]. unfold mergeBlocker. cbn [fst snd].
  repeat case_match; done.
Qed.

Lemma mergeBlocker_snd (acc : gmap string any * list string) (kv : string * any) :
  snd (mergeBlocker acc kv)
  = match blockerIdOf (fst kv) with
    | Some blockerID =>
        if Strings.Contains (Strings.Join (snd acc) ",") blockerID
        then snd acc else Append (snd acc) blockerID
    | None => snd acc
    end.
Proof.
  destruct acc as [attrs bs], kv as [attr val].
  unfold mergeBlocker, blockerIdOf. cbn [fst snd].
  destruct (Strings.Contains attr "principal"); cbn [negb]; [done |].
  destruct (3 <? length (Strings.Split attr "."))%nat; [| done].
  destruct (Strings.Split attr "." !! _); [| done].
  by destruct (Strings.Contains _ _).
Qed.

Lemma mergeBlockers_fst (visited : list (string * any))
    (acc : gmap string any * list string) :
  fst (fold_left mergeBlocker visited acc)
  = fold_left (fun m kv => <[fst kv := snd kv]> m) visited (fst acc).
Proof.
  revert acc. induction visited as [|kv visited IH]; intros acc; [done |].
  cbn [fold_left]. by rewrite IH, mergeBlocker_fst.
Qed.

(** Every attribute of the lookup entry is copied, whatever the order. *)
Lemma mergeBlockers_copies (m : gmap string any) (visited : list (string * any)) :
  visited ≡ₚ map_to_list m -> fst (mergeBlockers visited) = m.
Proof.
  intros Hperm. unfold mergeBlockers. rewrite mergeBlockers_fst. cbn [fst].
  rewrite <- fold_left_rev_right.
  change (list_to_map (rev visited) = m).
  assert (rev visited ≡ₚ map_to_list m) as Hrev
    by (rewrite <- Hperm; symmetry; apply Permutation_rev).
  rewrite <- (list_to_map_to_list m).
  apply list_to_map_proper; [| done].
  rewrite Hrev. apply NoDup_fst_map_to_list.
Qed.

Lemma fold_addOnce_incl (xs bs : list string) :
  bs ⊆ fold_left addOnce xs bs /\ fold_left addOnce xs bs ⊆ (bs ++ xs)%list.
Proof.
  revert bs. induction xs as [|x xs IH]; intros bs; cbn [fold_left].
  - rewrite app_nil_r. done.
  - destruct (IH (addOnce bs x)) as [H1 H2]. clear IH.
    unfold addOnce, Append in H1, H2 |- *.
    destruct (decide (x ∈ bs)) as [Hx|Hx]; split; intros y Hy.
    + by apply H1.
    + apply H2 in Hy. rewrite !elem_of_app, elem_of_cons in *. tauto.
    + apply H1. rewrite elem_of_app. by left.
    + apply H2 in Hy. rewrite !elem_of_app, !elem_of_cons, elem_of_nil in *. tauto.
Qed.

Lemma candidates_cons (kv : string * any) (visited : list (string * any)) :
  candidates (kv :: visited)
  = match blockerIdOf (fst kv) with
    | Some x => x :: candidates visited
    | None => candidates visited
    end.
Proof. done. Qed.

Lemma mergeBlockers_snd (ids : list string) (visited : list (string * any))
    (acc : gmap string any * list string) :
  separated ids = true -> snd acc ⊆ ids -> candidates visited ⊆ ids ->
  snd (fold_left mergeBlocker visited acc)
  = fold_left addOnce (candidates visited) (snd acc).
Proof.
  intros Hsep. revert acc.
  induction visited as [|kv visited IH]; intros acc Hacc Hc; [done |].
  cbn [fold_left]. rewrite candidates_cons in Hc |- *.
  pose proof (mergeBlocker_snd acc kv) as Hstep.
  destruct (blockerIdOf (fst kv)) as [x|].
  - assert (x ∈ ids) as Hx by (apply Hc, elem_of_cons; by left).
    assert (candidates visited ⊆ ids) as Hc'
      by (intros y Hy; apply Hc, elem_of_cons; by right).
    pose proof (separated_Contains_Join ids (snd acc) x Hsep Hacc Hx) as Hiff.
    cbn [fold_left]. unfold addOnce at 2.
    destruct (Strings.Contains _ x); destruct (decide (x ∈ snd acc)) as [Hin|Hin].
    + rewrite IH, Hstep; done || by rewrite Hstep.
    + exfalso. by apply Hin, Hiff.
    + exfalso. destruct Hiff as [_ Hiff]. by specialize (Hiff Hin).
    + rewrite IH, Hstep; [done | | done]. rewrite Hstep.
      intros y [Hy| ->%list_elem_of_singleton]%elem_of_app; [by apply Hacc | done].
  - rewrite IH, Hstep; [done | by rewrite Hstep | done].
Qed.

(** With separated ids the join collects each proposed id once, in the
    order of the visit. *)
Lemma mergeBlockers_dedup (visited : list (string * any)) :
  separated (candidates visited) = true ->
  snd (mergeBlockers visited) = dedupFirst (candidates visited).
Proof.
  intros Hsep. unfold mergeBlockers, dedupFirst.
  by rewrite (mergeBlockers_snd (candidates visited) visited (∅, []) Hsep);
    [| intros ? ?%elem_of_nil |].
Qed.

End BlockerJoin.

(** ** Facts about runs and traces *)

Section Runs.

Context {W : Type}.

Lemma emits_ret {A} (P : event -> bool) (a : A) : emits P (ret (W := W) a).
Proof. intros s. exists []. by rewrite app_nil_r. Qed.

Lemma emits_lift {A} (P : event -> bool) (o : outcome A) : emits P (lift (W := W) o).
Proof. intros s. exists []. by rewrite app_nil_r. Qed.

Lemma emits_outOfFuel {A} (P : event -> bool) : emits P (outOfFuel (W := W) (A := A)).
Proof. intros s. exists []. by rewrite app_nil_r. Qed.

Lemma emits_emit (P : event -> bool) (e : event) :
  P e = true -> emits P (emit (W := W) e).
Proof. intros H s. exists [e]. cbn. by rewrite H. Qed.

Lemma emits_bind {A B} (P : event -> bool) (c : M W A) (k : A -> M W B) :
  emits P c -> (forall a, emits P (k a)) -> emits P (bind c k).
Proof.
  intros Hc Hk s. unfold bind. destruct (Hc s) as (t & Ht & HP).
  destruct (c s) as [[a| |] s1]; cbn [snd] in *.
  - destruct (Hk a s1) as (t' & Ht' & HP'). exists (t ++ t')%list.
    rewrite Ht', Ht, app_assoc, forallb_app, HP, HP'. done.
  - by exists t.
  - by exists t.
Qed.

Lemma emits_forEach {A} (P : event -> bool) (l : list A) (body : A -> M W unit) :
  (forall a, emits P (body a)) -> emits P (forEach l body).
Proof.
  intros H. induction l as [|a l IH]; cbn [forEach]; [apply emits_ret |].
  apply emits_bind; [apply H | by intros _].
Qed.

Lemma forEach_emit {A} (l : list A) (f : A -> event) (s : St W) :
  forEach l (fun a => emit (f a)) s = (Ret tt, mkSt (world s) (trace s ++ map f l)).
Proof.
  revert s. induction l as [|a l IH]; intros s; cbn [forEach map].
  - unfold ret. rewrite app_nil_r. by destruct s.
  - unfold bind, emit at 1. rewrite IH. cbn [world trace].
    by rewrite <- app_assoc.
Qed.

End Runs.

Section ClientRuns.

Context {W : Type}.
Variable ExecuteQuery : string -> W -> (Response + string) * W.
Variable ContinueQuery : option DataSet -> string -> W -> (Response + string) * W.
Variable sliceToMap : list (list any) -> gmap string any.
Variable mapRange : nat -> gmap string any -> list (string * any).

Lemma logErrors_run (headline : string) (resp : Response) (s : St W) :
  logErrors headline resp s
  = (Ret tt, mkSt (world s) (trace s ++ errorLog headline resp)).
Proof.
  unfold logErrors, errorLog. destruct (HasErrors resp).
  - unfold bind, emit at 1. rewrite forEach_emit. cbn [world trace].
    by rewrite <- app_assoc.
  - unfold ret. rewrite app_nil_r. by destruct s.
Qed.

Lemma errorLog_notQuery (headline : string) (resp : Response) :
  forallb notQuery (errorLog headline resp) = true.
Proof.
  unfold errorLog. destruct (HasErrors resp); [| done]. cbn.
  by induction (Errors resp).
Qed.

Lemma notQuery_notContinue (t : list event) :
  forallb notQuery t = true -> forallb notContinue t = true.
Proof.
  induction t as [|e t IH]; [done |]. cbn.
  intros [He Ht]%andb_true_iff. rewrite (IH Ht), andb_true_r.
  by destruct e.
Qed.

Lemma emits_logErrors (P : event -> bool) (headline : string) (resp : Response) :
  (forall lvl msg, P (EvLog lvl msg) = true) ->
  emits P (logErrors (W := W) headline resp).
Proof.
  intros HP. unfold logErrors. destruct (HasErrors resp); [| apply emits_ret].
  apply emits_bind; [by apply emits_emit |]. intros _.
  apply emits_forEach. intros e. by apply emits_emit.
Qed.

Lemma emits_executeQuery (P : event -> bool) (query : string) :
  P (EvExecuteQuery query) = true -> emits P (executeQuery ExecuteQuery query).
Proof.
  intros HP s. unfold executeQuery. destruct (ExecuteQuery query (world s)) as [r w].
  exists [EvExecuteQuery query]. cbn. by rewrite HP.
Qed.

(** The first page is one [ExecuteQuery] and no [ContinueQuery]. *)
Lemma emits_firstPage (what noun query : string) :
  emits notContinue (firstPage ExecuteQuery sliceToMap what noun query).
Proof.
  unfold firstPage. apply emits_bind; [by apply emits_executeQuery |].
  intros [resp|e]; [| apply emits_ret].
  apply emits_bind; [by apply emits_logErrors |]. intros _.
  destruct (Main resp) as [mds|];
    [| apply emits_bind; [by apply emits_emit | intros; apply emits_ret]].
  destruct (Data mds) as [|[|[] ?] ?]; try apply emits_ret.
  - apply emits_bind; [by apply emits_emit | intros; apply emits_ret].
  - apply emits_bind; [apply emits_lift |]. intros [rows [err|]]; apply emits_ret.
Qed.

Lemma emits_getOptimizationBlockerData (tempVals : recommendationsTemplateValues) :
  emits notContinue (getOptimizationBlockerData ExecuteQuery sliceToMap tempVals).
Proof.
  unfold getOptimizationBlockerData. apply emits_bind; [by apply emits_executeQuery |].
  intros [resp|e]; [| apply emits_ret].
  apply emits_bind; [by apply emits_logErrors |]. intros _.
  destruct (Main resp) as [mds|]; [| apply emits_ret].
  destruct (Data mds) as [|[|[] ?] ?]; try apply emits_ret.
  apply emits_bind; [apply emits_lift |]. intros [rows [err|]]; apply emits_ret.
Qed.

Lemma emits_joinRow (blockerRows : gmap string (gmap string any)) (i : nat)
    (row : EventsRow) :
  emits notContinue (joinRow (W := W) mapRange blockerRows i row).
Proof.
  unfold joinRow. apply emits_bind; [apply emits_lift |]. intros id.
  apply emits_bind; [apply emits_lift |]. intros num.
  destruct (blockerRows !! _) as [startedRow|].
  - destruct (mergeBlockers _). apply emits_ret.
  - apply emits_bind; [by apply emits_emit | intros; apply emits_ret].
Qed.

Lemma emits_joinRows (blockerRows : gmap string (gmap string any)) (i : nat)
    (rows : list EventsRow) (acc : list recommendationRow) :
  emits notContinue (joinRows (W := W) mapRange blockerRows i rows acc).
Proof.
  revert i acc. induction rows as [|row rows IH]; intros i acc; cbn [joinRows].
  - apply emits_ret.
  - apply emits_bind; [apply emits_joinRow | intros; apply IH].
Qed.

Lemma emits_recommendationsJoin (tempVals : recommendationsTemplateValues)
    (rows : list EventsRow) :
  emits notContinue
    (recommendationsJoin ExecuteQuery sliceToMap mapRange tempVals rows).
Proof.
  unfold recommendationsJoin.
  apply emits_bind; [apply emits_getOptimizationBlockerData |].
  intros [blockerRows [err|]]; [apply emits_ret |].
  apply emits_bind; [apply emits_joinRows |]. intros items.
  apply emits_bind; [by apply emits_emit | intros; apply emits_ret].
Qed.

(** The join keeps the rows it is given, in their order. *)
Lemma joinRows_rows (blockerRows : gmap string (gmap string any)) (i : nat)
    (rows : list EventsRow) (acc items : list recommendationRow) (s s' : St W) :
  joinRows mapRange blockerRows i rows acc s = (Ret items, s') ->
  map recEventsRow items = (map recEventsRow acc ++ rows)%list.
Proof.
  revert i acc s. induction rows as [|row rows IH]; intros i acc s; cbn [joinRows].
  - unfold ret. intros [= <- _]. by rewrite app_nil_r.
  - unfold bind at 1. destruct (joinRow _ _ _ _ s) as [[r| |] s1] eqn:Hrow; try done.
    intros H. rewrite (IH _ _ _ H). unfold Append. rewrite map_app. cbn [map].
    rewrite <- app_assoc. cbn [app]. do 2 f_equal.
    unfold joinRow, bind, lift in Hrow.
    destruct (assertString _) as [id| |]; try done.
    destruct (assertString _) as [num| |]; try done.
    destruct (blockerRows !! _).
    + destruct (mergeBlockers _). unfold ret in Hrow. by injection Hrow as <- _.
    + unfold emit, ret in Hrow. by injection Hrow as <- _.
Qed.

End ClientRuns.

(** ** Runs of the commands *)

Section CommandFacts.

Context {W : Type}.
Variable ExecuteQuery : string -> W -> (Response + string) * W.
Variable ContinueQuery : option DataSet -> string -> W -> (Response + string) * W.
Variable Quote : string -> string.
Variable sliceToMap : list (list any) -> gmap string any.
Variable mapRange : nat -> gmap string any -> list (string * any).

Local Abbreviation listOptimizations' := (listOptimizations ExecuteQuery ContinueQuery Quote).
Local Abbreviation filterClauses' := (filterClauses ExecuteQuery ContinueQuery Quote).
Local Abbreviation eventsQuery' := (eventsQuery ExecuteQuery ContinueQuery sliceToMap).
Local Abbreviation listEvents' := (listEvents ExecuteQuery ContinueQuery Quote sliceToMap).
Local Abbreviation recommendationsQuery' :=
  (recommendationsQuery ExecuteQuery ContinueQuery sliceToMap mapRange).
Local Abbreviation recommendationsJoin' :=
  (recommendationsJoin ExecuteQuery sliceToMap mapRange).
Local Abbreviation firstPage' := (firstPage ExecuteQuery sliceToMap).
Local Abbreviation listRecommendations' :=
  (listRecommendations ExecuteQuery ContinueQuery Quote sliceToMap mapRange).

Lemma limits_over (f : eventsFlags) :
  count f > 1000 ->
  limits f = inl (Errorf "counts higher than 1000 are not supported").
Proof.
  intros H. unfold limits.
  destruct (decide (count f <> -1)) as [_|Hn]; [| lia].
  destruct (decide (count f > 1000)); [done | lia].
Qed.

Lemma eventsQuery_over (fuel : nat) (flags : eventsCmdFlags) (filterList : list string)
    (s : St W) :
  count (evFlags flags) > 1000 ->
  eventsQuery' fuel flags filterList s
  = (Ret (Returned (Some (Errorf "counts higher than 1000 are not supported"))), s).
Proof. intros H. unfold eventsQuery. by rewrite (limits_over _ H). Qed.

Lemma recommendationsQuery_over (fuel : nat) (flags : recommendationsCmdFlags)
    (filterList : list string) (s : St W) :
  count (recFlags flags) > 1000 ->
  recommendationsQuery' fuel flags filterList s
  = (Ret (Returned (Some (Errorf "counts higher than 1000 are not supported"))), s).
Proof. intros H. unfold recommendationsQuery. by rewrite (limits_over _ H). Qed.

(** Without a lookup the filter is built in place. *)
Lemma filterClauses_local (fuel : nat) (f : eventsFlags) (s : St W) :
  optimizerId f <> "" \/ (namespace f = "" /\ workloadName f = "") ->
  exists filterList, filterClauses' fuel f s = (Ret (inr filterList), s).
Proof.
  intros H. unfold filterClauses.
  destruct (decide (optimizerId f <> "")); [by eexists |].
  destruct (decide (namespace f <> "" \/ workloadName f <> "")) as [Hl|]; [| by eexists].
  exfalso. destruct H as [H|[H1 H2]]; [done |]. destruct Hl; congruence.
Qed.

(** With a lookup the filter follows its result. *)
Lemma filterClauses_lookup (fuel : nat) (f : eventsFlags) (s : St W) :
  optimizerId f = "" -> namespace f <> "" \/ workloadName f <> "" ->
  filterClauses' fuel f s
  = match listOptimizations' fuel f s with
    | (Ret (_, Some err), s1) => (Ret (inl (Some (Wrap "listOptimizations" err))), s1)
    | (Ret (optimizerIds, None), s1) =>
        match optimizerIds with
        | [] =>
            (Ret (inl None),
             mkSt (world s1)
               (trace s1 ++ [EvStatus ("No optimization entities found matching the given criteria" ++ nl)]))
        | _ :: _ =>
            (Ret (inr (Append
                         (if decide (clusterId f <> "")
                          then Append [] ("attributes(k8s.cluster.id) = " ++ Quote (clusterId f))
                          else [])
                         ("attributes(optimize.optimization.optimizer_id) IN [" ++ dq
                            ++ Strings.Join optimizerIds (dq ++ ", " ++ dq) ++ dq ++ "]"))),
             s1)
        end
    | (Panicked p, s1) => (Panicked p, s1)
    | (OutOfFuel, s1) => (OutOfFuel, s1)
    end.
Proof.
  intros Hid Hl. unfold filterClauses.
  destruct (decide (optimizerId f <> "")); [done |].
  destruct (decide (namespace f <> "" \/ workloadName f <> "")); [| done].
  unfold bind. destruct (listOptimizations' fuel f s) as [[[ids [err|]]| |] s1]; try done.
  by destruct ids.
Qed.

(** C1, as amended. With a cap above 1000 neither command issues its main
    query. When an optimizer id is given, or neither a namespace nor a
    workload name, the command fails with "counts higher than 1000 are not
    supported" before any call of the service: the state is the one it
    started in. Otherwise the entity lookup runs first, and the command
    ends as the lookup tells, in the state the lookup left: with that error
    once the lookup has returned ids; with the error of the lookup, under
    the prefix "listOptimizations", when the lookup fails; with nil, after
    one status line, when the lookup returns no id. In every case the state
    at the end is the one at the start, or the one the lookup left, or the
    latter with the status line added. *)
Theorem cap_over_1000 (fuel : nat) (f : eventsFlags) (includeProgress_ : bool)
    (events_ : list string) (includeInvalidated_ : bool) (s : St W) :
  count f > 1000 ->
  let capError := Errorf "counts higher than 1000 are not supported" in
  let status :=
    EvStatus ("No optimization entities found matching the given criteria" ++ nl) in
  let ev := listEvents' fuel (mkEventsCmdFlags f includeProgress_ events_) s in
  let rec := listRecommendations' fuel (mkRecommendationsCmdFlags f includeInvalidated_) s in
  let lookup := listOptimizations' fuel f s in
  (optimizerId f <> "" \/ (namespace f = "" /\ workloadName f = "") ->
   ev = (Ret (Returned (Some capError)), s) /\ rec = (Ret (Returned (Some capError)), s))
  /\ (optimizerId f = "" -> namespace f <> "" \/ workloadName f <> "" ->
      (forall id ids s1, lookup = (Ret (id :: ids, None), s1) ->
       ev = (Ret (Returned (Some capError)), s1) /\ rec = (Ret (Returned (Some capError)), s1))
      /\ (forall ids err s1, lookup = (Ret (ids, Some err), s1) ->
          ev = (Ret (Returned (Some (Wrap "listOptimizations" err))), s1)
          /\ rec = (Ret (Returned (Some (Wrap "listOptimizations" err))), s1))
      /\ (forall s1, lookup = (Ret ([], None), s1) ->
          ev = (Ret (Returned None), mkSt (world s1) (trace s1 ++ [status]))
          /\ rec = (Ret (Returned None), mkSt (world s1) (trace s1 ++ [status])))
      /\ (forall p s1, lookup = (Panicked p, s1) ->
          ev = (Panicked p, s1) /\ rec = (Panicked p, s1))
      /\ (forall s1, lookup = (OutOfFuel, s1) ->
          ev = (OutOfFuel, s1) /\ rec = (OutOfFuel, s1)))
  /\ (ev = rec
      /\ (snd ev = s \/ snd ev = snd lookup
          \/ snd ev = mkSt (world (snd lookup)) (trace (snd lookup) ++ [status]))).
Proof.
  intros Hcap capError status ev rec lookup. subst ev rec.
  unfold listEvents, listRecommendations, bind. cbn [evFlags recFlags].
  destruct (decide (optimizerId f <> "" \/ (namespace f = "" /\ workloadName f = "")))
    as [Hlocal|Hlookup].
  - destruct (filterClauses_local fuel f s Hlocal) as [fl Hfl]. rewrite Hfl.
    rewrite eventsQuery_over, recommendationsQuery_over by done.
    split; [done |]. split; [| split; [done | by left]].
    intros Hid Hl. exfalso. destruct Hlocal as [?|[? ?]]; [done | destruct Hl; done].
  - assert (optimizerId f = "") as Hid
        by (destruct (decide (optimizerId f = "")); [done | exfalso; apply Hlookup; by left]).
    assert (namespace f <> "" \/ workloadName f <> "") as Hl.
    { destruct (decide (namespace f = "")) as [Hn|]; [| by left].
      destruct (decide (workloadName f = "")) as [Hw|]; [| by right].
      exfalso. apply Hlookup. by right. }
    rewrite (filterClauses_lookup fuel f s Hid Hl). fold lookup.
    split; [done |]. split.
    + intros _ _. split; [| split; [| split; [| split]]].
      * intros id ids s1 Hlk. rewrite Hlk.
        by rewrite eventsQuery_over, recommendationsQuery_over.
      * intros ids err s1 Hlk. by rewrite Hlk.
      * intros s1 Hlk. by rewrite Hlk.
      * intros p s1 Hlk. by rewrite Hlk.
      * intros s1 Hlk. by rewrite Hlk.
    + destruct lookup as [[[ids [err|]]| |] s1]; cbn [snd]; try (split; [done | by right; left]).
      destruct ids as [|id ids]; [split; [done | by right; right] |].
      rewrite eventsQuery_over, recommendationsQuery_over by done.
      split; [done | by right; left].
Qed.

(** The first page, when the response carries a data set: its rows and
    the data set itself. *)
Lemma firstPage_rows (what noun query : string) (s : St W) (resp : Response) (w' : W)
    (mds : DataSet) (ds : option DataSet) (rest1 : list any) (rest2 : list (list any))
    (rows : list EventsRow) :
  ExecuteQuery query (world s) = (inl resp, w') ->
  Main resp = Some mds -> Data mds = (ADataSet ds :: rest1) :: rest2 ->
  extractEventsData sliceToMap ds = Ret (rows, None) ->
  firstPage' what noun query s
  = (Ret (inr (rows, ds)),
     mkSt w' (trace s ++ EvExecuteQuery query
                :: errorLog ("Execution of " ++ what
                               ++ " query encountered errors. Returned data may not be complete!")
                     resp)).
Proof.
  intros Hq Hmain Hdata Hrows. unfold firstPage, bind, executeQuery.
  rewrite Hq, logErrors_run. cbn [world trace]. rewrite Hmain, Hdata.
  unfold lift, ret. rewrite Hrows. by rewrite <- app_assoc.
Qed.

Lemma emits_eventsQuery_skip (fuel : nat) (flags : eventsCmdFlags)
    (filterList : list string) :
  count (evFlags flags) <> -1 \/ follow (evFlags flags) = true ->
  emits notContinue (eventsQuery' fuel flags filterList).
Proof.
  intros Hskip. unfold eventsQuery. destruct (limits _); [apply emits_ret |].
  apply emits_bind; [apply emits_firstPage |].
  intros [early|[rows ds]]; [apply emits_ret |].
  assert ((if follow (evFlags flags) then false
           else if decide (count (evFlags flags) <> -1) then false
                else match ds with Some d => hasLink d "next" | None => false end) = false)
    as -> by (destruct Hskip as [H|H]; [destruct (follow _); [done | by rewrite decide_True]
                                       | by rewrite H]).
  apply emits_bind; [apply emits_ret |]. intros [e|[rows' ds']]; [apply emits_ret |].
  apply emits_bind; [by apply emits_emit |]. intros _.
  destruct (follow _), ds'; apply emits_ret.
Qed.

Lemma emits_recommendationsQuery_skip (fuel : nat) (flags : recommendationsCmdFlags)
    (filterList : list string) :
  count (recFlags flags) <> -1 ->
  emits notContinue (recommendationsQuery' fuel flags filterList).
Proof.
  intros Hskip. unfold recommendationsQuery. destruct (limits _); [apply emits_ret |].
  apply emits_bind; [apply emits_firstPage |].
  intros [early|[rows ds]]; [apply emits_ret |].
  rewrite decide_True by done.
  apply emits_bind; [apply emits_ret |]. intros [e|[rows' ds']]; [apply emits_ret |].
  apply emits_recommendationsJoin.
Qed.

(** What the join prints are the rows it was given. *)
Lemma recommendationsJoin_items (tempVals : recommendationsTemplateValues)
    (rows : list EventsRow) (s s' : St W) :
  recommendationsJoin' tempVals rows s = (Ret (Returned None), s') ->
  exists items pre,
    trace s' = (pre ++ [EvOutputRecommendations items (length items)])%list
    /\ map recEventsRow items = rows.
Proof.
  unfold recommendationsJoin, bind.
  destruct (getOptimizationBlockerData _ _ _ s) as [[[blockerRows [err|]]| |] s1]; try done.
  destruct (joinRows _ _ _ _ _ s1) as [[items| |] s2] eqn:Hjoin; try done.
  unfold emit, ret. intros [= <-]. exists items, (trace s2). split; [done |].
  by rewrite (joinRows_rows _ _ _ _ _ _ _ _ Hjoin).
Qed.

(** C6. With a cap (count other than -1), or with follow for
    [listEvents], the fetch is the first page alone: whatever links the
    data set of that page carries, "next" among them, the rows printed
    are the rows of that page, and from the filter on no [ContinueQuery]
    is issued in any run. For the recommendations the join receives the
    rows of the first page and prints these. *)
Theorem capped_fetch_is_first_page (fuel : nat) (f : eventsFlags)
    (includeProgress_ : bool) (events_ : list string) (includeInvalidated_ : bool)
    (filterList : list string) (lim : string) (s : St W)
    (resp : Response) (w' : W) (mds : DataSet) (ds : option DataSet)
    (rest1 : list any) (rest2 : list (list any)) (rows : list EventsRow) :
  let evf := mkEventsCmdFlags f includeProgress_ events_ in
  let recf := mkRecommendationsCmdFlags f includeInvalidated_ in
  let evq := eventsTemplate (eventsTempVals evf filterList lim) in
  let recv := recommendationsTempVals recf filterList lim in
  count f <> -1 \/ follow f = true ->
  limits f = inr lim ->
  Main resp = Some mds -> Data mds = (ADataSet ds :: rest1) :: rest2 ->
  extractEventsData sliceToMap ds = Ret (rows, None) ->
  (ExecuteQuery evq (world s) = (inl resp, w') ->
   eventsQuery' fuel evf filterList s
   = (Ret (match follow f, ds with
           | true, Some d => EnterFollow d
           | _, _ => Returned None
           end),
      mkSt w' (trace s ++ EvExecuteQuery evq
                 :: errorLog "Execution of events query encountered errors. Returned data may not be complete!" resp
                 ++ [EvOutputEvents rows (length rows)])))
  /\ emits notContinue (eventsQuery' fuel evf filterList)
  /\ (count f <> -1 ->
      emits notContinue (recommendationsQuery' fuel recf filterList)
      /\ (ExecuteQuery (recommendationsTemplate recv) (world s) = (inl resp, w') ->
          recommendationsQuery' fuel recf filterList s
          = recommendationsJoin' recv rows
              (mkSt w' (trace s ++ EvExecuteQuery (recommendationsTemplate recv)
                          :: errorLog "Execution of recommendations query encountered errors. Returned data may not be complete!" resp))
          /\ forall s', recommendationsQuery' fuel recf filterList s = (Ret (Returned None), s') ->
             exists items pre,
               trace s' = (pre ++ [EvOutputRecommendations items (length items)])%list
               /\ map recEventsRow items = rows)).
Proof.
  intros evf recf evq recv Hskip Hlim Hmain Hdata Hrows.
  split.
  { intros Hev.
    unfold eventsQuery. cbn [evFlags evf]. rewrite Hlim. unfold bind at 1.
    fold evf. fold evq.
    rewrite (firstPage_rows "events" "event" evq s resp w' mds ds rest1 rest2 rows)
      by done.
    assert ((if follow f then false
             else if decide (count f <> -1) then false
                  else match ds with Some d => hasLink d "next" | None => false end) = false)
      as -> by (destruct Hskip as [H|H]; [destruct (follow f); [done | by rewrite decide_True]
                                         | by rewrite H]).
    unfold bind, ret, emit. cbn [world trace].
    rewrite <- app_assoc. cbn [app].
    by destruct (follow f), ds. }
  split; [by apply emits_eventsQuery_skip |].
  intros Hcount.
  split; [by apply emits_recommendationsQuery_skip |].
  intros Hrec.
  assert (recommendationsQuery' fuel recf filterList s
          = recommendationsJoin' recv rows
              (mkSt w' (trace s ++ EvExecuteQuery (recommendationsTemplate recv)
                          :: errorLog "Execution of recommendations query encountered errors. Returned data may not be complete!" resp)))
    as Hrecrun.
  { unfold recommendationsQuery. cbn [recFlags recf]. rewrite Hlim. unfold bind at 1.
    fold recf. fold recv.
    rewrite (firstPage_rows "recommendations" "recommendation" _ s resp w' mds ds
               rest1 rest2 rows) by done.
    rewrite decide_True by done. by unfold bind, ret. }
  split; [exact Hrecrun |].
  intros s' Hdone. rewrite Hrecrun in Hdone.
  by apply recommendationsJoin_items in Hdone.
Qed.

(** C9. When the entity lookup returns no id and no error, both commands
    return nil: they print the status line "No optimization entities found
    matching the given criteria" in the state the lookup left and issue no
    query after it. *)
Theorem no_entities_is_success (fuel : nat) (f : eventsFlags) (includeProgress_ : bool)
    (events_ : list string) (includeInvalidated_ : bool) (s s1 : St W) :
  optimizerId f = "" -> namespace f <> "" \/ workloadName f <> "" ->
  listOptimizations' fuel f s = (Ret ([], None), s1) ->
  let stop :=
    (Ret (Returned None),
     mkSt (world s1)
       (trace s1 ++ [EvStatus ("No optimization entities found matching the given criteria" ++ nl)])) in
  listEvents' fuel (mkEventsCmdFlags f includeProgress_ events_) s = stop
  /\ listRecommendations' fuel (mkRecommendationsCmdFlags f includeInvalidated_) s = stop.
Proof.
  intros Hid Hl Hlookup stop. unfold listEvents, listRecommendations, bind.
  cbn [evFlags recFlags]. rewrite (filterClauses_lookup fuel f s Hid Hl), Hlookup.
  done.
Qed.

(** C10. When the response to the optimization_started query has a nil
    main data set, or a main data set without rows, the join returns the
    error "failed to retrieve optimization_started blocker data: no
    optimization_started results found for given input", whatever
    recommendation rows it was given, and prints nothing. *)
Theorem blocker_query_miss_is_fatal (tempVals : recommendationsTemplateValues)
    (recommendationRows : list EventsRow) (s : St W) (resp : Response) (w' : W) :
  ExecuteQuery (optimizationStartedTemplate tempVals) (world s) = (inl resp, w') ->
  Main resp = None \/ (exists mds, Main resp = Some mds /\ Data mds = []) ->
  recommendationsJoin' tempVals recommendationRows s
  = (Ret (Returned (Some (Wrap "failed to retrieve optimization_started blocker data"
                            (Errorf "no optimization_started results found for given input")))),
     mkSt w' (trace s ++ EvExecuteQuery (optimizationStartedTemplate tempVals)
                :: errorLog "Execution of optimization_started query encountered errors. Returned data may not be complete!" resp)).
Proof.
  intros Hq Hmiss. unfold recommendationsJoin, getOptimizationBlockerData, bind, executeQuery.
  rewrite Hq, logErrors_run. cbn [world trace]. rewrite <- app_assoc. cbn [app].
  destruct Hmiss as [->|(mds & -> & ->)]; done.
Qed.

End CommandFacts.

(** ** The follow loop *)

Section FollowFacts.

Context {W : Type}.
Variable ContinueQuery : option DataSet -> string -> W -> (Response + string) * W.
Variable sliceToMap : list (list any) -> gmap string any.
Variable interval : Z.

Local Abbreviation step := (followStep ContinueQuery sliceToMap interval).
Local Abbreviation run := (followRun ContinueQuery sliceToMap interval).
Local Abbreviation poll := (followDatasetAndPrint ContinueQuery sliceToMap).


Lemma bind_continueQuery_first {A} (P : event -> bool) (ds : option DataSet)
    (link : string) (k : Response + string -> M W A) (s : St W) :
  (forall r, emits P (k r)) ->
  exists t,
    trace (snd (bind (continueQuery ContinueQuery ds link) k s))
    = (trace s ++ EvContinueQuery ds link :: t)%list.
Proof.
  intros Hk. unfold bind, continueQuery.
  destruct (ContinueQuery ds link (world s)) as [r w].
  destruct (Hk r (mkSt w (trace s ++ [EvContinueQuery ds link]))) as (t & Ht & _).
  exists t. rewrite Ht. cbn [trace]. by rewrite <- app_assoc.
Qed.

(** Traces as right-nested appends. *)
Ltac trace_norm :=
  repeat first [ rewrite <- app_assoc | rewrite app_nil_r | progress cbn [app] ].

(** What follows the [ContinueQuery] in a poll: logs and one output. *)
Ltac poll_tail :=
  intros [resp|e]; [| apply emits_ret];
  apply emits_bind; [by apply emits_logErrors |]; intros _;
  destruct (Main resp) as [mds|];
    [| apply emits_bind; [by apply emits_emit | intros; apply emits_ret]];
  destruct (Data mds) as [|[|[] ?] ?]; try apply emits_ret;
  apply emits_bind; [apply emits_lift |]; intros [rows [err|]]; [apply emits_ret |];
  destruct (0 <? length rows)%nat; [| apply emits_ret];
  apply emits_bind; [by apply emits_emit | intros; apply emits_ret].


(** The first event of a poll is its [ContinueQuery] on "follow". *)
Lemma poll_first_event (ds : option DataSet) (s : St W) :
  exists t, trace (snd (poll ds s)) = (trace s ++ EvContinueQuery ds "follow" :: t)%list.
Proof.
  unfold followDatasetAndPrint. apply (bind_continueQuery_first notGo). poll_tail.
Qed.



(** A poll that carries a data set: its rows are printed if there are
    any, the cursor is exhausted if there are none. *)
Lemma poll_rows (ds : option DataSet) (s : St W) (resp : Response) (w' : W)
    (mds : DataSet) (ds' : option DataSet) (rest1 : list any) (rest2 : list (list any))
    (rows : list EventsRow) :
  ContinueQuery ds "follow" (world s) = (inl resp, w') ->
  Main resp = Some mds -> Data mds = (ADataSet ds' :: rest1) :: rest2 ->
  extractEventsData sliceToMap ds' = Ret (rows, None) ->
  poll ds s
  = (Ret (mkFollowEventResult ds' None (match rows with [] => true | _ => false end)),
     mkSt w' (trace s ++ EvContinueQuery ds "follow"
                :: errorLog "Following of events query encountered errors. Returned data may not be complete!" resp
                ++ match rows with
                   | [] => []
                   | _ => [EvOutputEventsCustom rows (length rows)]
                   end)).
Proof.
  intros Hq Hmain Hdata Hrows. unfold followDatasetAndPrint, bind, continueQuery.
  rewrite Hq, logErrors_run. cbn [world trace]. rewrite Hmain, Hdata.
  unfold lift. rewrite Hrows. rewrite <- app_assoc. cbn [app].
  destruct rows as [|row rows]; cbn [length Nat.ltb Nat.leb].
  - unfold ret. by rewrite app_nil_r.
  - unfold emit, ret. cbn [world trace]. by rewrite <- app_assoc.
Qed.

(** A poll without main data: logged, and the data set polled is kept. *)
Lemma poll_nil_main (ds : option DataSet) (s : St W) (resp : Response) (w' : W) :
  ContinueQuery ds "follow" (world s) = (inl resp, w') -> Main resp = None ->
  poll ds s
  = (Ret (mkFollowEventResult ds None false),
     mkSt w' (trace s ++ EvContinueQuery ds "follow"
                :: errorLog "Following of events query encountered errors. Returned data may not be complete!" resp
                ++ [EvLog LvlError "Following of events query has nil main data. Returned data may not be complete!"])).
Proof.
  intros Hq Hmain. unfold followDatasetAndPrint, bind, continueQuery.
  rewrite Hq, logErrors_run. cbn [world trace]. rewrite Hmain.
  unfold emit, ret. cbn [world trace]. by rewrite <- !app_assoc.
Qed.

(** A poll whose main data set has the wrong shape: the error. *)
Lemma poll_shape_error (ds : option DataSet) (s : St W) (resp : Response) (w' : W)
    (mds : DataSet) (e : error) :
  ContinueQuery ds "follow" (world s) = (inl resp, w') ->
  Main resp = Some mds -> followShapeError mds = Some e ->
  poll ds s
  = (Ret (mkFollowEventResult None (Some e) false),
     mkSt w' (trace s ++ EvContinueQuery ds "follow"
                :: errorLog "Following of events query encountered errors. Returned data may not be complete!" resp)).
Proof.
  intros Hq Hmain Hshape. unfold followDatasetAndPrint, bind, continueQuery.
  rewrite Hq, logErrors_run. cbn [world trace]. rewrite Hmain.
  unfold followShapeError in Hshape. rewrite <- app_assoc. cbn [app].
  destruct (Data mds) as [|[|[] ?] ?]; unfold ret; congruence.
Qed.




(** A goroutine is in flight only while [followChan] is empty: the
    foreground never starts a second one beside it. *)
Lemma handoff_step (a : action) (s s' : followState) :
  handoff s -> step a s = Some s' -> handoff s'.
Proof.
  destruct s as [fg0 int0 chan0 bg0 st0]. unfold handoff, followStep.
  cbn [fg interrupt followChan bg st]. intros H.
  destruct (crashed _) eqn:Halive; [done |].
  destruct a; cbn [fg interrupt followChan bg st].
  - by intros [= <-].
  - destruct fg0, int0; try done. by intros [= <-].
  - destruct fg0, chan0 as [fr|]; try done. destruct (fr_err fr); [| done]. by intros [= <-].
  - destruct fg0, chan0 as [fr|]; try done. destruct (fr_err fr); [done |]. by intros [= <-].
  - destruct bg0; try done. intros [= <-]. cbn. by destruct chan0.
  - destruct bg0 as [| |fr| |]; try done. destruct chan0; [done |].
    destruct (poll _ _) as [[?|?|] ?]; try done; by intros [= <-].
  - destruct bg0, chan0; try done. by intros [= <-].
Qed.

Lemma handoff_run (acts : list action) (s s' : followState) :
  handoff s -> run acts s = Some s' -> handoff s'.
Proof.
  revert s. induction acts as [|a acts IH]; intros s H; cbn [followRun].
  - by intros [= <-].
  - destruct (step a s) as [s1|] eqn:Hstep; [| done].
    apply IH. by apply (handoff_step a s).
Qed.

Lemma handoff_init (data_set : DataSet) (s : St W) : handoff (followInit data_set s).
Proof. done. Qed.

(** C7. Take a state in which the goroutine is about to poll, no signal
    is pending, and the service answers the poll with a data set whose
    rows extract. The steps to the next poll are then these four: the
    poll, the send, the start of the next goroutine, its test of
    [cursorExhausted]; no other four steps are possible without a signal.
    If the poll returned rows they are printed and nothing else happens
    before the next poll: no sleep. If it returned no row the goroutine
    sleeps for the follow interval, once, before the next poll. The step
    after these is the poll of the new data set. *)
Theorem follow_eager_drain (s : followState) (fr : followEventResult)
    (resp : Response) (w' : W) (mds : DataSet) (ds' : option DataSet)
    (rest1 : list any) (rest2 : list (list any)) (rows : list EventsRow) :
  fg s = Selecting -> interrupt s = false -> followChan s = None ->
  bg s = Polling fr ->
  ContinueQuery (fr_data_set fr) "follow" (world (st s)) = (inl resp, w') ->
  Main resp = Some mds -> Data mds = (ADataSet ds' :: rest1) :: rest2 ->
  extractEventsData sliceToMap ds' = Ret (rows, None) ->
  let polled :=
    (trace (st s) ++ EvContinueQuery (fr_data_set fr) "follow"
       :: errorLog "Following of events query encountered errors. Returned data may not be complete!" resp)%list in
  let next := fun exhausted t =>
    mkFollowState Selecting false None
      (Polling (mkFollowEventResult ds' None exhausted)) (mkSt w' (polled ++ t)) in
  run [APoll; ASend; ADispatch; ASleep] s
  = Some (match rows with
          | [] => next true [EvGo ds'; EvSleep interval]
          | _ :: _ => next false [EvOutputEventsCustom rows (length rows); EvGo ds']
          end)
  /\ (forall acts s', length acts = 4%nat -> ASignal ∉ acts -> run acts s = Some s' ->
      acts = [APoll; ASend; ADispatch; ASleep])
  /\ (forall s3 s4, run [APoll; ASend; ADispatch; ASleep] s = Some s3 ->
      step APoll s3 = Some s4 ->
      exists t, trace (st s4) = (trace (st s3) ++ EvContinueQuery ds' "follow" :: t)%list).
Proof.
  intros Hfg Hint Hchan Hbg Hq Hmain Hdata Hrows polled next.
  destruct s as [fg0 int0 chan0 bg0 st0]. cbn [fg interrupt followChan bg st] in *.
  subst fg0 int0 chan0 bg0.
  pose proof (poll_rows (fr_data_set fr) st0 resp w' mds ds' rest1 rest2 rows
                Hq Hmain Hdata Hrows) as Hpoll.
  assert (run [APoll; ASend; ADispatch; ASleep]
            (mkFollowState Selecting false None (Polling fr) st0)
          = Some (match rows with
                  | [] => next true [EvGo ds'; EvSleep interval]
                  | _ :: _ => next false [EvOutputEventsCustom rows (length rows); EvGo ds']
                  end)) as Hrun.
  { cbn [followRun]. unfold followStep at 1. cbn [crashed bg st]. rewrite Hpoll.
    cbn. subst next polled. cbn.
    destruct rows; cbn; by trace_norm. }
  split; [exact Hrun |]. split.
  - intros acts s' Hlen Hsig Hacts.
    destruct acts as [|a1 [|a2 [|a3 [|a4 [|]]]]]; try done.
    assert (a1 <> ASignal /\ a2 <> ASignal /\ a3 <> ASignal /\ a4 <> ASignal)
      as (H1 & H2 & H3 & H4).
    { repeat split; intros ->; apply Hsig; set_solver. }
    clear Hrun Hsig Hlen. cbn [followRun] in Hacts.
    destruct a1; try done; unfold followStep at 1 in Hacts;
      cbn [crashed bg fg interrupt followChan st] in Hacts; try done.
    rewrite Hpoll in Hacts.
    destruct a2; try done; unfold followStep at 1 in Hacts;
      cbn [crashed bg fg interrupt followChan st] in Hacts; try done.
    destruct a3; try done; unfold followStep at 1 in Hacts;
      cbn [crashed bg fg interrupt followChan st fr_err] in Hacts; try done.
    destruct a4; try done; unfold followStep at 1 in Hacts;
      cbn [crashed bg fg interrupt followChan st fr_err] in Hacts; try done.
  - intros s3 s4. rewrite Hrun. intros [= <-].
    unfold followStep.
    destruct (poll_first_event ds' (mkSt w' (polled ++ match rows with
                                                       | [] => [EvGo ds'; EvSleep interval]
                                                       | _ :: _ => [EvOutputEventsCustom rows (length rows); EvGo ds']
                                                       end)%list)) as [t Ht].
    destruct rows; subst next; cbn [crashed bg st fr_data_set fg interrupt followChan] in *;
      destruct (poll ds' _) as [[?|?|] ?]; try done; intros [= <-]; by exists t.
Qed.

(** C5, as amended. Take a state in which the goroutine is about to poll
    and the service answers. If the response has no main data set the
    poll is not fatal: an error is logged, the result carries no error and
    the data set that was polled, the foreground starts the next
    goroutine, which polls again without a sleep, and the foreground has
    no error to return. If the main data set has no rows, a first row
    without columns, or a first cell that is not a data set, the result
    carries the error, the foreground returns it, and no goroutine is
    started. *)
Theorem follow_poll_without_page (s : followState) (fr : followEventResult)
    (resp : Response) (w' : W) :
  fg s = Selecting -> followChan s = None -> bg s = Polling fr ->
  ContinueQuery (fr_data_set fr) "follow" (world (st s)) = (inl resp, w') ->
  let polled :=
    (trace (st s) ++ EvContinueQuery (fr_data_set fr) "follow"
       :: errorLog "Following of events query encountered errors. Returned data may not be complete!" resp)%list in
  (Main resp = None ->
   run [APoll; ASend; ADispatch; ASleep] s
   = Some (mkFollowState Selecting (interrupt s) None
             (Polling (mkFollowEventResult (fr_data_set fr) None false))
             (mkSt w' (polled
                         ++ [EvLog LvlError "Following of events query has nil main data. Returned data may not be complete!";
                             EvGo (fr_data_set fr)])))
   /\ run [APoll; ASend; AReturnErr] s = None)
  /\ (forall mds e, Main resp = Some mds -> followShapeError mds = Some e ->
      run [APoll; ASend; AReturnErr] s
      = Some (mkFollowState (Exited (Some e)) (interrupt s) None Idle (mkSt w' polled))
      /\ run [APoll; ASend; ADispatch] s = None).
Proof.
  intros Hfg Hchan Hbg Hq polled.
  destruct s as [fg0 int0 chan0 bg0 st0]. cbn [fg interrupt followChan bg st] in *.
  subst fg0 chan0 bg0. split.
  - intros Hmain.
    pose proof (poll_nil_main (fr_data_set fr) st0 resp w' Hq Hmain) as Hpoll.
    split; cbn [followRun]; unfold followStep at 1; cbn [crashed bg st]; rewrite Hpoll;
      cbn; [| done].
    subst polled. by trace_norm.
  - intros mds e Hmain Hshape.
    pose proof (poll_shape_error (fr_data_set fr) st0 resp w' mds e Hq Hmain Hshape)
      as Hpoll.
    split; cbn [followRun]; unfold followStep at 1; cbn [crashed bg st]; rewrite Hpoll;
      by cbn.
Qed.

End FollowFacts.

(** ** The extractor *)

Section ExtractorFacts.

Variable sliceToMap : list (list any) -> gmap string any.

Lemma extractEventsRows_step (row : list any) (rows : list (list any))
    (results : list EventsRow) :
  extractEventsRows sliceToMap (row :: rows) results
  = match rowOf sliceToMap row with
    | Some r => extractEventsRows sliceToMap rows (results ++ [r])
    | None =>
        match extractEventsRows sliceToMap [row] results with
        | Ret _ => Panicked PanicNilDereference
        | other => other
        end
    end.
Proof.
  cbn [extractEventsRows]. unfold rowOf.
  destruct row as [|[] [|[] ?]]; cbn; done.
Qed.

(** Rows of the expected shape give one record each, in their order. *)
Lemma extractEventsRows_shaped (rows : list (list any)) (records results : list EventsRow) :
  mapM (rowOf sliceToMap) rows = Some records ->
  extractEventsRows sliceToMap rows results = Ret ((results ++ records)%list, None).
Proof.
  revert records results. induction rows as [|row rows IH]; intros records results.
  - intros [= <-]. cbn. by rewrite app_nil_r.
  - rewrite extractEventsRows_step. cbn [mapM].
    destruct (rowOf sliceToMap row) as [r|]; [| done]. cbn.
    destruct (mapM (rowOf sliceToMap) rows) as [rs|] eqn:Hrs; [| done].
    cbn. intros [= <-]. rewrite (IH rs) by done. by rewrite <- app_assoc.
Qed.

(** The extractor has two outcomes only: records without an error, or a
    panic. It returns no error. *)
Lemma extractEventsRows_outcomes (rows : list (list any)) (results : list EventsRow) :
  (exists records, extractEventsRows sliceToMap rows results = Ret (records, None))
  \/ (exists p, extractEventsRows sliceToMap rows results = Panicked p).
Proof.
  revert results. induction rows as [|row rows IH]; intros results; cbn [extractEventsRows].
  - left. by eexists.
  - destruct (row !! 0%nat) as [[]|]; try (right; by eexists).
    destruct (row !! 1%nat) as [[]|]; try (right; by eexists).
    apply IH.
Qed.

(** A row of another shape makes the extractor panic. *)
Lemma extractEventsRows_deviation (rows : list (list any)) (results : list EventsRow) :
  mapM (rowOf sliceToMap) rows = None ->
  exists p, extractEventsRows sliceToMap rows results = Panicked p.
Proof.
  revert results. induction rows as [|row rows IH]; intros results; [done |].
  rewrite extractEventsRows_step. cbn [mapM].
  destruct (rowOf sliceToMap row) as [r|] eqn:Hrow.
  - cbn. destruct (mapM (rowOf sliceToMap) rows) eqn:Hrs; [done |]. intros _. by apply IH.
  - intros _. unfold rowOf in Hrow. cbn [extractEventsRows].
    destruct row as [|[] [|[] ?]]; cbn; try done; by eexists.
Qed.

End ExtractorFacts.

(** C4. The extractor returns the empty sequence for a data set without
    rows, and panics where the claim has it return an error: on a row of one
    column (index out of range), on a row without columns, on a first cell
    that is not an attribute bag and on a second cell that is not a
    timestamp (failed type assertions). *)
Theorem extractEventsData_deviation_panics :
  extractEventsData Scripted.sliceToMap (Some (Inputs.dataSet [] ∅)) = Ret ([], None)
  /\ extractEventsData Scripted.sliceToMap (Some (Inputs.dataSet [[Inputs.bag []]] ∅))
     = Panicked (PanicIndexOutOfRange 1 1)
  /\ extractEventsData Scripted.sliceToMap (Some (Inputs.dataSet [[]] ∅))
     = Panicked (PanicIndexOutOfRange 0 0)
  /\ extractEventsData Scripted.sliceToMap
       (Some (Inputs.dataSet [[AString "attributes"; ATime 1700000000]] ∅))
     = Panicked (PanicTypeAssertion "uql.ComplexData" (AString "attributes"))
  /\ extractEventsData Scripted.sliceToMap
       (Some (Inputs.dataSet [[Inputs.bag []; AString "2023-07-31"]] ∅))
     = Panicked (PanicTypeAssertion "time.Time" (AString "2023-07-31")).
Proof. repeat split. Qed.

(** The same in a whole run of the events command: the row of one column
    arrives in the first page, and the command panics after its query. *)
Example listEvents_short_row_panics :
  listEvents Scripted.ExecuteQuery Scripted.ContinueQuery Scripted.Quote Scripted.sliceToMap
    0 (Inputs.eventsCmd (Inputs.byOptimizer (-1) false))
    (Inputs.start [inl (Inputs.page [[Inputs.bag []]] ∅)])
  = (Panicked (PanicIndexOutOfRange 1 1),
     mkSt []
       [EvExecuteQuery
          (eventsTemplate
             (eventsTempVals (Inputs.eventsCmd (Inputs.byOptimizer (-1) false))
                ["attributes(optimize.optimization.optimizer_id) = "
                   ++ Scripted.Quote "ns-wl-abc"] ""))]).
Proof. vm_compute. reflexivity. Qed.

(** ** The key of the join *)

Section JoinKeyFacts.

Context {W : Type}.
Variable mapRange : nat -> gmap string any -> list (string * any).

(** A row without a lookup entry is a soft miss: a warning, no blockers. *)
Lemma joinRow_miss (blockerRows : gmap string (gmap string any)) (i : nat)
    (row : EventsRow) (id num : string) (s : St W) :
  mapIndex (EventAttributes row) "optimize.optimization.optimizer_id" = AString id ->
  mapIndex (EventAttributes row) "optimize.optimization.num" = AString num ->
  blockerRows !! (id ++ "-" ++ num) = None ->
  joinRow mapRange blockerRows i row s
  = (Ret (mkRecommendationRow row ∅ "false" []),
     mkSt (world s)
       (trace s ++ [EvLog LvlWarn
                      ("No optimization_started event found for recommendation with optimizer_id: "
                         ++ id ++ " and num: " ++ num)])).
Proof.
  intros Hid Hnum Hrow. unfold joinRow. rewrite Hid, Hnum.
  unfold bind, lift. cbn [assertString]. by rewrite Hrow.
Qed.

(** A key attribute that is absent or not a string makes the join panic:
    the state is left as it was and nothing is returned. *)
Lemma joinRow_bad_key (blockerRows : gmap string (gmap string any)) (i : nat)
    (row : EventsRow) (s : St W) :
  let id := mapIndex (EventAttributes row) "optimize.optimization.optimizer_id" in
  let num := mapIndex (EventAttributes row) "optimize.optimization.num" in
  (forall x, id <> AString x) \/ (forall x, num <> AString x) ->
  exists v, joinRow mapRange blockerRows i row s
            = (Panicked (PanicTypeAssertion "string" v), s).
Proof.
  intros id num H. unfold joinRow, bind, lift. fold id num.
  destruct id as [| x | | | | |] eqn:Hid; try (by eexists).
  destruct H as [H|H]; [by destruct (H x) |].
  cbn [assertString].
  destruct num as [| y | | | | |] eqn:Hnum; try (by eexists).
  by destruct (H y).
Qed.

End JoinKeyFacts.

(** C3. For the row of optimizer "ns-wl-abc" and optimization "3" the join
    finds the lookup entry stored under "ns-wl-abc-3". For the same row
    without its "optimize.optimization.num" the join panics on the failed
    type assertion, where the claim has it return an error, and so does the
    whole command when the service sends that row. *)
Theorem join_key_missing_num_panics :
  (exists r,
     joinRow Inputs.mapRange Inputs.blockerRows 0 Inputs.recommendation Inputs.s0
       = (Ret r, Inputs.s0)
     /\ BlockersAttributes r = Inputs.startedRow)
  /\ joinRow Inputs.mapRange Inputs.blockerRows 0 Inputs.recommendationNoNum Inputs.s0
     = (Panicked (PanicTypeAssertion "string" ANil), Inputs.s0)
  /\ fst (listRecommendations Scripted.ExecuteQuery Scripted.ContinueQuery Scripted.Quote
            Scripted.sliceToMap Inputs.mapRange 0
            (Inputs.recommendationsCmd (Inputs.byOptimizer 1 false))
            (Inputs.start [inl (Inputs.page [Inputs.recommendationEventNoNum] ∅);
                           inl (Inputs.page [Inputs.startedEvent] ∅)]))
     = Panicked (PanicTypeAssertion "string" ANil).
Proof.
  split; [eexists; split; vm_compute; reflexivity |].
  split; vm_compute; reflexivity.
Qed.

(** With the attribute the same run joins and prints the row. *)
Example listRecommendations_joined :
  exists s' r,
    listRecommendations Scripted.ExecuteQuery Scripted.ContinueQuery Scripted.Quote
      Scripted.sliceToMap Inputs.mapRange 0
      (Inputs.recommendationsCmd (Inputs.byOptimizer 1 false))
      (Inputs.start [inl (Inputs.page [Inputs.recommendationEvent] ∅);
                     inl (Inputs.page [Inputs.startedEvent] ∅)])
    = (Ret (Returned None), s')
    /\ last (trace s') = Some (EvOutputRecommendations [r] 1)
    /\ Blockers r = ["cpu-limit"] /\ BlockersPresent r = "true".
Proof.
  do 2 eexists. split; [vm_compute; reflexivity |].
  split; [vm_compute; reflexivity |]. split; reflexivity.
Qed.

Section BlockerJoinClaims.

Context {W : Type}.
Variable mapRange : nat -> gmap string any -> list (string * any).

(** C2, as amended. For every recommendation row whose key has an entry
    in the lookup, the join leaves the state alone and returns the row with
    all attributes of the entry as its blocker attributes, whatever the
    order of the visit, and BlockersPresent is "true" iff the id list is
    not empty, else "false". Every attribute name without "principal" and
    with more than three dot-delimited segments proposes its segment before
    the last one; when the proposed ids are separated (none empty, none
    with a comma, none inside another) each is added once, in the order of
    the visit. *)
Theorem blocker_join_matched (blockerRows : gmap string (gmap string any))
    (i : nat) (row : EventsRow) (id num : string)
    (startedRow : gmap string any) (s : St W) :
  mapIndex (EventAttributes row) "optimize.optimization.optimizer_id" = AString id ->
  mapIndex (EventAttributes row) "optimize.optimization.num" = AString num ->
  blockerRows !! (id ++ "-" ++ num) = Some startedRow ->
  mapRange i startedRow ≡ₚ map_to_list startedRow ->
  exists r,
    joinRow mapRange blockerRows i row s = (Ret r, s)
    /\ recEventsRow r = row
    /\ BlockersAttributes r = startedRow
    /\ (separated (candidates (mapRange i startedRow)) = true ->
        Blockers r = dedupFirst (candidates (mapRange i startedRow)))
    /\ (Blockers r <> [] -> BlockersPresent r = "true")
    /\ (Blockers r = [] -> BlockersPresent r = "false").
Proof.
  intros Hid Hnum Hrow Hperm.
  pose proof (mergeBlockers_copies startedRow _ Hperm) as Hfst.
  pose proof (mergeBlockers_dedup (mapRange i startedRow)) as Hsnd.
  unfold joinRow. rewrite Hid, Hnum. unfold bind, lift, ret. cbn [assertString].
  rewrite Hrow.
  destruct (mergeBlockers (mapRange i startedRow)) as [attrs bs].
  cbn [fst snd] in Hfst, Hsnd. subst attrs.
  eexists. split; [reflexivity |]. cbn [recEventsRow BlockersAttributes Blockers BlockersPresent].
  split; [done |]. split; [done |]. split; [exact Hsnd |].
  split; destruct bs; done.
Qed.

End BlockerJoinClaims.

(** The lookup entry of [Inputs.blockerRows]: the "principal" attribute is
    copied and proposes no id, "cpu-limit" and "memory" are collected. And
    an entry whose ids are not separated, "cpu" being inside "cpu-limit":
    its attributes are copied and blockers are present. *)
Lemma blocker_join_matched_witness :
  let nested : gmap string any :=
    {[ "optimize.ignored_blockers.cpu-limit.reason" := AString "approved";
       "optimize.ignored_blockers.cpu.reason" := AString "approved" ]} in
  let nestedRows : gmap string (gmap string any) := {[ "ns-wl-abc-3" := nested ]} in
  mapIndex (EventAttributes Inputs.recommendation) "optimize.optimization.optimizer_id"
    = AString "ns-wl-abc"
  /\ mapIndex (EventAttributes Inputs.recommendation) "optimize.optimization.num" = AString "3"
  /\ Inputs.blockerRows !! ("ns-wl-abc" ++ "-" ++ "3") = Some Inputs.startedRow
  /\ Inputs.mapRange 0 Inputs.startedRow ≡ₚ map_to_list Inputs.startedRow
  /\ separated (candidates (Inputs.mapRange 0 Inputs.startedRow)) = true
  /\ (exists r,
        joinRow Inputs.mapRange Inputs.blockerRows 0 Inputs.recommendation Inputs.s0
          = (Ret r, Inputs.s0)
        /\ recEventsRow r = Inputs.recommendation
        /\ BlockersAttributes r = Inputs.startedRow
        /\ Blockers r = dedupFirst (candidates (Inputs.mapRange 0 Inputs.startedRow))
        /\ (Blockers r <> [] -> BlockersPresent r = "true")
        /\ (Blockers r = [] -> BlockersPresent r = "false"))
  /\ nestedRows !! ("ns-wl-abc" ++ "-" ++ "3") = Some nested
  /\ separated (candidates (Inputs.mapRange 0 nested)) = false
  /\ exists r,
      joinRow Inputs.mapRange nestedRows 0 Inputs.recommendation Inputs.s0
        = (Ret r, Inputs.s0)
      /\ recEventsRow r = Inputs.recommendation
      /\ BlockersAttributes r = nested
      /\ BlockersPresent r = "true".
Proof.
  intros nested nestedRows.
  assert (H1 : mapIndex (EventAttributes Inputs.recommendation)
                 "optimize.optimization.optimizer_id" = AString "ns-wl-abc")
    by (vm_compute; reflexivity).
  assert (H2 : mapIndex (EventAttributes Inputs.recommendation) "optimize.optimization.num"
               = AString "3") by (vm_compute; reflexivity).
  assert (H3 : Inputs.blockerRows !! ("ns-wl-abc" ++ "-" ++ "3") = Some Inputs.startedRow)
    by (vm_compute; reflexivity).
  assert (H4 : Inputs.mapRange 0 Inputs.startedRow ≡ₚ map_to_list Inputs.startedRow)
    by reflexivity.
  assert (H5 : separated (candidates (Inputs.mapRange 0 Inputs.startedRow)) = true)
    by (vm_compute; reflexivity).
  assert (H6 : nestedRows !! ("ns-wl-abc" ++ "-" ++ "3") = Some nested)
    by (vm_compute; reflexivity).
  assert (H7 : Inputs.mapRange 0 nested ≡ₚ map_to_list nested) by reflexivity.
  assert (H8 : separated (candidates (Inputs.mapRange 0 nested)) = false)
    by (vm_compute; reflexivity).
  repeat (split; [assumption |]).
  split.
  - destruct (blocker_join_matched Inputs.mapRange Inputs.blockerRows 0
                Inputs.recommendation "ns-wl-abc" "3" Inputs.startedRow Inputs.s0 H1 H2 H3 H4)
      as (r & Hrun & Hrow & Hattrs & Hids & Htrue & Hfalse).
    exists r. repeat (split; [assumption |]). split; [exact (Hids H5) |]. by split.
  - repeat (split; [assumption |]).
    destruct (blocker_join_matched Inputs.mapRange nestedRows 0
                Inputs.recommendation "ns-wl-abc" "3" nested Inputs.s0 H1 H2 H6 H7)
      as (r & Hrun & Hrow & Hattrs & _ & Htrue & _).
    exists r. repeat (split; [assumption |]). apply Htrue.
    pose proof Hrun as Hc. vm_compute in Hc. injection Hc as <-. discriminate.
Defined.

Example blocker_join_spec_example :
  Blockers (mkRecommendationRow Inputs.recommendation Inputs.startedRow "true"
              (dedupFirst (candidates (Inputs.mapRange 0 Inputs.startedRow))))
  = ["cpu-limit"; "memory"]
  \/ Blockers (mkRecommendationRow Inputs.recommendation Inputs.startedRow "true"
              (dedupFirst (candidates (Inputs.mapRange 0 Inputs.startedRow))))
  = ["memory"; "cpu-limit"].
Proof. vm_compute. auto. Qed.

(** C2, as the claim states it, fails: the attribute
    "optimize.ignored_blockers.reason" has no "principal" in it and
    "ignored_blockers" as its segment before the last one, which the claim
    adds to the blocker ids; the join adds nothing and reports "false". *)
Lemma blocker_join_short_name_counterexample :
  Inputs.shortBlockerRows !! "ns-wl-abc-3" = Some Inputs.shortRow
  /\ specCandidates (Inputs.mapRange 0 Inputs.shortRow) = ["ignored_blockers"]
  /\ exists r,
      joinRow Inputs.mapRange Inputs.shortBlockerRows 0 Inputs.recommendation Inputs.s0
        = (Ret r, Inputs.s0)
      /\ BlockersAttributes r = Inputs.shortRow
      /\ Blockers r = []
      /\ BlockersPresent r = "false".
Proof.
  split; [vm_compute; reflexivity |].
  split; [vm_compute; reflexivity |].
  eexists. split; [vm_compute; reflexivity |].
  repeat split.
Qed.

(** The test for "already present" is a substring test on the joined ids:
    after "cpu-limit", "cpu" is taken to be present. *)
Example blocker_join_substring :
  candidates Inputs.nestedVisit = ["cpu-limit"; "cpu"]
  /\ dedupFirst (candidates Inputs.nestedVisit) = ["cpu-limit"; "cpu"]
  /\ snd (mergeBlockers Inputs.nestedVisit) = ["cpu-limit"]
  /\ separated (candidates Inputs.nestedVisit) = false.
Proof. vm_compute. repeat split. Qed.

(** ** The claims on concrete runs *)

(** The cap of 1001: with an optimizer id, on a service that is never
    called; and with a namespace, on a service that answers the lookup with
    an id, with a transport error, and with no id. *)
Lemma cap_over_1000_witness :
  let capError := Errorf "counts higher than 1000 are not supported" in
  let status :=
    EvStatus ("No optimization entities found matching the given criteria" ++ nl) in
  let events flags script :=
    listEvents Scripted.ExecuteQuery Scripted.ContinueQuery Scripted.Quote
      Scripted.sliceToMap 0 (mkEventsCmdFlags flags false defaultEvents) (Inputs.start script) in
  let recommendations flags script :=
    listRecommendations Scripted.ExecuteQuery Scripted.ContinueQuery Scripted.Quote
      Scripted.sliceToMap Inputs.mapRange 0 (mkRecommendationsCmdFlags flags false)
      (Inputs.start script) in
  let lookup script :=
    listOptimizations Scripted.ExecuteQuery Scripted.ContinueQuery Scripted.Quote 0
      (Inputs.byNamespace 1001) (Inputs.start script) in
  count (Inputs.byOptimizer 1001 false) > 1000
  /\ count (Inputs.byNamespace 1001) > 1000
  /\ (events (Inputs.byOptimizer 1001 false) [] = (Ret (Returned (Some capError)), Inputs.start [])
      /\ recommendations (Inputs.byOptimizer 1001 false) []
         = (Ret (Returned (Some capError)), Inputs.start []))
  /\ (events (Inputs.byNamespace 1001) [inl (Inputs.entities ["payments-api-111"])]
      = (Ret (Returned (Some capError)),
         snd (lookup [inl (Inputs.entities ["payments-api-111"])]))
      /\ recommendations (Inputs.byNamespace 1001) [inl (Inputs.entities ["payments-api-111"])]
         = (Ret (Returned (Some capError)),
            snd (lookup [inl (Inputs.entities ["payments-api-111"])])))
  /\ (events (Inputs.byNamespace 1001) [inr "unavailable"]
      = (Ret (Returned (Some (Wrap "listOptimizations"
                                (Wrap "uql.ClientV1.ExecuteQuery" (ClientError "unavailable"))))),
         snd (lookup [inr "unavailable"]))
      /\ recommendations (Inputs.byNamespace 1001) [inr "unavailable"]
         = (Ret (Returned (Some (Wrap "listOptimizations"
                                   (Wrap "uql.ClientV1.ExecuteQuery"
                                      (ClientError "unavailable"))))),
            snd (lookup [inr "unavailable"])))
  /\ (events (Inputs.byNamespace 1001) [inl (Inputs.entities [])]
      = (Ret (Returned None),
         mkSt (world (snd (lookup [inl (Inputs.entities [])])))
           (trace (snd (lookup [inl (Inputs.entities [])])) ++ [status]))
      /\ recommendations (Inputs.byNamespace 1001) [inl (Inputs.entities [])]
         = (Ret (Returned None),
            mkSt (world (snd (lookup [inl (Inputs.entities [])])))
              (trace (snd (lookup [inl (Inputs.entities [])])) ++ [status]))).
Proof.
  intros capError status events recommendations lookup.
  assert (H : count (Inputs.byOptimizer 1001 false) > 1000) by reflexivity.
  assert (H' : count (Inputs.byNamespace 1001) > 1000) by reflexivity.
  assert (Hid : optimizerId (Inputs.byNamespace 1001) = "") by reflexivity.
  assert (Hns : namespace (Inputs.byNamespace 1001) <> ""
                \/ workloadName (Inputs.byNamespace 1001) <> "") by (left; discriminate).
  split; [exact H |]. split; [exact H' |].
  split.
  { apply (cap_over_1000 Scripted.ExecuteQuery Scripted.ContinueQuery Scripted.Quote
             Scripted.sliceToMap Inputs.mapRange 0 (Inputs.byOptimizer 1001 false)
             false defaultEvents false (Inputs.start []) H).
    left. discriminate. }
  split.
  { apply (proj1 (proj1 (proj2 (cap_over_1000 Scripted.ExecuteQuery Scripted.ContinueQuery
                                  Scripted.Quote Scripted.sliceToMap Inputs.mapRange 0
                                  (Inputs.byNamespace 1001) false defaultEvents false
                                  (Inputs.start [inl (Inputs.entities ["payments-api-111"])])
                                  H')) Hid Hns) "payments-api-111" []).
    vm_compute. reflexivity. }
  split.
  { apply (proj1 (proj2 (proj1 (proj2 (cap_over_1000 Scripted.ExecuteQuery
                                         Scripted.ContinueQuery Scripted.Quote
                                         Scripted.sliceToMap Inputs.mapRange 0
                                         (Inputs.byNamespace 1001) false defaultEvents false
                                         (Inputs.start [inr "unavailable"]) H')) Hid Hns)) []).
    vm_compute. reflexivity. }
  apply (proj1 (proj2 (proj2 (proj1 (proj2 (cap_over_1000 Scripted.ExecuteQuery
                                              Scripted.ContinueQuery Scripted.Quote
                                              Scripted.sliceToMap Inputs.mapRange 0
                                              (Inputs.byNamespace 1001) false defaultEvents
                                              false (Inputs.start [inl (Inputs.entities [])])
                                              H')) Hid Hns)))).
  vm_compute. reflexivity.
Defined.

(** C1, as the claim states it, fails: with a namespace and a cap of 1001
    the entity lookup is sent to the service before the cap is looked at;
    when the lookup returns an id the command fails after that call, and
    when it returns none the command does not fail at all. *)
Lemma cap_checked_after_lookup_counterexample :
  count (Inputs.byNamespace 1001) > 1000
  /\ (exists query,
        listEvents Scripted.ExecuteQuery Scripted.ContinueQuery Scripted.Quote
          Scripted.sliceToMap 0 (Inputs.eventsCmd (Inputs.byNamespace 1001))
          (Inputs.start [inl (Inputs.entities ["payments-api-111"])])
        = (Ret (Returned (Some (Errorf "counts higher than 1000 are not supported"))),
           mkSt [] [EvExecuteQuery query]))
  /\ (exists query,
        listEvents Scripted.ExecuteQuery Scripted.ContinueQuery Scripted.Quote
          Scripted.sliceToMap 0 (Inputs.eventsCmd (Inputs.byNamespace 1001))
          (Inputs.start [inl (Inputs.entities [])])
        = (Ret (Returned None),
           mkSt [] [EvExecuteQuery query;
                    EvStatus ("No optimization entities found matching the given criteria" ++ nl)])).
Proof.
  split; [reflexivity |].
  split; eexists; vm_compute; reflexivity.
Qed.

(** A cap of 5 and a first page that carries a "next" link: the one row of
    the page is printed and the command returns. *)
Lemma capped_fetch_is_first_page_witness :
  let f := Inputs.byOptimizer 5 false in
  let s := Inputs.start [inl (Inputs.page [Inputs.otherEvent] Inputs.nextAndFollow)] in
  let ds := Inputs.dataSet [Inputs.otherEvent] Inputs.nextAndFollow in
  let rows := [mkEventsRow 1700000100
                 (Scripted.sliceToMap
                    [[AString "optimize.optimization.optimizer_id"; AString "ns-wl-abc"];
                     [AString "appd.event.type"; AString "optimize:stage_started"]])] in
  (count f <> -1 \/ follow f = true)
  /\ limits f = inr "5"
  /\ Links ds !! "next" = Some "/monitoring/v1/query/continue?cursor=n1"
  /\ extractEventsData Scripted.sliceToMap (Some ds) = Ret (rows, None)
  /\ exists query,
      eventsQuery Scripted.ExecuteQuery Scripted.ContinueQuery Scripted.sliceToMap 0
        (mkEventsCmdFlags f false defaultEvents) ["filter"] s
      = (Ret (Returned None), mkSt [] [EvExecuteQuery query; EvOutputEvents rows 1]).
Proof.
  intros f s ds rows.
  assert (H1 : count f <> -1 \/ follow f = true) by (left; discriminate).
  assert (H2 : limits f = inr "5") by reflexivity.
  assert (H3 : Links ds !! "next" = Some "/monitoring/v1/query/continue?cursor=n1")
    by (vm_compute; reflexivity).
  assert (H4 : extractEventsData Scripted.sliceToMap (Some ds) = Ret (rows, None))
    by reflexivity.
  repeat (split; [assumption |]).
  eexists.
  exact (proj1 (capped_fetch_is_first_page Scripted.ExecuteQuery Scripted.ContinueQuery
                  Scripted.sliceToMap Inputs.mapRange 0 f false defaultEvents false
                  ["filter"] "5" s
                  (Inputs.page [Inputs.otherEvent] Inputs.nextAndFollow) []
                  (mkDataSet "main" [[ADataSet (Some ds)]] ∅) (Some ds) [] [] rows
                  H1 H2 eq_refl eq_refl H4) eq_refl).
Defined.

(** A lookup by namespace that finds nothing. *)
Lemma no_entities_is_success_witness :
  let f := Inputs.byNamespace (-1) in
  let s := Inputs.start [inl (Inputs.entities [])] in
  optimizerId f = ""
  /\ (namespace f <> "" \/ workloadName f <> "")
  /\ exists query,
      listOptimizations Scripted.ExecuteQuery Scripted.ContinueQuery Scripted.Quote 0 f s
      = (Ret ([], None), mkSt [] [EvExecuteQuery query])
      /\ listEvents Scripted.ExecuteQuery Scripted.ContinueQuery Scripted.Quote
           Scripted.sliceToMap 0 (mkEventsCmdFlags f false defaultEvents) s
         = (Ret (Returned None),
            mkSt [] [EvExecuteQuery query;
                     EvStatus ("No optimization entities found matching the given criteria" ++ nl)]).
Proof.
  intros f s.
  assert (H1 : optimizerId f = "") by reflexivity.
  assert (H2 : namespace f <> "" \/ workloadName f <> "") by (left; discriminate).
  split; [exact H1 |]. split; [exact H2 |].
  eexists.
  assert (H3 : listOptimizations Scripted.ExecuteQuery Scripted.ContinueQuery
                 Scripted.Quote 0 f s
               = (Ret ([], None), mkSt [] [EvExecuteQuery _]))
    by (vm_compute; reflexivity).
  split; [exact H3 |].
  exact (proj1 (no_entities_is_success Scripted.ExecuteQuery Scripted.ContinueQuery
                  Scripted.Quote Scripted.sliceToMap Inputs.mapRange 0 f false defaultEvents
                  false s _ H1 H2 H3)).
Defined.

(** A recommendation row in hand and a blocker query without main data. *)
Lemma blocker_query_miss_is_fatal_witness :
  let tempVals :=
    recommendationsTempVals (Inputs.recommendationsCmd (Inputs.byOptimizer 1 false))
      ["filter"] "1" in
  let s := Inputs.start [inl Inputs.nilMain] in
  Scripted.ExecuteQuery (optimizationStartedTemplate tempVals) (world s)
    = (inl Inputs.nilMain, [])
  /\ (Main Inputs.nilMain = None
      \/ exists mds, Main Inputs.nilMain = Some mds /\ Data mds = [])
  /\ recommendationsJoin Scripted.ExecuteQuery Scripted.sliceToMap Inputs.mapRange
       tempVals [Inputs.recommendation] s
     = (Ret (Returned (Some (Wrap "failed to retrieve optimization_started blocker data"
                               (Errorf "no optimization_started results found for given input")))),
        mkSt [] [EvExecuteQuery (optimizationStartedTemplate tempVals)]).
Proof.
  intros tempVals s.
  assert (H1 : Scripted.ExecuteQuery (optimizationStartedTemplate tempVals) (world s)
               = (inl Inputs.nilMain, [])) by reflexivity.
  assert (H2 : Main Inputs.nilMain = None
               \/ exists mds, Main Inputs.nilMain = Some mds /\ Data mds = [])
    by (left; reflexivity).
  split; [exact H1 |]. split; [exact H2 |].
  exact (blocker_query_miss_is_fatal Scripted.ExecuteQuery Scripted.sliceToMap
           Inputs.mapRange tempVals [Inputs.recommendation] s Inputs.nilMain [] H1 H2).
Defined.

(** The same in a whole run: the recommendation row is fetched, then the
    blocker query comes back without rows, and the command fails. *)
Example listRecommendations_blocker_miss :
  fst (listRecommendations Scripted.ExecuteQuery Scripted.ContinueQuery Scripted.Quote
         Scripted.sliceToMap Inputs.mapRange 0
         (Inputs.recommendationsCmd (Inputs.byOptimizer 1 false))
         (Inputs.start [inl (Inputs.page [Inputs.recommendationEvent] ∅);
                        inl Inputs.noRows]))
  = Ret (Returned (Some (Wrap "failed to retrieve optimization_started blocker data"
                           (Errorf "no optimization_started results found for given input")))).
Proof. vm_compute. reflexivity. Qed.


(** A poll that returns a row, and a poll that returns none. *)
Lemma follow_eager_drain_witness :
  let some := FollowInputs.polling false [inl (Inputs.page [Inputs.otherEvent] Inputs.followOnly)] in
  let none := FollowInputs.polling false [inl (Inputs.page [] Inputs.followOnly)] in
  (exists s', FollowInputs.run [APoll; ASend; ADispatch; ASleep] some = Some s'
              /\ List.filter FollowInputs.isSleep
                   (trace (st s')) = [])
  /\ (exists s', FollowInputs.run [APoll; ASend; ADispatch; ASleep] none = Some s'
                 /\ List.filter FollowInputs.isSleep
                      (trace (st s')) = [EvSleep FollowInputs.interval]).
Proof.
  intros some none. split.
  - eexists. split.
    + exact (proj1 (follow_eager_drain Scripted.ContinueQuery Scripted.sliceToMap
                      FollowInputs.interval some FollowInputs.firstResult
                      (Inputs.page [Inputs.otherEvent] Inputs.followOnly) []
                      (mkDataSet "main"
                         [[ADataSet (Some (Inputs.dataSet [Inputs.otherEvent] Inputs.followOnly))]] ∅)
                      (Some (Inputs.dataSet [Inputs.otherEvent] Inputs.followOnly)) [] []
                      [mkEventsRow 1700000100
                         (Scripted.sliceToMap
                            [[AString "optimize.optimization.optimizer_id"; AString "ns-wl-abc"];
                             [AString "appd.event.type"; AString "optimize:stage_started"]])]
                      eq_refl eq_refl eq_refl eq_refl eq_refl eq_refl eq_refl eq_refl)).
    + vm_compute. reflexivity.
  - eexists. split.
    + exact (proj1 (follow_eager_drain Scripted.ContinueQuery Scripted.sliceToMap
                      FollowInputs.interval none FollowInputs.firstResult
                      (Inputs.page [] Inputs.followOnly) []
                      (mkDataSet "main"
                         [[ADataSet (Some (Inputs.dataSet [] Inputs.followOnly))]] ∅)
                      (Some (Inputs.dataSet [] Inputs.followOnly)) [] [] []
                      eq_refl eq_refl eq_refl eq_refl eq_refl eq_refl eq_refl eq_refl)).
    + vm_compute. reflexivity.
Defined.

(** A poll without main data, and a poll whose main data set has no rows. *)
Lemma follow_poll_without_page_witness :
  let nilMain := FollowInputs.polling false [inl Inputs.nilMain] in
  let noRows := FollowInputs.polling false [inl Inputs.noRows] in
  (exists s', FollowInputs.run [APoll; ASend; ADispatch; ASleep] nilMain = Some s'
              /\ fg s' = Selecting /\ bg s' = Polling FollowInputs.firstResult)
  /\ (exists s', FollowInputs.run [APoll; ASend; AReturnErr] noRows = Some s'
                 /\ fg s' = Exited (Some (Errorf "follow main dataset main has no rows"))).
Proof.
  intros nilMain noRows. split.
  - eexists. split.
    + exact (proj1 (proj1 (follow_poll_without_page Scripted.ContinueQuery
                             Scripted.sliceToMap FollowInputs.interval nilMain
                             FollowInputs.firstResult Inputs.nilMain []
                             eq_refl eq_refl eq_refl eq_refl) eq_refl)).
    + split; reflexivity.
  - eexists. split.
    + exact (proj1 (proj2 (follow_poll_without_page Scripted.ContinueQuery
                             Scripted.sliceToMap FollowInputs.interval noRows
                             FollowInputs.firstResult Inputs.noRows []
                             eq_refl eq_refl eq_refl eq_refl)
                      (mkDataSet "main" [] ∅) _ eq_refl eq_refl)).
    + reflexivity.
Defined.

(** C5, as the claim states it, fails: the service answers two polls of the
    follow loop without main data. The first result carries no error, so the
    foreground has none to return; it starts the next goroutine, which polls
    again, and the loop is still running after the second poll. *)
Lemma follow_nil_main_counterexample :
  let s := followInit FollowInputs.first
             (Inputs.start [inl Inputs.nilMain; inl Inputs.nilMain]) in
  exists s1 s2,
    FollowInputs.run [ADispatch; ASleep; APoll; ASend] s = Some s1
    /\ followChan s1 = Some FollowInputs.firstResult
    /\ FollowInputs.step AReturnErr s1 = None
    /\ FollowInputs.run [ADispatch; ASleep; APoll; ASend] s1 = Some s2
    /\ fg s2 = Selecting
    /\ followChan s2 = Some FollowInputs.firstResult
    /\ List.filter FollowInputs.isFollowPoll (trace (st s2))
       = [EvContinueQuery (Some FollowInputs.first) "follow";
          EvContinueQuery (Some FollowInputs.first) "follow"].
Proof.
  do 2 eexists.
  split; [vm_compute; reflexivity |]. split; [reflexivity |].
  split; [reflexivity |]. split; [vm_compute; reflexivity |].
  repeat split.
Qed.

(** ** Whole runs of the fetch

    The same first page, with its "next" link, under the three modes. *)

(** Without a cap and without follow the "next" link is followed: two
    pages, two rows, one [ContinueQuery]. *)
Example listEvents_paginates :
  exists s' rows,
    listEvents Scripted.ExecuteQuery Scripted.ContinueQuery Scripted.Quote Scripted.sliceToMap
      3 (Inputs.eventsCmd (Inputs.byOptimizer (-1) false))
      (Inputs.start [inl (Inputs.page [Inputs.otherEvent] Inputs.nextAndFollow);
                     inl (Inputs.page [Inputs.otherEvent] Inputs.followOnly)])
    = (Ret (Returned None), s')
    /\ last (trace s') = Some (EvOutputEvents rows 2)
    /\ List.filter isContinue (trace s')
       = [EvContinueQuery
            (Some (Inputs.dataSet [Inputs.otherEvent] Inputs.nextAndFollow)) "next"].
Proof.
  do 2 eexists. split; [vm_compute; reflexivity |].
  split; vm_compute; reflexivity.
Qed.

(** With follow the first fetch stops at the first page and the command
    enters the follow loop on its data set. *)
Example listEvents_follow_first_page :
  exists s' rows,
    listEvents Scripted.ExecuteQuery Scripted.ContinueQuery Scripted.Quote Scripted.sliceToMap
      3 (Inputs.eventsCmd (Inputs.byOptimizer (-1) true))
      (Inputs.start [inl (Inputs.page [Inputs.otherEvent] Inputs.nextAndFollow);
                     inl (Inputs.page [Inputs.otherEvent] Inputs.followOnly)])
    = (Ret (EnterFollow FollowInputs.first), s')
    /\ last (trace s') = Some (EvOutputEvents rows 1)
    /\ List.filter isContinue (trace s') = [].
Proof.
  do 2 eexists. split; [vm_compute; reflexivity |].
  split; vm_compute; reflexivity.
Qed.

(** With the cap of 1 the recommendations command sends its query and the
    blocker query, and no [ContinueQuery]. *)
Example listRecommendations_capped_first_page :
  exists s' items,
    listRecommendations Scripted.ExecuteQuery Scripted.ContinueQuery Scripted.Quote
      Scripted.sliceToMap Inputs.mapRange 3
      (Inputs.recommendationsCmd (Inputs.byOptimizer 1 false))
      (Inputs.start [inl (Inputs.page [Inputs.recommendationEvent] Inputs.nextAndFollow);
                     inl (Inputs.page [Inputs.startedEvent] ∅)])
    = (Ret (Returned None), s')
    /\ last (trace s') = Some (EvOutputRecommendations items 1)
    /\ List.filter isContinue (trace s') = []
    /\ length (List.filter isQuery (trace s')) = 2%nat.
Proof.
  do 2 eexists. split; [vm_compute; reflexivity |].
  split; [vm_compute; reflexivity |]. split; vm_compute; reflexivity.
Qed.

(** ** The page loop *)

Section PageLoopFacts.

Context {W : Type}.
Variable ContinueQuery : option DataSet -> string -> W -> (Response + string) * W.
Variable sliceToMap : list (list any) -> gmap string any.

Local Abbreviation continuePages' := (continuePages ContinueQuery sliceToMap).
Local Abbreviation servesPages' := (servesPages ContinueQuery sliceToMap).

(** One turn of the loop on a page the service serves. *)
Lemma continuePages_turn (what : string) (fuel page : nat) (ds : DataSet)
    (rows : list EventsRow) (s : St W) (p : pageAnswer) :
  servesNext ContinueQuery sliceToMap (world s) ds p ->
  continuePages' what (S fuel) page (Some ds) rows s
  = let s1 := mkSt (paWorld p)
                (trace s ++ EvContinueQuery (Some ds) "next"
                   :: errorLog ("Continuation of " ++ what ++ " query (page " ++ pretty page
                                  ++ ") encountered errors. Returned data may not be complete!")
                        (paResponse p)) in
    if hasLink (paDataSet p) "next"
    then continuePages' what fuel (S page) (Some (paDataSet p)) (rows ++ paRows p) s1
    else (Ret (inr ((rows ++ paRows p)%list, Some (paDataSet p))), s1).
Proof.
  intros (Hq & mds & rest1 & rest2 & Hmain & Hdata & Hrows).
  cbn [continuePages]. unfold bind at 1, continueQuery. rewrite Hq.
  unfold bind at 1. rewrite logErrors_run. cbn [world trace].
  rewrite Hmain, Hdata. unfold bind at 1, lift at 1. rewrite Hrows.
  unfold bind at 1, lift, nextLink. rewrite <- app_assoc. cbn [app].
  by destruct (hasLink (paDataSet p) "next").
Qed.

Lemma errorLog_no_continue (headline : string) (resp : Response) :
  List.filter isContinue (errorLog headline resp) = [].
Proof.
  unfold errorLog. destruct (HasErrors resp); [| done]. cbn.
  by induction (Errors resp).
Qed.

Lemma pagesTrace_round_trips (what : string) (page : nat) (ds : DataSet)
    (pages : list pageAnswer) :
  length (List.filter isContinue (pagesTrace (W := W) what page ds pages)) = length pages.
Proof.
  revert page ds. induction pages as [|p pages IH]; intros page ds; [done |].
  cbn [pagesTrace]. change (List.filter isContinue (?x :: ?l)) with
    (if isContinue x then x :: List.filter isContinue l else List.filter isContinue l).
  cbn [isContinue length].
  rewrite List.filter_app, errorLog_no_continue. cbn [app]. by rewrite IH.
Qed.

(** The loop along the pages a service serves. *)
Lemma continuePages_served (what : string) (fuel page : nat) (ds : DataSet)
    (rows : list EventsRow) (s : St W) (pages : list pageAnswer) :
  servesPages' (world s) ds pages -> (length pages <= fuel)%nat ->
  exists p,
    last pages = Some p
    /\ continuePages' what fuel page (Some ds) rows s
       = (Ret (inr ((rows ++ concat (map paRows pages))%list, Some (paDataSet p))),
          mkSt (paWorld p) (trace s ++ pagesTrace what page ds pages)).
Proof.
  revert fuel page ds rows s.
  induction pages as [|p pages IH]; intros fuel page ds rows s Hpages Hfuel; [done |].
  destruct fuel as [|fuel]; [cbn in Hfuel; lia |].
  destruct pages as [|q pages].
  - destruct Hpages as [Hserve Hlink]. exists p. split; [done |].
    rewrite (continuePages_turn what fuel page ds rows s p Hserve). cbn zeta.
    rewrite Hlink. cbn [map concat pagesTrace]. by rewrite !app_nil_r.
  - destruct Hpages as (Hserve & Hlink & Hrest).
    rewrite (continuePages_turn what fuel page ds rows s p Hserve). cbn zeta.
    rewrite Hlink.
    destruct (IH fuel (S page) (paDataSet p) (rows ++ paRows p)%list
                (mkSt (paWorld p)
                   (trace s ++ EvContinueQuery (Some ds) "next"
                      :: errorLog ("Continuation of " ++ what ++ " query (page "
                                     ++ pretty page
                                     ++ ") encountered errors. Returned data may not be complete!")
                           (paResponse p)))
                Hrest ltac:(cbn in Hfuel |- *; lia)) as (r & Hlast & Hrun).
    exists r. split; [done |]. rewrite Hrun. cbn [trace map concat pagesTrace].
    by rewrite <- !app_assoc.
Qed.

(** X1. Pagination along the pages a service serves. When the "next" link
    of the data set in hand leads to a page, the "next" link of that page to
    the following one, and so on to a page without the link, the loop, given
    fuel for that many pages, returns the rows it was given followed by the
    rows of every page in page order, and the data set of the last page; it
    leaves the service in the state after the last page and has issued one
    [ContinueQuery] per page, each on the data set of the page before. *)
Theorem continuePages_chain (what : string) (fuel page : nat) (ds : DataSet)
    (rows : list EventsRow) (s : St W) (pages : list pageAnswer) :
  servesPages' (world s) ds pages -> (length pages <= fuel)%nat ->
  exists p,
    last pages = Some p
    /\ continuePages' what fuel page (Some ds) rows s
       = (Ret (inr ((rows ++ concat (map paRows pages))%list, Some (paDataSet p))),
          mkSt (paWorld p) (trace s ++ pagesTrace what page ds pages))
    /\ length (List.filter isContinue (pagesTrace what page ds pages)) = length pages.
Proof.
  intros Hpages Hfuel.
  destruct (continuePages_served what fuel page ds rows s pages Hpages Hfuel)
    as (p & Hlast & Hrun).
  exists p. by rewrite pagesTrace_round_trips.
Qed.

Lemma pagesEnd_cons (w : W) (ds : DataSet) (p : pageAnswer) (pages : list pageAnswer) :
  pagesEnd w ds (p :: pages) = pagesEnd (paWorld p) (paDataSet p) pages.
Proof.
  unfold pagesEnd. rewrite last_cons. by destruct (last pages).
Qed.

(** The prefix relation of the rows returned. *)
Lemma continuePages_prefix (what : string) (fuel page : nat) (data_set : option DataSet)
    (rows rows' : list EventsRow) (data_set' : option DataSet) (s s' : St W) :
  continuePages' what fuel page data_set rows s = (Ret (inr (rows', data_set')), s') ->
  exists more, rows' = (rows ++ more)%list.
Proof.
  revert page data_set rows s.
  induction fuel as [|fuel IH]; intros page data_set rows s; [done |].
  cbn [continuePages]. unfold bind at 1, continueQuery.
  destruct (ContinueQuery data_set "next" (world s)) as [[resp|e] w]; [| done].
  unfold bind at 1. rewrite logErrors_run.
  destruct (Main resp) as [mds|].
  - destruct (Data mds) as [|[|[] ?] ?]; try done.
    unfold bind at 1, lift at 1.
    destruct (extractEventsData sliceToMap p) as [[newRows [err|]]| |]; try done.
    unfold bind at 1, lift, nextLink. destruct p as [d|]; [| done].
    destruct (hasLink d "next").
    + intros H. destruct (IH _ _ _ _ H) as [more ->].
      exists (newRows ++ more)%list. by rewrite app_assoc.
    + intros [= <- _ _]. by exists newRows.
  - unfold bind, emit, ret. intros [= <- _ _]. exists []. by rewrite app_nil_r.
Qed.

(** The loop along linked pages, up to a page without main data. *)
Lemma continuePages_nil_main (what : string) (fuel page : nat) (ds : DataSet)
    (rows : list EventsRow) (s : St W) (pages : list pageAnswer)
    (resp : Response) (w' : W) :
  servesLinked ContinueQuery sliceToMap (world s) ds pages ->
  (length pages < fuel)%nat ->
  let last_data_set := Some (snd (pagesEnd (world s) ds pages)) in
  ContinueQuery last_data_set "next" (fst (pagesEnd (world s) ds pages)) = (inl resp, w') ->
  Main resp = None ->
  continuePages' what fuel page (Some ds) rows s
  = (Ret (inr ((rows ++ concat (map paRows pages))%list, last_data_set)),
     mkSt w'
       (trace s ++ pagesTrace what page ds pages
          ++ EvContinueQuery last_data_set "next"
          :: errorLog ("Continuation of " ++ what ++ " query (page "
                         ++ pretty (page + length pages)%nat
                         ++ ") encountered errors. Returned data may not be complete!") resp
          ++ [EvLog LvlError
                ("Continuation of " ++ what ++ " query (page "
                   ++ pretty (page + length pages)%nat
                   ++ ") has nil main data. Returned data may not be complete!")])).
Proof.
  revert fuel page ds rows s.
  induction pages as [|p pages IH]; intros fuel page ds rows s Hpages Hfuel; cbn zeta.
  - unfold pagesEnd. cbn [last fst snd length map concat pagesTrace].
    intros Hq Hmain. destruct fuel as [|fuel]; [cbn in Hfuel; lia |].
    cbn [continuePages]. unfold bind at 1, continueQuery. rewrite Hq.
    unfold bind at 1. rewrite logErrors_run. cbn [world trace]. rewrite Hmain.
    unfold bind, emit, ret. cbn [world trace].
    by rewrite Nat.add_0_r, !app_nil_r, <- !app_assoc.
  - destruct Hpages as (Hserve & Hlink & Hrest).
    destruct fuel as [|fuel]; [cbn in Hfuel; lia |].
    rewrite pagesEnd_cons. intros Hq Hmain.
    rewrite (continuePages_turn what fuel page ds rows s p Hserve).
    cbn zeta. rewrite Hlink.
    rewrite (IH fuel (S page) (paDataSet p) (rows ++ paRows p)%list
               (mkSt (paWorld p)
                  (trace s ++ EvContinueQuery (Some ds) "next"
                     :: errorLog ("Continuation of " ++ what ++ " query (page "
                                    ++ pretty page
                                    ++ ") encountered errors. Returned data may not be complete!")
                          (paResponse p)))
               Hrest ltac:(cbn in Hfuel |- *; lia) Hq Hmain).
    cbn [world trace map concat pagesTrace length].
    repeat first [ rewrite <- app_assoc | progress cbn [app] ].
    by rewrite <- !plus_n_Sm.
Qed.

(** X2. The loop only appends, and a page without main data ends it with
    the rows fetched so far. Whatever the service answers, the rows the loop
    returns begin with the rows it was given. When the service serves pages
    that each carry a "next" link, and then answers without main data, the
    loop, given fuel for these calls, logs the nil main data and returns
    without an error: the rows it was given followed by the rows of the
    pages served, and the data set of the last of them. *)
Theorem continuePages_appends (what : string) (fuel page : nat) (rows : list EventsRow) :
  (forall data_set rows' data_set' s s',
      continuePages' what fuel page data_set rows s = (Ret (inr (rows', data_set')), s') ->
      exists more, rows' = (rows ++ more)%list)
  /\ (forall ds s pages resp w',
        servesLinked ContinueQuery sliceToMap (world s) ds pages ->
        (length pages < fuel)%nat ->
        let last_data_set := Some (snd (pagesEnd (world s) ds pages)) in
        ContinueQuery last_data_set "next" (fst (pagesEnd (world s) ds pages))
        = (inl resp, w') ->
        Main resp = None ->
        continuePages' what fuel page (Some ds) rows s
        = (Ret (inr ((rows ++ concat (map paRows pages))%list, last_data_set)),
           mkSt w'
             (trace s ++ pagesTrace what page ds pages
                ++ EvContinueQuery last_data_set "next"
                :: errorLog ("Continuation of " ++ what ++ " query (page "
                               ++ pretty (page + length pages)%nat
                               ++ ") encountered errors. Returned data may not be complete!")
                     resp
                ++ [EvLog LvlError
                      ("Continuation of " ++ what ++ " query (page "
                         ++ pretty (page + length pages)%nat
                         ++ ") has nil main data. Returned data may not be complete!")]))).
Proof.
  split.
  - intros data_set rows' data_set' s s'. apply continuePages_prefix.
  - intros ds s pages resp w' Hpages Hfuel.
    by apply continuePages_nil_main.
Qed.

(** What the loop adds to the trace: [ContinueQuery] on "next" and log
    lines. *)
Lemma emits_continuePages (P : event -> bool) (what : string) (fuel page : nat)
    (data_set : option DataSet) (rows : list EventsRow) :
  (forall e, nextOrLog e = true -> P e = true) ->
  emits P (continuePages' what fuel page data_set rows).
Proof.
  intros HP. revert page data_set rows.
  induction fuel as [|fuel IH]; intros page data_set rows.
  - apply emits_outOfFuel.
  - cbn [continuePages]. apply emits_bind.
    { intros s. unfold continueQuery.
      destruct (ContinueQuery data_set "next" (world s)) as [r w].
      exists [EvContinueQuery data_set "next"]. split; [done |].
      cbn [forallb]. by rewrite (HP (EvContinueQuery data_set "next") eq_refl). }
    assert (forall lvl msg, P (EvLog lvl msg) = true) as Hlog by (intros; by apply HP).
    intros [resp|e]; [| apply emits_ret].
    apply emits_bind; [by apply emits_logErrors |]. intros _.
    destruct (Main resp) as [mds|];
      [| apply emits_bind; [by apply emits_emit | intros; apply emits_ret]].
    destruct (Data mds) as [|[|[] ?] ?]; try apply emits_ret.
    apply emits_bind; [apply emits_lift |]. intros [newRows [err|]]; [apply emits_ret |].
    apply emits_bind; [apply emits_lift |]. intros [|]; [apply IH | apply emits_ret].
Qed.

(** X3. The loop talks to the service through [ContinueQuery] on "next"
    only and otherwise only logs: it executes no query of its own, prints
    nothing and never asks for another link. *)
Theorem continuePages_only_next (what : string) (fuel page : nat)
    (data_set : option DataSet) (rows : list EventsRow) :
  emits nextOrLog (continuePages' what fuel page data_set rows).
Proof. by apply emits_continuePages. Qed.

End PageLoopFacts.

(** ** The entity lookup *)

Section LookupFacts.

Context {W : Type}.
Variable ExecuteQuery : string -> W -> (Response + string) * W.
Variable ContinueQuery : option DataSet -> string -> W -> (Response + string) * W.
Variable Quote : string -> string.

Local Abbreviation optimizationPages' := (optimizationPages ContinueQuery).
Local Abbreviation listOptimizations'' := (listOptimizations ExecuteQuery ContinueQuery Quote).
Local Abbreviation filterClauses'' := (filterClauses ExecuteQuery ContinueQuery Quote).

Lemma optimizationIds_good (where_ : string) (index : nat) (rows : list (list any))
    (ids results : list string) :
  mapM idOfRow rows = Some ids ->
  optimizationIds where_ index rows results = ((results ++ ids)%list, None).
Proof.
  revert index ids results. induction rows as [|row rows IH]; intros index ids results.
  - intros [= <-]. cbn. by rewrite app_nil_r.
  - cbn [mapM]. destruct (idOfRow row) as [id|] eqn:Hrow; [| done]. cbn.
    destruct (mapM idOfRow rows) as [ids'|] eqn:Hrows; [| done]. cbn. intros [= <-].
    destruct row as [|[] ?]; try done. injection Hrow as ->.
    cbn [optimizationIds]. rewrite (IH _ ids') by done. by rewrite <- app_assoc.
Qed.

(** X4. The row loop of the lookup. Rows whose first cell is a string give
    their ids in row order, after the ids already gathered. At the first row
    that has no column, or whose first cell is not a string, the loop stops:
    it returns the ids of the rows before it and an error that names the
    index of that row; the rows after it are not looked at. *)
Theorem optimizationIds_first_bad_row (where_ : string) (index : nat)
    (good : list (list any)) (ids results : list string) :
  mapM idOfRow good = Some ids ->
  optimizationIds where_ index good results = ((results ++ ids)%list, None)
  /\ forall bad rest, idOfRow bad = None ->
       optimizationIds where_ index (good ++ bad :: rest) results
       = ((results ++ ids)%list,
          Some (optimizationRowError where_ (index + length good) bad)).
Proof.
  intros Hgood. split; [by apply optimizationIds_good |].
  intros bad rest Hbad. revert index ids results Hgood.
  induction good as [|row good IH]; intros index ids results.
  - intros [= <-]. rewrite app_nil_r, Nat.add_0_r. cbn [app optimizationIds].
    by destruct bad as [|[] ?].
  - cbn [mapM]. destruct (idOfRow row) as [id|] eqn:Hrow; [| done]. cbn.
    destruct (mapM idOfRow good) as [ids'|] eqn:Hrows; [| done]. cbn. intros [= <-].
    destruct row as [|[] ?]; try done. injection Hrow as ->.
    cbn [app optimizationIds length]. rewrite (IH (S index) ids') by done.
    rewrite <- app_assoc. cbn [app]. by rewrite Nat.add_succ_r.
Qed.

Lemma row_error_not_sanity (where_ rest : string) :
  where_ = "" \/ (exists x, where_ = "page " ++ x) ->
  Errorf (where_ ++ "optimization data row " ++ rest) <> sanityError.
Proof.
  unfold sanityError. intros [->|[x ->]] [= H]; cbv [append] in H; discriminate.
Qed.

Lemma optimizationIds_not_sanity (where_ : string) (index : nat) (rows : list (list any))
    (results results' : list string) (e : error) :
  where_ = "" \/ (exists x, where_ = "page " ++ x) ->
  optimizationIds where_ index rows results = (results', Some e) -> e <> sanityError.
Proof.
  intros Hw. revert index results. induction rows as [|row rows IH]; intros index results.
  - done.
  - cbn [optimizationIds]. destruct row as [|[] ?]; try (by intros [= _ <-]); try apply IH.
    intros [= _ <-]. by apply row_error_not_sanity.
Qed.

Lemma optimizationPages_not_sanity (fuel page : nat) (mainDataSet : DataSet)
    (results results' : list string) (e : error) (s s' : St W) :
  optimizationPages' fuel page mainDataSet results s = (Ret (results', Some e), s') ->
  e <> sanityError.
Proof.
  revert page mainDataSet results s.
  induction fuel as [|fuel IH]; intros page mainDataSet results s; [done |].
  cbn [optimizationPages]. unfold bind at 1, continueQuery.
  destruct (ContinueQuery (Some mainDataSet) "next" (world s)) as [[resp|err] w].
  - unfold bind at 1. rewrite logErrors_run.
    destruct (Main resp) as [mds|]; [| by unfold bind, emit, ret].
    destruct (optimizationIds _ 0 (Data mds) results) as [results1 [e1|]] eqn:Hids.
    + unfold ret. intros [= _ <- _].
      apply (optimizationIds_not_sanity _ _ _ _ _ _ ltac:(right; by eexists) Hids).
    + destruct (hasLink mds "next"); [apply IH | by unfold ret].
  - unfold ret. by intros [= _ <- _].
Qed.

(** X5. The sanity check of the lookup and the commands. Without a
    namespace and without a workload name the lookup fails at once, also
    when a cluster id is given, and calls nothing. The commands never see
    that error: whenever the filter step of a command returns an error, it
    is an error of the lookup other than the sanity check. *)
Theorem sanity_check_never_surfaces (fuel : nat) (f : eventsFlags) (s : St W) :
  (namespace f = "" -> workloadName f = "" ->
   listOptimizations'' fuel f s = (Ret ([], Some sanityError), s))
  /\ forall e s', filterClauses'' fuel f s = (Ret (inl (Some e)), s') ->
       exists cause, e = Wrap "listOptimizations" cause /\ cause <> sanityError.
Proof.
  split.
  - intros Hn Hw. unfold listOptimizations. rewrite Hn, Hw.
    by destruct (decide ("" <> "")).
  - intros e s'. unfold filterClauses.
    destruct (decide (optimizerId f <> "")); [done |].
    destruct (decide (namespace f <> "" \/ workloadName f <> "")) as [Hl|]; [| done].
    unfold bind at 1.
    destruct (listOptimizations'' fuel f s) as [[[ids [err|]]| |] s1] eqn:Hlookup; try done.
    + unfold ret. intros [= <- <-]. exists err. split; [done |].
      revert Hlookup. unfold listOptimizations.
      assert ((length (if decide (workloadName f <> "")
                       then Append (if decide (namespace f <> "")
                                    then Append [] ("attributes(" ++ dq ++ "k8s.namespace.name"
                                                      ++ dq ++ ") = " ++ Quote (namespace f))
                                    else [])
                              ("attributes(" ++ dq ++ "k8s.workload.name" ++ dq ++ ") = "
                                 ++ Quote (workloadName f))
                       else if decide (namespace f <> "")
                            then Append [] ("attributes(" ++ dq ++ "k8s.namespace.name"
                                              ++ dq ++ ") = " ++ Quote (namespace f))
                            else []) <? 1)%nat = false) as ->.
      { destruct (decide (workloadName f <> "")), (decide (namespace f <> ""));
          try done. by destruct Hl. }
      unfold bind at 1, executeQuery.
      destruct (ExecuteQuery _ (world s)) as [[resp|err0] w]; [| by intros [= _ <- _]].
      unfold bind at 1. rewrite logErrors_run.
      destruct (Main resp) as [mds|]; [| done].
      destruct (optimizationIds "" 0 (Data mds) []) as [results1 [e1|]] eqn:Hids.
      * unfold ret. intros [= _ <- _].
        apply (optimizationIds_not_sanity _ _ _ _ _ _ ltac:(by left) Hids).
      * destruct (hasLink mds "next"); [apply optimizationPages_not_sanity | done].
    + destruct ids; [by unfold bind, emit, ret | done].
Qed.

Lemma optimizationPages_turn (fuel page : nat) (mainDataSet : DataSet)
    (results : list string) (s : St W) (p : idPage) :
  servesNextIds ContinueQuery (world s) mainDataSet p ->
  optimizationPages' (S fuel) page mainDataSet results s
  = let s1 := mkSt (ipWorld p)
                (trace s ++ EvContinueQuery (Some mainDataSet) "next"
                   :: errorLog ("Continuation of optimization query (page " ++ pretty page
                                  ++ ") encountered errors. Returned data may not be complete!")
                        (ipResponse p)) in
    if hasLink (ipDataSet p) "next"
    then optimizationPages' fuel (S page) (ipDataSet p) (results ++ ipIds p) s1
    else (Ret ((results ++ ipIds p)%list, None), s1).
Proof.
  intros (Hq & Hmain & Hids).
  cbn [optimizationPages]. unfold bind at 1, continueQuery. rewrite Hq.
  unfold bind at 1. rewrite logErrors_run. cbn [world trace]. rewrite Hmain.
  rewrite (optimizationIds_good _ _ _ _ _ Hids). rewrite <- app_assoc. cbn [app].
  by destruct (hasLink (ipDataSet p) "next").
Qed.

(** X6. The lookup across its pages. When the "next" link of the main data
    set in hand leads to a page of rows with string ids, and so on to a page
    without the link, the loop, given fuel for that many pages, returns the
    ids it was given followed by the ids of every page in page order, and no
    error, and leaves the service in the state after the last page. *)
Theorem optimizationPages_chain (fuel page : nat) (mainDataSet : DataSet)
    (results : list string) (s : St W) (pages : list idPage) :
  servesIdPages ContinueQuery (world s) mainDataSet pages -> (length pages <= fuel)%nat ->
  exists p s',
    last pages = Some p
    /\ optimizationPages' fuel page mainDataSet results s
       = (Ret ((results ++ concat (map ipIds pages))%list, None), s')
    /\ world s' = ipWorld p
    /\ length (List.filter isContinue (trace s'))
       = (length (List.filter isContinue (trace s)) + length pages)%nat.
Proof.
  revert fuel page mainDataSet results s.
  induction pages as [|p pages IH]; intros fuel page mainDataSet results s Hpages Hfuel;
    [done |].
  destruct fuel as [|fuel]; [cbn in Hfuel; lia |].
  destruct pages as [|q pages].
  - destruct Hpages as [Hserve Hlink]. exists p. eexists. split; [done |].
    rewrite (optimizationPages_turn fuel page mainDataSet results s p Hserve). cbn zeta.
    rewrite Hlink. cbn [map concat]. rewrite !app_nil_r. split; [done |].
    cbn [world trace]. split; [done |].
    rewrite List.filter_app. cbn [List.filter isContinue].
    rewrite errorLog_no_continue, length_app. done.
  - destruct Hpages as (Hserve & Hlink & Hrest).
    rewrite (optimizationPages_turn fuel page mainDataSet results s p Hserve). cbn zeta.
    rewrite Hlink.
    destruct (IH fuel (S page) (ipDataSet p) (results ++ ipIds p)%list
                (mkSt (ipWorld p)
                   (trace s ++ EvContinueQuery (Some mainDataSet) "next"
                      :: errorLog ("Continuation of optimization query (page "
                                     ++ pretty page
                                     ++ ") encountered errors. Returned data may not be complete!")
                           (ipResponse p)))
                Hrest ltac:(cbn in Hfuel |- *; lia)) as (r & s' & Hlast & Hrun & Hw & Hn).
    exists r, s'. split; [done |]. rewrite Hrun. cbn [map concat].
    rewrite <- app_assoc. split; [done |]. split; [done |].
    rewrite Hn. cbn [trace]. rewrite List.filter_app. cbn [List.filter isContinue].
    rewrite errorLog_no_continue, length_app. cbn [length]. lia.
Qed.

End LookupFacts.

(** ** The blocker data *)

Lemma mapM_cons_match {A B} (f : A -> option B) (x : A) (l : list A) :
  mapM f (x :: l)
  = match f x with
    | Some y => match mapM f l with Some k => Some (y :: k) | None => None end
    | None => None
    end.
Proof. cbn [mapM]. destruct (f x); [| done]. cbn. by destruct (mapM f l). Qed.

Section StartedBlockersFacts.

Variable sliceToMap : list (list any) -> gmap string any.

Local Abbreviation rowsOf := (extractStartedBlockersRows sliceToMap).
Local Abbreviation entryOf := (startedEntry sliceToMap).

Lemma extractStartedBlockersRows_step (row : list any) (rows : list (list any))
    (results : gmap string (gmap string any)) :
  rowsOf (row :: rows) results
  = match entryOf row with
    | Some entry => rowsOf rows (storeEntry results entry)
    | None =>
        match rowsOf [row] results with
        | Ret _ => Panicked PanicNilDereference
        | other => other
        end
    end.
Proof.
  cbn [extractStartedBlockersRows]. unfold startedEntry, storeEntry.
  destruct row as [|[] ?]; cbn; try done.
  destruct (mapIndex _ "optimize.optimization.optimizer_id"); cbn; try done.
  destruct (mapIndex _ "optimize.optimization.num"); cbn; done.
Qed.

Lemma extractStartedBlockersRows_bad (row : list any)
    (results : gmap string (gmap string any)) :
  entryOf row = None -> exists p, rowsOf [row] results = Panicked p.
Proof.
  unfold startedEntry. cbn [extractStartedBlockersRows].
  destruct row as [|[] ?]; cbn; try (intros _; by eexists).
  destruct (mapIndex _ "optimize.optimization.optimizer_id"); cbn; try (intros _; by eexists).
  destruct (mapIndex _ "optimize.optimization.num"); cbn; try (intros _; by eexists).
  done.
Qed.

(** X7. The blocker extraction, row by row. When every row is an attribute
    bag with a string optimizer id and a string optimization number, the
    extraction stores the entry of each row under its key, in row order,
    and returns no error. When some row is not, it panics: it has no error
    to return. *)
Theorem extractStartedBlockersRows_entries (rows : list (list any))
    (results : gmap string (gmap string any)) :
  match mapM entryOf rows with
  | Some entries => rowsOf rows results = Ret (fold_left storeEntry entries results, None)
  | None => exists p, rowsOf rows results = Panicked p
  end.
Proof.
  revert results. induction rows as [|row rows IH]; intros results; [done |].
  rewrite extractStartedBlockersRows_step, mapM_cons_match.
  destruct (entryOf row) as [entry|] eqn:Hrow.
  - specialize (IH (storeEntry results entry)).
    destruct (mapM entryOf rows) as [entries|]; exact IH.
  - destruct (extractStartedBlockersRows_bad row results Hrow) as [p ->]. by exists p.
Qed.

Lemma storeEntry_onlyIgnoredBlockers (results : gmap string (gmap string any))
    (row : list any) (entry : string * gmap string any) :
  onlyIgnoredBlockers results -> entryOf row = Some entry ->
  onlyIgnoredBlockers (storeEntry results entry).
Proof.
  intros Hres Hrow key attributes attr val. unfold storeEntry.
  destruct (decide (fst entry = key)) as [<-|Hne].
  - rewrite lookup_insert_eq. intros [= <-].
    unfold startedEntry in Hrow. destruct row as [|[] ?]; try done.
    destruct (mapIndex _ "optimize.optimization.optimizer_id"); try done.
    destruct (mapIndex _ "optimize.optimization.num"); try done.
    injection Hrow as <-. cbn [snd].
    intros [_ H]%map_lookup_filter_Some. exact H.
  - rewrite lookup_insert_ne by done. apply Hres.
Qed.

(** X8. What the blocker lookup holds. Whatever the started events carry,
    every attribute kept in the lookup has a name that begins with
    "optimize.ignored_blockers": the key attributes and all others are
    dropped. *)
Theorem extractStartedBlockersData_only_ignored_blockers (dataset : option DataSet)
    (results : gmap string (gmap string any)) (err : option error) :
  extractStartedBlockersData sliceToMap dataset = Ret (results, err) ->
  err = None /\ onlyIgnoredBlockers results.
Proof.
  destruct dataset as [d|]; cbn [extractStartedBlockersData].
  - assert (forall rows acc results' err',
               onlyIgnoredBlockers acc -> rowsOf rows acc = Ret (results', err') ->
               err' = None /\ onlyIgnoredBlockers results') as Hgen.
    { induction rows as [|row rows IH]; intros acc results' err' Hacc.
      - by intros [= <- <-].
      - rewrite extractStartedBlockersRows_step.
        destruct (entryOf row) as [entry|] eqn:Hrow.
        + apply IH. by apply (storeEntry_onlyIgnoredBlockers acc row).
        + destruct (extractStartedBlockersRows_bad row acc Hrow) as [p ->]. done. }
    apply Hgen. intros key attributes attr val. by rewrite lookup_empty.
  - intros [= <- <-]. split; [done |].
    intros key attributes attr val. by rewrite lookup_empty.
Qed.

Lemma extractStartedBlockersRows_app (rows1 rows2 : list (list any))
    (results results1 : gmap string (gmap string any)) :
  rowsOf rows1 results = Ret (results1, None) ->
  rowsOf (rows1 ++ rows2) results = rowsOf rows2 results1.
Proof.
  revert results. induction rows1 as [|row rows1 IH]; intros results.
  - by intros [= <-].
  - cbn [app]. rewrite (extractStartedBlockersRows_step row (rows1 ++ rows2)),
      (extractStartedBlockersRows_step row rows1).
    destruct (entryOf row) as [entry|] eqn:Hrow; [apply IH |].
    destruct (extractStartedBlockersRows_bad row results Hrow) as [p ->]. done.
Qed.

(** X9. Two started events of one optimization. The entry of a later row
    replaces the entry an earlier row stored under the same key; the entries
    under other keys stay. *)
Theorem extractStartedBlockersRows_last_wins (rows : list (list any)) (row : list any)
    (results before : gmap string (gmap string any)) (key : string)
    (attributes : gmap string any) :
  rowsOf rows results = Ret (before, None) ->
  entryOf row = Some (key, attributes) ->
  exists after,
    rowsOf (rows ++ [row]) results = Ret (after, None)
    /\ after !! key = Some attributes
    /\ forall other, other <> key -> after !! other = before !! other.
Proof.
  intros Hrows Hrow. rewrite (extractStartedBlockersRows_app _ _ _ _ Hrows).
  rewrite extractStartedBlockersRows_step, Hrow. cbn [extractStartedBlockersRows].
  eexists. split; [done |]. unfold storeEntry. cbn [fst snd].
  split; [by rewrite lookup_insert_eq |].
  intros other Hne. by rewrite lookup_insert_ne.
Qed.

End StartedBlockersFacts.

(** ** The blocker ids, whatever the ids are *)

Section BlockerIdFacts.

Lemma append_assoc (x y z : string) : (x ++ y) ++ z = x ++ (y ++ z).
Proof.
  induction x as [|c x IH]; [done |].
  change (String c ((x ++ y) ++ z) = String c (x ++ (y ++ z))). by rewrite IH.
Qed.

Lemma Join_snoc (bs : list string) (x sep : string) :
  Strings.Join (bs ++ [x]) sep
  = match bs with [] => x | _ :: _ => Strings.Join bs sep ++ sep ++ x end.
Proof.
  induction bs as [|b bs IH]; [done |].
  destruct bs as [|b' bs]; [done |].
  cbn [app] in IH |- *. rewrite (Join_cons b (b' :: bs ++ [x])), IH.
  rewrite (Join_cons b (b' :: bs)). by rewrite !append_assoc.
Qed.

Lemma Contains_Join_snoc (bs : list string) (x t : string) :
  Strings.Contains (Strings.Join bs ",") t = true ->
  Strings.Contains (Strings.Join (bs ++ [x]) ",") t = true.
Proof.
  intros H. rewrite Join_snoc. destruct bs as [|b bs]; [| by apply Contains_app_l].
  cbn in H. rewrite orb_false_r in H. destruct t; [apply Contains_empty | done].
Qed.

Lemma mergeBlocker_ids (acc : gmap string any * list string) (kv : string * any) :
  snd (mergeBlocker acc kv) = snd acc
  \/ exists x, blockerIdOf (fst kv) = Some x
              /\ Strings.Contains (Strings.Join (snd acc) ",") x = false
              /\ snd (mergeBlocker acc kv) = (snd acc ++ [x])%list.
Proof.
  rewrite mergeBlocker_snd. destruct (blockerIdOf (fst kv)) as [x|]; [| by left].
  destruct (Strings.Contains _ x) eqn:Hc; [by left |]. right. by exists x.
Qed.

Lemma fold_mergeBlocker_ids (visited : list (string * any))
    (acc : gmap string any * list string) :
  exists more,
    snd (fold_left mergeBlocker visited acc) = (snd acc ++ more)%list
    /\ more `sublist_of` candidates visited
    /\ (NoDup (snd acc) -> NoDup (snd acc ++ more))
    /\ (EmptyString ∉ snd acc -> EmptyString ∉ (snd acc ++ more)%list).
Proof.
  revert acc. induction visited as [|kv visited IH]; intros acc.
  - exists []. rewrite app_nil_r. repeat split; try done.
  - cbn [fold_left]. rewrite candidates_cons.
    destruct (IH (mergeBlocker acc kv)) as (more & Hmore & Hsub & Hnd & Hne).
    destruct (mergeBlocker_ids acc kv) as [Hsame|(x & Hx & Hc & Hadd)].
    + rewrite Hsame in *. exists more. split; [done |]. split; [| done].
      destruct (blockerIdOf (fst kv)); [by apply sublist_cons | done].
    + rewrite Hadd in *. rewrite Hx. exists (x :: more).
      rewrite <- app_assoc in Hmore, Hnd, Hne. cbn [app] in Hmore, Hnd, Hne.
      split; [done |]. split; [by apply sublist_skip |]. split.
      * intros Hacc. apply Hnd. apply NoDup_app. split; [done |]. split.
        -- intros y Hy ->%list_elem_of_singleton.
           by rewrite (Contains_Join_elem _ _ Hy) in Hc.
        -- apply NoDup_singleton.
      * intros Hacc. apply Hne. intros [H|H%list_elem_of_singleton]%elem_of_app; [done |].
        subst x. by rewrite Contains_empty in Hc.
Qed.

(** X10. The blocker ids of a row, for any attribute names and any order of
    the visit. The ids are among the ids the attribute names propose, in the
    order of the visit; no id occurs twice; the empty id, which a name such
    as "optimize.ignored_blockers..reason" proposes, is never among them. *)
Theorem mergeBlockers_ids (visited : list (string * any)) :
  snd (mergeBlockers visited) `sublist_of` candidates visited
  /\ NoDup (snd (mergeBlockers visited))
  /\ EmptyString ∉ snd (mergeBlockers visited).
Proof.
  unfold mergeBlockers.
  destruct (fold_mergeBlocker_ids visited (∅, [])) as (more & -> & Hsub & Hnd & Hne).
  cbn [snd app] in *. split; [done |]. split; [apply Hnd; constructor |].
  apply Hne. by intros ?%elem_of_nil.
Qed.

Lemma fold_mergeBlocker_covers (visited : list (string * any))
    (acc : gmap string any * list string) (id : string) :
  Strings.Contains (Strings.Join (snd acc) ",") id = true \/ id ∈ candidates visited ->
  Strings.Contains (Strings.Join (snd (fold_left mergeBlocker visited acc)) ",") id = true.
Proof.
  revert acc. induction visited as [|kv visited IH]; intros acc.
  - intros [H|H%elem_of_nil]; done.
  - cbn [fold_left]. rewrite candidates_cons. intros H. apply IH.
    destruct (mergeBlocker_ids acc kv) as [Hsame|(x & Hx & Hc & Hadd)].
    + rewrite Hsame. destruct H as [H|H]; [by left |].
      rewrite mergeBlocker_snd in Hsame.
      destruct (blockerIdOf (fst kv)) as [x|]; [| by right].
      apply elem_of_cons in H as [->|H]; [| by right]. left.
      destruct (Strings.Contains _ x) eqn:Hc; [done |].
      exfalso. unfold Append in Hsame.
      apply (f_equal length) in Hsame. rewrite length_app in Hsame. cbn in Hsame. lia.
    + rewrite Hadd, Hx in *. destruct H as [H|H].
      * left. by apply Contains_Join_snoc.
      * apply elem_of_cons in H as [->|H]; [| by right]. left.
        apply Contains_Join_elem, elem_of_app. right. by apply list_elem_of_singleton.
Qed.

(** X11. No proposed id is lost without a trace: every id an attribute name
    proposes occurs in the comma-joined blocker ids of the row, as an id or
    inside one. So a row with a proposed id that is not empty has blockers. *)
Theorem mergeBlockers_covers (visited : list (string * any)) (id : string) :
  id ∈ candidates visited ->
  Strings.Contains (Strings.Join (snd (mergeBlockers visited)) ",") id = true
  /\ (id <> "" -> snd (mergeBlockers visited) <> []).
Proof.
  intros Hid.
  assert (Strings.Contains (Strings.Join (snd (mergeBlockers visited)) ",") id = true) as Hc
    by (apply fold_mergeBlocker_covers; by right).
  split; [done |]. intros Hne Hnil. rewrite Hnil in Hc. cbn in Hc.
  rewrite orb_false_r in Hc. by destruct id.
Qed.

End BlockerIdFacts.

(** ** The join of all rows *)

Section JoinRowsFacts.

Context {W : Type}.
Variable mapRange : nat -> gmap string any -> list (string * any).

Lemma joinRow_keyed (blockerRows : gmap string (gmap string any)) (i : nat)
    (row : EventsRow) (key : string) (s : St W) :
  rowKey row = Some key ->
  exists r t,
    joinRow mapRange blockerRows i row s = (Ret r, mkSt (world s) (trace s ++ t))
    /\ recEventsRow r = row
    /\ forallb isWarning t = true
    /\ length t = match blockerRows !! key with Some _ => 0%nat | None => 1%nat end
    /\ (blockerRows !! key = None ->
        BlockersAttributes r = ∅ /\ Blockers r = [] /\ BlockersPresent r = "false").
Proof.
  unfold rowKey, joinRow. intros Hkey.
  destruct (mapIndex _ "optimize.optimization.optimizer_id") as [|id| | | | |]; try done.
  destruct (mapIndex _ "optimize.optimization.num") as [|num| | | | |]; try done.
  injection Hkey as <-. unfold bind, lift. cbn [assertString].
  destruct (blockerRows !! (id ++ "-" ++ num)) as [startedRow|].
  - destruct (mergeBlockers _) as [attrs bs]. unfold ret.
    eexists _, []. rewrite app_nil_r. destruct s. by repeat split.
  - unfold emit, ret. cbn [world trace]. eexists _, [_]. by repeat split.
Qed.

(** X12. The join on rows with their key attributes. When every
    recommendation row has a string optimizer id and a string optimization
    number, the join does not panic and calls nothing: it returns one joined
    row per recommendation row, in order, and logs one warning for every row
    whose key has no entry in the lookup, and nothing else. *)
Theorem joinRows_keyed (blockerRows : gmap string (gmap string any)) (i : nat)
    (rows : list EventsRow) (keys : list string) (acc : list recommendationRow)
    (s : St W) :
  mapM rowKey rows = Some keys ->
  exists items t,
    joinRows mapRange blockerRows i rows acc s = (Ret items, mkSt (world s) (trace s ++ t))
    /\ map recEventsRow items = (map recEventsRow acc ++ rows)%list
    /\ forallb isWarning t = true
    /\ length t = length (List.filter (fun key => bool_decide (blockerRows !! key = None)) keys).
Proof.
  revert i keys acc s. induction rows as [|row rows IH]; intros i keys acc s.
  - intros [= <-]. exists acc, []. cbn. rewrite !app_nil_r. by destruct s.
  - rewrite mapM_cons_match. destruct (rowKey row) as [key|] eqn:Hkey; [| done].
    destruct (mapM rowKey rows) as [keys'|] eqn:Hkeys; [| done]. intros [= <-].
    destruct (joinRow_keyed blockerRows i row key s Hkey)
      as (r & t1 & Hrow & Hr & Hw1 & Hlen1 & _).
    cbn [joinRows]. unfold bind at 1. rewrite Hrow.
    destruct (IH (S i) keys' (Append acc r) (mkSt (world s) (trace s ++ t1)) eq_refl)
      as (items & t2 & Hrun & Hitems & Hw2 & Hlen2).
    exists items, (t1 ++ t2)%list. rewrite Hrun. cbn [world trace].
    rewrite <- app_assoc. split; [done |]. split.
    { rewrite Hitems. unfold Append. rewrite map_app. cbn [map].
      rewrite Hr, <- app_assoc. done. }
    split; [by rewrite forallb_app, Hw1, Hw2 |].
    rewrite length_app, Hlen1, Hlen2. cbn [List.filter].
    destruct (blockerRows !! key); [by rewrite bool_decide_false | by rewrite bool_decide_true].
Qed.

End JoinRowsFacts.

(** ** Runs of the follow loop from its start *)

Section FollowRunFacts.

Context {W : Type}.
Variable ContinueQuery : option DataSet -> string -> W -> (Response + string) * W.
Variable sliceToMap : list (list any) -> gmap string any.
Variable interval : Z.

Local Abbreviation step' := (followStep ContinueQuery sliceToMap interval).
Local Abbreviation run' := (followRun ContinueQuery sliceToMap interval).
Local Abbreviation poll' := (followDatasetAndPrint ContinueQuery sliceToMap).

(** What follows the [ContinueQuery] of a poll, for any property of events
    that holds of the log and of the output of a batch. *)
Ltac poll_events :=
  intros [resp|e]; [| apply emits_ret];
  apply emits_bind; [by apply emits_logErrors |]; intros _;
  destruct (Main resp) as [mds|];
    [| apply emits_bind; [by apply emits_emit | intros; apply emits_ret]];
  destruct (Data mds) as [|[|[] ?] ?]; try apply emits_ret;
  apply emits_bind; [apply emits_lift |]; intros [rows [err|]]; [apply emits_ret |];
  destruct (0 <? length rows)%nat; [| apply emits_ret];
  apply emits_bind; [by apply emits_emit | intros; apply emits_ret].

Lemma emits_poll_followEvent (ds : option DataSet) : emits (followEvent interval) (poll' ds).
Proof.
  unfold followDatasetAndPrint. apply emits_bind.
  { intros s. unfold continueQuery.
    destruct (ContinueQuery ds "follow" (world s)) as [r w].
    by exists [EvContinueQuery ds "follow"]. }
  poll_events.
Qed.

(** A poll runs out of no fuel: it returns or it panics. *)
Lemma poll_outcome (ds : option DataSet) (s : St W) : fst (poll' ds s) <> OutOfFuel.
Proof.
  unfold followDatasetAndPrint, bind at 1, continueQuery.
  destruct (ContinueQuery ds "follow" (world s)) as [[resp|e] w]; [| done].
  unfold bind at 1. rewrite logErrors_run.
  destruct (Main resp) as [mds|]; [| done].
  destruct (Data mds) as [|[|[] ?] ?]; try done.
  unfold bind at 1, lift at 1, extractEventsData.
  destruct p as [d|].
  - destruct (extractEventsRows_outcomes sliceToMap (Data d) []) as [[records ->]|[q ->]];
      [| done].
    by destruct (0 <? length records)%nat.
  - done.
Qed.

Lemma oneActivity_step (a : action) (s s' : followState) :
  oneActivity s -> step' a s = Some s' -> oneActivity s'.
Proof.
  destruct s as [fg0 int0 chan0 bg0 st0]. unfold oneActivity, followStep.
  cbn [fg interrupt followChan bg st]. intros H.
  destruct (crashed _); [done |].
  destruct a; cbn [fg interrupt followChan bg st].
  - by intros [= <-].
  - destruct fg0, int0; try done. intros [= <-]. cbn. by destruct chan0, bg0.
  - destruct fg0, chan0 as [fr|]; try done. destruct (fr_err fr); [| done].
    intros [= <-]. cbn. by destruct bg0.
  - destruct fg0, chan0 as [fr|]; try done. destruct (fr_err fr); [done |].
    by intros [= <-].
  - destruct bg0; try done. intros [= <-]. cbn. by destruct chan0.
  - destruct bg0 as [| |fr| |]; try done. destruct chan0; [done |].
    destruct (poll' _ _) as [[?|?|] ?]; try done; by intros [= <-].
  - destruct bg0, chan0; try done. by intros [= <-].
Qed.

Lemma oneActivity_run (acts : list action) (s s' : followState) :
  oneActivity s -> run' acts s = Some s' -> oneActivity s'.
Proof.
  revert s. induction acts as [|a acts IH]; intros s Hs; cbn [followRun].
  - by intros [= <-].
  - destruct (step' a s) as [s1|] eqn:Hstep; [| done].
    apply IH. by apply (oneActivity_step a s).
Qed.

(** X13. The single-slot handoff. In every state the loop reaches from its
    start, either a result waits in [followChan] and no goroutine is in
    flight, or [followChan] is empty and a goroutine is in flight: the
    foreground never starts a goroutine beside another, and a send never
    finds the channel full. *)
Theorem follow_one_activity (acts : list action) (data_set : DataSet) (s : St W)
    (s' : followState) :
  run' acts (followInit data_set s) = Some s' ->
  oneActivity s'
  /\ (forall result, bg s' = Sending result -> followChan s' = None)
  /\ (forall result, followChan s' = Some result -> bg s' = Idle).
Proof.
  intros Hrun.
  assert (oneActivity s') as Hone by (by apply (oneActivity_run acts (followInit data_set s))).
  split; [done |]. unfold oneActivity in Hone.
  split; intros result Hr; rewrite Hr in Hone.
  - by destruct (followChan s').
  - by destruct (bg s').
Qed.

(** X14. The loop does not stop by itself. In every state reached from the
    start in which the foreground still waits and the program is alive, a
    step other than the arrival of a signal is possible, and while no signal
    is pending it is the only one. *)
Theorem follow_no_deadlock (acts : list action) (data_set : DataSet) (s : St W)
    (s' : followState) :
  run' acts (followInit data_set s) = Some s' ->
  fg s' = Selecting -> crashed s' = false ->
  exists a,
    a <> ASignal /\ is_Some (step' a s')
    /\ (interrupt s' = false ->
        forall b, b <> ASignal -> is_Some (step' b s') -> b = a).
Proof.
  intros Hrun Hfg Halive.
  assert (oneActivity s') as Hone by (by apply (oneActivity_run acts (followInit data_set s))).
  clear Hrun. destruct s' as [fg0 int0 chan0 bg0 st0].
  unfold oneActivity in Hone. cbn [fg interrupt followChan bg st] in *. subst fg0.
  unfold followStep. rewrite Halive. cbn [fg interrupt followChan bg st].
  destruct chan0 as [fr|], bg0 as [|fr0|fr0|r0|p0]; try done.
  - destruct (fr_err fr) as [e|] eqn:He.
    + exists AReturnErr. split; [done |]. split; [done |].
      intros -> b Hb. destruct b; try done; by intros [? [=]].
    + exists ADispatch. split; [done |]. split; [done |].
      intros -> b Hb. destruct b; try done; by intros [? [=]].
  - exists ASleep. split; [done |]. split; [done |].
    intros -> b Hb. destruct b; try done; by intros [? [=]].
  - exists APoll. split; [done |]. pose proof (poll_outcome (fr_data_set fr0) st0) as Hp.
    split.
    + destruct (poll' (fr_data_set fr0) st0) as [[?|?|] ?]; done.
    + intros -> b Hb. destruct b; try done; by intros [? [=]].
  - exists ASend. split; [done |]. split; [done |].
    intros -> b Hb. destruct b; try done; by intros [? [=]].
Qed.

Lemma followStep_trace (a : action) (s s' : followState) :
  step' a s = Some s' ->
  exists t, trace (st s') = (trace (st s) ++ t)%list
            /\ forallb (followEvent interval) t = true.
Proof.
  destruct s as [fg0 int0 chan0 bg0 st0]. unfold followStep.
  destruct (crashed _); [done |]. cbn [fg interrupt followChan bg st].
  destruct a.
  - intros [= <-]. exists []. by rewrite app_nil_r.
  - destruct fg0, int0; try done. intros [= <-]. exists []. by rewrite app_nil_r.
  - destruct fg0, chan0 as [fr|]; try done. destruct (fr_err fr); [| done].
    intros [= <-]. exists []. by rewrite app_nil_r.
  - destruct fg0, chan0 as [fr|]; try done. destruct (fr_err fr); [done |].
    intros [= <-]. by eexists [_].
  - destruct bg0 as [|fr| | |]; try done. intros [= <-]. cbn [st trace].
    destruct (cursorExhausted fr); eexists; (split; [done |]); cbn; by rewrite ?Z.eqb_refl.
  - destruct bg0 as [| |fr| |]; try done.
    destruct (emits_poll_followEvent (fr_data_set fr) st0) as (t & Ht & HP).
    destruct (poll' (fr_data_set fr) st0) as [[?|?|] ?]; try done;
      intros [= <-]; by exists t.
  - destruct bg0, chan0; try done. intros [= <-]. exists []. by rewrite app_nil_r.
Qed.

(** X15. What the loop does to the outside. Along any steps of the loop,
    from any state, the trace only grows, and by these events only:
    goroutine starts, sleeps of exactly the follow interval, [ContinueQuery]
    calls on "follow", log lines and batches printed without headers. The
    loop executes no query, follows no "next" link and prints no full
    listing. *)
Theorem follow_run_events (acts : list action) (s s' : followState) :
  run' acts s = Some s' ->
  exists t, trace (st s') = (trace (st s) ++ t)%list
            /\ forallb (followEvent interval) t = true.
Proof.
  revert s. induction acts as [|a acts IH]; intros s; cbn [followRun].
  - intros [= <-]. exists []. by rewrite app_nil_r.
  - destruct (step' a s) as [s1|] eqn:Hstep; [| done].
    destruct (followStep_trace a s s1 Hstep) as (t1 & Ht1 & HP1).
    intros Hrun. destruct (IH s1 Hrun) as (t2 & Ht2 & HP2).
    exists (t1 ++ t2)%list. by rewrite Ht2, Ht1, app_assoc, forallb_app, HP1, HP2.
Qed.

Lemma existsb_app_l (P : event -> bool) (t1 t2 : list event) :
  existsb P t1 = true -> existsb P (t1 ++ t2) = true.
Proof. intros H. by rewrite existsb_app, H. Qed.

Lemma quietRun_step (base : list event) (a : action) (s s' : followState) :
  a <> ASignal -> quietRun base s -> step' a s = Some s' -> quietRun base s'.
Proof.
  intros Ha (t & Ht & Hint & Hfg & Hchan & Hbg & Hex) Hstep.
  destruct (followStep_trace a s s' Hstep) as (t1 & Ht1 & _).
  exists (t ++ t1)%list. rewrite Ht1, Ht, <- app_assoc. split; [done |].
  destruct s as [fg0 int0 chan0 bg0 st0]. unfold followStep in Hstep.
  destruct (crashed _); [done |]. cbn [fg interrupt followChan bg st] in *. subst int0.
  destruct a; try done.
  - by destruct fg0.
  - destruct fg0, chan0 as [fr|]; try done. destruct (fr_err fr) as [e|] eqn:He; [| done].
    injection Hstep as <-. cbn [fg interrupt followChan bg st].
    split; [done |]. split; [done |]. split; [done |].
    split; [intros r e' Hr He'; apply existsb_app_l; by eapply Hbg |].
    intros e' _. apply existsb_app_l. by eapply Hchan.
  - destruct fg0, chan0 as [fr|]; try done. destruct (fr_err fr) as [e|] eqn:He; [done |].
    injection Hstep as <-. cbn [fg interrupt followChan bg st]. by repeat split.
  - destruct bg0 as [|fr| | |]; try done. injection Hstep as <-.
    cbn [fg interrupt followChan bg st].
    split; [done |]. split; [done |].
    split; [intros r e Hr He; apply existsb_app_l; by eapply Hchan |].
    split; [done |]. intros e He. apply existsb_app_l. by eapply Hex.
  - destruct bg0 as [| |fr| |]; try done.
    destruct (poll_first_event ContinueQuery sliceToMap (fr_data_set fr) st0) as [t2 Ht2].
    assert (existsb isFollowPoll t1 = true) as Hpolled.
    { destruct (poll' (fr_data_set fr) st0) as [[?|?|] ?]; try done;
        injection Hstep as <-; cbn [st snd] in *; rewrite Ht2 in Ht1;
        apply app_inv_head in Ht1; by subst t1. }
    assert (existsb isFollowPoll (t ++ t1) = true) as Hall
      by (by rewrite existsb_app, Hpolled, orb_true_r).
    destruct (poll' (fr_data_set fr) st0) as [[?|?|] ?]; try done;
      injection Hstep as <-; cbn [fg interrupt followChan bg st];
      (split; [done |]); (split; [done |]);
      (split; [intros r e Hr He; apply existsb_app_l; by eapply Hchan |]);
      (split; [intros; exact Hall |]);
      intros e He; apply existsb_app_l; by eapply Hex.
  - destruct bg0 as [| | |r0|], chan0; try done. injection Hstep as <-.
    cbn [fg interrupt followChan bg st].
    split; [done |]. split; [done |].
    split; [intros r e [= <-] He; apply existsb_app_l; by eapply Hbg |].
    split; [done |]. intros e He. apply existsb_app_l. by eapply Hex.
Qed.

(** X16. Without a signal the loop ends in one way only. Along steps from
    the start among which no signal arrives, the foreground never returns
    nil; and when it has returned an error, a poll on "follow" was issued
    before: the loop ends by itself only through the error of a poll. *)
Theorem follow_ends_by_poll_error_only (acts : list action) (data_set : DataSet)
    (s : St W) (s' : followState) :
  ASignal ∉ acts -> run' acts (followInit data_set s) = Some s' ->
  fg s' <> Exited None
  /\ forall e, fg s' = Exited (Some e) ->
       exists t, trace (st s') = (trace s ++ t)%list /\ existsb isFollowPoll t = true.
Proof.
  intros Hsig Hrun.
  assert (quietRun (trace s) s') as (t & Ht & _ & Hfg & _ & _ & Hex).
  { assert (quietRun (trace s) (followInit data_set s)) as Hinit.
    { exists []. cbn [followInit st fg interrupt followChan bg]. rewrite app_nil_r.
      split; [done |]. split; [done |]. split; [done |].
      split; [by intros r e [= <-] |]. by split. }
    revert Hsig Hrun Hinit. generalize (followInit data_set s).
    induction acts as [|a acts IH]; intros s0 Hsig; cbn [followRun].
    - by intros [= <-].
    - destruct (step' a s0) as [s1|] eqn:Hstep; [| done].
      intros Hrun Hs0. apply (IH s1); [| done |].
      + intros Hin. apply Hsig, elem_of_cons. by right.
      + apply (quietRun_step _ a s0); [| done | done].
        intros ->. apply Hsig, elem_of_cons. by left. }
  split; [done |]. intros e He. exists t. split; [done | by eapply Hex].
Qed.

End FollowRunFacts.

(** ** What a command prints *)

(** Traces as right-nested appends. *)
Ltac flat_trace :=
  repeat first [ rewrite <- app_assoc | progress cbn [app trace world] ].

Section PrintFacts.

Context {W : Type}.
Variable ExecuteQuery : string -> W -> (Response + string) * W.
Variable ContinueQuery : option DataSet -> string -> W -> (Response + string) * W.
Variable Quote : string -> string.
Variable sliceToMap : list (list any) -> gmap string any.
Variable mapRange : nat -> gmap string any -> list (string * any).

Local Abbreviation firstPage_ := (firstPage ExecuteQuery sliceToMap).
Local Abbreviation filterClauses_ := (filterClauses ExecuteQuery ContinueQuery Quote).
Local Abbreviation eventsQuery_ := (eventsQuery ExecuteQuery ContinueQuery sliceToMap).
Local Abbreviation listEvents_ := (listEvents ExecuteQuery ContinueQuery Quote sliceToMap).
Local Abbreviation recommendationsQuery_ :=
  (recommendationsQuery ExecuteQuery ContinueQuery sliceToMap mapRange).
Local Abbreviation recommendationsJoin_ :=
  (recommendationsJoin ExecuteQuery sliceToMap mapRange).
Local Abbreviation listRecommendations_ :=
  (listRecommendations ExecuteQuery ContinueQuery Quote sliceToMap mapRange).

Lemma emits_weaken {A} (P Q : event -> bool) (c : M W A) :
  (forall e, P e = true -> Q e = true) -> emits P c -> emits Q c.
Proof.
  intros HPQ Hc s. destruct (Hc s) as (t & Ht & HP). exists t. split; [done |].
  rewrite forallb_forall in *. auto.
Qed.

Lemma prints_app (t1 t2 : list event) : prints (t1 ++ t2) = (prints t1 + prints t2)%nat.
Proof. unfold prints. by rewrite List.filter_app, length_app. Qed.

Lemma prints_notPrint (t : list event) : forallb notPrint t = true -> prints t = 0%nat.
Proof.
  unfold prints. induction t as [|e t IH]; [done |]. cbn [forallb List.filter].
  intros [He Ht]%andb_true_iff. unfold notPrint in He. destruct (isPrint e); [done |].
  by apply IH.
Qed.

(** A run that never prints, seen from its start. *)
Lemma emits_silent {A} (c : M W A) (s : St W) :
  emits notPrint c ->
  exists t, trace (snd (c s)) = (trace s ++ t)%list /\ prints t = 0%nat.
Proof.
  intros Hc. destruct (Hc s) as (t & Ht & HP). exists t. split; [done |].
  by apply prints_notPrint.
Qed.

Lemma emits_optimizationPages (fuel page : nat) (mainDataSet : DataSet)
    (results : list string) :
  emits notPrint (optimizationPages ContinueQuery fuel page mainDataSet results).
Proof.
  revert page mainDataSet results. induction fuel as [|fuel IH]; intros page mds results.
  - apply emits_outOfFuel.
  - cbn [optimizationPages]. apply emits_bind.
    { intros s. unfold continueQuery.
      destruct (ContinueQuery (Some mds) "next" (world s)) as [r w].
      by exists [EvContinueQuery (Some mds) "next"]. }
    intros [resp|e]; [| apply emits_ret].
    apply emits_bind; [by apply emits_logErrors |]. intros _.
    destruct (Main resp) as [mds'|];
      [| apply emits_bind; [by apply emits_emit | intros; apply emits_ret]].
    destruct (optimizationIds _ 0 (Data mds') results) as [results' [e|]];
      [apply emits_ret |].
    destruct (hasLink mds' "next"); [apply IH | apply emits_ret].
Qed.

Lemma emits_listOptimizations (fuel : nat) (f : eventsFlags) :
  emits notPrint (listOptimizations ExecuteQuery ContinueQuery Quote fuel f).
Proof.
  unfold listOptimizations. destruct (_ <? 1)%nat; [apply emits_ret |].
  apply emits_bind; [by apply emits_executeQuery |].
  intros [resp|e]; [| apply emits_ret].
  apply emits_bind; [by apply emits_logErrors |]. intros _.
  destruct (Main resp) as [mds|]; [| apply emits_ret].
  destruct (optimizationIds "" 0 (Data mds) []) as [results [e|]]; [apply emits_ret |].
  destruct (hasLink mds "next"); [apply emits_optimizationPages | apply emits_ret].
Qed.

Lemma silent_start (s : St W) :
  exists t, trace s = (trace s ++ t)%list /\ prints t = 0%nat.
Proof. exists []. by rewrite app_nil_r. Qed.

Lemma one_print (s : St W) (e : event) :
  isPrint e = true ->
  exists t, (trace s ++ [e])%list = (trace s ++ t)%list /\ prints t = 1%nat.
Proof. intros He. exists [e]. split; [done |]. unfold prints. cbn. by rewrite He. Qed.

(** The filter prints its status line when it ends the command with nil,
    and nothing otherwise. *)
Lemma filterClauses_prints (fuel : nat) (f : eventsFlags) (s s1 : St W)
    (r : outcome (option error + list string)) :
  filterClauses_ fuel f s = (r, s1) ->
  exists t,
    trace s1 = (trace s ++ t)%list
    /\ prints t = printsEarly r.
Proof.
  unfold filterClauses.
  destruct (decide (optimizerId f <> "")); [intros [= <- <-]; apply silent_start |].
  destruct (decide (namespace f <> "" \/ workloadName f <> ""));
    [| intros [= <- <-]; apply silent_start].
  unfold bind at 1.
  destruct (emits_silent _ s (emits_listOptimizations fuel f)) as (t & Ht & Hp).
  destruct (listOptimizations _ _ _ fuel f s) as [[[ids [err|]]| |] s0]; cbn [fst snd] in *;
    try (intros [= <- <-]; by exists t).
  destruct ids as [|id ids]; cbn [length Nat.ltb Nat.leb]; unfold bind, emit, ret;
    intros [= <- <-]; [| by exists t].
  exists (t ++ [EvStatus ("No optimization entities found matching the given criteria" ++ nl)])%list.
  cbn [trace]. rewrite Ht, <- app_assoc. split; [done |]. rewrite prints_app, Hp. done.
Qed.

(** The first page prints its status line when it ends the command with
    nil, and nothing otherwise. *)
Lemma firstPage_prints (what noun query : string) (s s1 : St W)
    (r : outcome (option error + list EventsRow * option DataSet)) :
  firstPage_ what noun query s = (r, s1) ->
  exists t,
    trace s1 = (trace s ++ t)%list
    /\ prints t = printsEarly r.
Proof.
  unfold firstPage, bind at 1, executeQuery.
  destruct (ExecuteQuery query (world s)) as [[resp|e] w].
  - unfold bind at 1. rewrite logErrors_run. cbn [world trace].
    set (log := errorLog _ resp).
    assert (prints (EvExecuteQuery query :: log) = 0%nat) as Hlog.
    { apply prints_notPrint. cbn. subst log. unfold errorLog.
      destruct (HasErrors resp); [| done]. cbn. by induction (Errors resp). }
    assert (prints (EvExecuteQuery query :: log
                      ++ [EvStatus ("No " ++ noun ++ " results found for given input" ++ nl)])
            = 1%nat) as Hstatus.
    { rewrite app_comm_cons, prints_app, Hlog. done. }
    destruct (Main resp) as [mds|].
    + destruct (Data mds) as [|[|[] ?] ?]; unfold bind, emit, ret, lift;
        try (intros [= <- <-]; flat_trace; eexists; split; [reflexivity | exact Hlog]).
      * intros [= <- <-]. flat_trace.
        eexists; split; [reflexivity | exact Hstatus].
      * destruct (extractEventsData sliceToMap p) as [[rows [err|]]| |];
          intros [= <- <-]; flat_trace; eexists; (split; [reflexivity | exact Hlog]).
    + unfold bind, emit, ret. intros [= <- <-]. flat_trace.
      eexists; split; [reflexivity | exact Hstatus].
  - unfold ret. intros [= <- <-]. cbn [trace]. by exists [EvExecuteQuery query].
Qed.

Lemma printing_ret {A} (n : outcome A -> nat) (a : A) :
  n (Ret a) = 0%nat -> printing (W := W) n (ret a).
Proof. intros Hn s. exists []. cbn. by rewrite app_nil_r. Qed.

Lemma printing_emit_ret {A} (n : outcome A -> nat) (e : event) (a : A) :
  isPrint e = true -> n (Ret a) = 1%nat ->
  printing (W := W) n (do emit e then ret a)%go.
Proof.
  intros He Hn s. exists [e]. unfold bind, emit, ret. cbn [fst snd trace].
  split; [done |]. unfold prints. cbn. by rewrite He, Hn.
Qed.

(** A step that prints [m], followed by a rest that prints what is left
    of [n]. *)
Lemma printing_bind {A B} (m : outcome A -> nat) (n : outcome B -> nat)
    (c : M W A) (k : A -> M W B) :
  printing m c ->
  (forall p, m (Panicked p) = n (Panicked p)) -> m OutOfFuel = n OutOfFuel ->
  (forall a, exists n',
      printing n' (k a)
      /\ forall s, (m (Ret a) + n' (fst (k a s)))%nat = n (fst (k a s))) ->
  printing n (bind c k).
Proof.
  intros Hc Hp Hf Hk s. unfold bind. destruct (Hc s) as (t1 & Ht1 & Hm).
  destruct (c s) as [[a| p |] s1]; cbn [fst snd] in *.
  - destruct (Hk a) as (n' & Hka & Hsum). destruct (Hka s1) as (t2 & Ht2 & Hn').
    exists (t1 ++ t2)%list. rewrite Ht2, Ht1, <- app_assoc. split; [done |].
    by rewrite prints_app, Hm, Hn', Hsum.
  - exists t1. by rewrite <- Hp.
  - exists t1. by rewrite <- Hf.
Qed.

Lemma printing_silent {A} (c : M W A) :
  emits notPrint c -> printing (fun _ => 0%nat) c.
Proof. intros Hc s. by apply emits_silent. Qed.

Lemma printing_silent_bind {A B} (n : outcome B -> nat) (c : M W A) (k : A -> M W B) :
  emits notPrint c ->
  (forall p, n (Panicked p) = 0%nat) -> n OutOfFuel = 0%nat ->
  (forall a, printing n (k a)) ->
  printing n (bind c k).
Proof.
  intros Hc Hp Hf Hk. apply (printing_bind (fun _ => 0%nat)); [by apply printing_silent | done..|].
  intros a. by exists n.
Qed.

Lemma printing_filterClauses (fuel : nat) (f : eventsFlags) :
  printing printsEarly (filterClauses_ fuel f).
Proof.
  intros s. destruct (filterClauses_ fuel f s) as [r s1] eqn:E.
  by apply filterClauses_prints in E.
Qed.

Lemma printing_firstPage (what noun query : string) :
  printing printsEarly (firstPage_ what noun query).
Proof.
  intros s. destruct (firstPage_ what noun query s) as [r s1] eqn:E.
  by apply firstPage_prints in E.
Qed.

(** After an early [return], or on with the rest. *)
Lemma printing_early {A} (c : M W (option error + A)) (k : A -> M W cmdResult) :
  printing printsEarly c ->
  (forall a, printing printsFor (k a)) ->
  printing printsFor
    (let* r := c in
     match r with
     | inl early => ret (Returned early)
     | inr a => k a
     end)%go.
Proof.
  intros Hc Hk. apply (printing_bind printsEarly); [done.. |].
  intros [[e|]|a].
  - exists printsFor. split; [by apply printing_ret | by intros s].
  - exists (fun _ => 0%nat). split; [by apply printing_ret | by intros s].
  - exists printsFor. split; [apply Hk | by intros s].
Qed.

Lemma silent_pages (what : string) (fuel : nat) (next_ok : bool)
    (data_set : option DataSet) (rows : list EventsRow) :
  emits notPrint
    (if next_ok then continuePages ContinueQuery sliceToMap what fuel 2 data_set rows
     else ret (inr (rows, data_set))).
Proof.
  destruct next_ok; [| apply emits_ret].
  apply emits_continuePages. by intros [].
Qed.

Lemma silent_getOptimizationBlockerData (tempVals : recommendationsTemplateValues) :
  emits notPrint (getOptimizationBlockerData ExecuteQuery sliceToMap tempVals).
Proof.
  unfold getOptimizationBlockerData. apply emits_bind; [by apply emits_executeQuery |].
  intros [resp|e]; [| apply emits_ret].
  apply emits_bind; [by apply emits_logErrors |]. intros _.
  destruct (Main resp) as [mds|]; [| apply emits_ret].
  destruct (Data mds) as [|[|[] ?] ?]; try apply emits_ret.
  apply emits_bind; [apply emits_lift |]. intros [rows [err|]]; apply emits_ret.
Qed.

Lemma silent_joinRows (blockerRows : gmap string (gmap string any)) (i : nat)
    (rows : list EventsRow) (acc : list recommendationRow) :
  emits notPrint (joinRows (W := W) mapRange blockerRows i rows acc).
Proof.
  revert i acc. induction rows as [|row rows IH]; intros i acc; cbn [joinRows].
  - apply emits_ret.
  - apply emits_bind; [| intros; apply IH].
    unfold joinRow. apply emits_bind; [apply emits_lift |]. intros id.
    apply emits_bind; [apply emits_lift |]. intros num.
    destruct (_ !! _).
    + destruct (mergeBlockers _). apply emits_ret.
    + apply emits_bind; [by apply emits_emit | intros; apply emits_ret].
Qed.

Lemma printing_eventsQuery (fuel : nat) (flags : eventsCmdFlags) (filterList : list string) :
  printing printsFor (eventsQuery_ fuel flags filterList).
Proof.
  unfold eventsQuery. destruct (limits _); [by apply printing_ret |].
  apply printing_early; [apply printing_firstPage |]. intros [rows ds].
  apply printing_silent_bind; [apply silent_pages | done.. |].
  intros [e|[rows' ds']]; [by apply printing_ret |].
  destruct (follow _), ds'; by apply printing_emit_ret.
Qed.

Lemma printing_recommendationsQuery (fuel : nat) (flags : recommendationsCmdFlags)
    (filterList : list string) :
  printing printsFor (recommendationsQuery_ fuel flags filterList).
Proof.
  unfold recommendationsQuery. destruct (limits _); [by apply printing_ret |].
  apply printing_early; [apply printing_firstPage |]. intros [rows ds].
  apply printing_silent_bind; [apply silent_pages | done.. |].
  intros [e|[rows' ds']]; [by apply printing_ret |].
  unfold recommendationsJoin.
  apply printing_silent_bind; [apply silent_getOptimizationBlockerData | done.. |].
  intros [blockerRows [err|]]; [by apply printing_ret |].
  apply printing_silent_bind; [apply silent_joinRows | done.. |].
  intros items. by apply printing_emit_ret.
Qed.

(** X17. [listEvents] prints once or not at all. Whatever the flags and
    whatever the service answers, the command only adds to the trace, and
    what it adds holds exactly one print (the status line or the output of
    the rows) when it returns nil or enters the follow loop, and no print
    when it returns an error, panics or is cut short: an error never comes
    with output, and success never without. *)
Theorem listEvents_prints_once (fuel : nat) (flags : eventsCmdFlags) (s : St W) :
  exists t,
    trace (snd (listEvents_ fuel flags s)) = (trace s ++ t)%list
    /\ prints t = printsFor (fst (listEvents_ fuel flags s)).
Proof.
  revert s. change (printing printsFor (listEvents_ fuel flags)).
  unfold listEvents. apply printing_early; [apply printing_filterClauses |].
  intros filterList. apply printing_eventsQuery.
Qed.

(** X18. [listRecommendations] prints once or not at all: one print (the
    status line or the joined rows) when it returns nil, none when it
    returns an error, when the join panics, or when it is cut short. *)
Theorem listRecommendations_prints_once (fuel : nat) (flags : recommendationsCmdFlags)
    (s : St W) :
  exists t,
    trace (snd (listRecommendations_ fuel flags s)) = (trace s ++ t)%list
    /\ prints t = printsFor (fst (listRecommendations_ fuel flags s)).
Proof.
  revert s. change (printing printsFor (listRecommendations_ fuel flags)).
  unfold listRecommendations. apply printing_early; [apply printing_filterClauses |].
  intros filterList. apply printing_recommendationsQuery.
Qed.

End PrintFacts.

(** ** The extractor on any data set *)

Section ExtractEventsFacts.

Variable sliceToMap : list (list any) -> gmap string any.

(** X19. The extractor on any data set. When every row begins with an
    attribute bag and a timestamp, it returns one record per row, in row
    order, and no error; on any other data set it panics. It never returns
    an error, so the callers' branches on its error are never taken. *)
Theorem extractEventsData_records (d : DataSet) :
  match mapM (rowOf sliceToMap) (Data d) with
  | Some records => extractEventsData sliceToMap (Some d) = Ret (records, None)
  | None => exists p, extractEventsData sliceToMap (Some d) = Panicked p
  end.
Proof.
  unfold extractEventsData. destruct (mapM (rowOf sliceToMap) (Data d)) as [records|] eqn:H.
  - by rewrite (extractEventsRows_shaped sliceToMap (Data d) records [] H).
  - by apply extractEventsRows_deviation.
Qed.

End ExtractEventsFacts.

(** ** What a poll prints *)

Section PollFacts.

Context {W : Type}.
Variable ContinueQuery : option DataSet -> string -> W -> (Response + string) * W.
Variable sliceToMap : list (list any) -> gmap string any.

Local Abbreviation poll' := (followDatasetAndPrint ContinueQuery sliceToMap).

Lemma prints_errorLog (headline : string) (resp : Response) :
  prints (errorLog headline resp) = 0%nat.
Proof.
  unfold errorLog. destruct (HasErrors resp); [| done]. unfold prints. cbn.
  by induction (Errors resp).
Qed.

Lemma poll_prints (data_set : option DataSet) (s s1 : St W)
    (o : outcome followEventResult) :
  poll' data_set s = (o, s1) ->
  exists t,
    trace s1 = (trace s ++ t)%list
    /\ (prints t <= 1)%nat
    /\ match o with
       | Ret fr =>
           (fr_err fr <> None \/ cursorExhausted fr = true -> prints t = 0%nat)
           /\ (cursorExhausted fr = true -> fr_err fr = None)
       | _ => prints t = 0%nat
       end.
Proof.
  unfold followDatasetAndPrint, bind at 1, continueQuery.
  destruct (ContinueQuery data_set "follow" (world s)) as [[resp|e] w].
  - unfold bind at 1. rewrite logErrors_run. cbn [world trace].
    set (log := errorLog _ resp).
    assert (prints (EvContinueQuery data_set "follow" :: log) = 0%nat) as Hlog.
    { change (prints ([EvContinueQuery data_set "follow"] ++ log) = 0%nat).
      rewrite prints_app. subst log. by rewrite prints_errorLog. }
    destruct (Main resp) as [mds|].
    + destruct (Data mds) as [|[|[] ?] ?]; unfold bind, emit, ret, lift;
        try (intros [= <- <-]; flat_trace; eexists; split; [reflexivity |]; rewrite Hlog;
             split; [lia |]; split; [done | by intros [=]]).
      match goal with
      | |- context [extractEventsData sliceToMap ?d] =>
          destruct (extractEventsData sliceToMap d) as [[rows [err|]]| |]
      end;
        try (intros [= <- <-]; flat_trace; eexists; split; [reflexivity |]; rewrite Hlog;
             first [ lia | split; [lia |]; split; [done | by intros [=]] ]).
      destruct (0 <? length rows)%nat; intros [= <- <-]; flat_trace;
        (eexists; split; [reflexivity |]).
      * rewrite app_comm_cons, prints_app, Hlog. cbn.
        split; [lia |]. split; [| by intros [=]]. by intros [|[=]].
      * rewrite Hlog. split; [lia |]. done.
    + unfold bind, emit, ret. intros [= <- <-]. flat_trace.
      eexists; split; [reflexivity |]. rewrite app_comm_cons, prints_app, Hlog. cbn.
      split; [lia |]. split; [done | by intros [=]].
  - unfold ret. intros [= <- <-]. cbn [trace]. exists [EvContinueQuery data_set "follow"].
    cbn. split; [done |]. split; [lia |]. split; [done | by intros [=]].
Qed.

(** X20. What a poll prints. A poll only adds to the trace and prints at
    most once. A poll that reports an error, or that reports the cursor
    exhausted, has printed nothing, and so has a poll that panics; the
    cursor is never reported exhausted together with an error. *)
Theorem poll_prints_rows_only (data_set : option DataSet) (s : St W) :
  exists t,
    trace (snd (poll' data_set s)) = (trace s ++ t)%list
    /\ (prints t <= 1)%nat
    /\ match fst (poll' data_set s) with
       | Ret fr =>
           (fr_err fr <> None \/ cursorExhausted fr = true -> prints t = 0%nat)
           /\ (cursorExhausted fr = true -> fr_err fr = None)
       | _ => prints t = 0%nat
       end.
Proof.
  destruct (poll' data_set s) as [o s1] eqn:E. by apply poll_prints in E.
Qed.

End PollFacts.

(** ** Instances *)

(** Two pages follow the first fetch. *)
Lemma continuePages_chain_witness :
  servesPages Scripted.ContinueQuery Scripted.sliceToMap
    PageInputs.script PageInputs.first PageInputs.pages
  /\ exists p,
      last PageInputs.pages = Some p
      /\ continuePages Scripted.ContinueQuery Scripted.sliceToMap "events" 2 2
           (Some PageInputs.first) (PageInputs.recordsOf [Inputs.otherEvent])
           (Inputs.start PageInputs.script)
         = (Ret (inr ((PageInputs.recordsOf [Inputs.otherEvent]
                         ++ concat (map paRows PageInputs.pages))%list,
                      Some (paDataSet p))),
            mkSt (paWorld p)
              ([] ++ pagesTrace "events" 2 PageInputs.first PageInputs.pages))
      /\ length (List.filter isContinue
                   (pagesTrace "events" 2 PageInputs.first PageInputs.pages))
         = 2%nat.
Proof.
  assert (servesPages Scripted.ContinueQuery Scripted.sliceToMap
            PageInputs.script PageInputs.first PageInputs.pages) as H.
  { repeat split; try reflexivity; by eexists _, _, _. }
  split; [exact H |].
  exact (continuePages_chain Scripted.ContinueQuery Scripted.sliceToMap "events" 2 2
           PageInputs.first (PageInputs.recordsOf [Inputs.otherEvent])
           (Inputs.start PageInputs.script) PageInputs.pages H (le_n 2)).
Defined.

(** Two pages follow the first fetch, seen from the rows returned; and one
    page follows it before the service answers without main data. *)
Lemma continuePages_appends_witness :
  (exists more,
     (PageInputs.recordsOf [Inputs.otherEvent; Inputs.recommendationEvent; Inputs.startedEvent])
     = (PageInputs.recordsOf [Inputs.otherEvent] ++ more)%list)
  /\ servesLinked Scripted.ContinueQuery Scripted.sliceToMap
       PageInputs.nilScript PageInputs.first PageInputs.linked
  /\ continuePages Scripted.ContinueQuery Scripted.sliceToMap "events" 2 2
       (Some PageInputs.first) (PageInputs.recordsOf [Inputs.otherEvent])
       (Inputs.start PageInputs.nilScript)
     = (Ret (inr (PageInputs.recordsOf [Inputs.otherEvent; Inputs.recommendationEvent],
                  Some PageInputs.second)),
        mkSt []
          [ EvContinueQuery (Some PageInputs.first) "next";
            EvContinueQuery (Some PageInputs.second) "next";
            EvLog LvlError
              "Continuation of events query (page 3) has nil main data. Returned data may not be complete!" ]).
Proof.
  assert (servesLinked Scripted.ContinueQuery Scripted.sliceToMap
            PageInputs.nilScript PageInputs.first PageInputs.linked) as H.
  { repeat split; try reflexivity; by eexists _, _, _. }
  split; [| split; [exact H |]].
  - apply (proj1 (continuePages_appends Scripted.ContinueQuery Scripted.sliceToMap
                    "events" 2 2 (PageInputs.recordsOf [Inputs.otherEvent]))
             (Some PageInputs.first)
             (PageInputs.recordsOf
                [Inputs.otherEvent; Inputs.recommendationEvent; Inputs.startedEvent])
             (Some PageInputs.third) (Inputs.start PageInputs.script)
             (snd (continuePages Scripted.ContinueQuery Scripted.sliceToMap "events" 2 2
                     (Some PageInputs.first) (PageInputs.recordsOf [Inputs.otherEvent])
                     (Inputs.start PageInputs.script)))).
    vm_compute. reflexivity.
  - exact (proj2 (continuePages_appends Scripted.ContinueQuery Scripted.sliceToMap
                    "events" 2 2 (PageInputs.recordsOf [Inputs.otherEvent]))
             PageInputs.first (Inputs.start PageInputs.nilScript) PageInputs.linked
             Inputs.nilMain [] H (le_n 2) eq_refl eq_refl).
Defined.

(** Two rows with ids, then a row whose first cell is a number. *)
Lemma optimizationIds_first_bad_row_witness :
  mapM idOfRow [[AString "ns-wl-abc"]; [AString "ns-wl-def"]] = Some ["ns-wl-abc"; "ns-wl-def"]
  /\ optimizationIds "" 0
       [[AString "ns-wl-abc"]; [AString "ns-wl-def"]; [AInt 7]; [AString "ns-wl-ghi"]] []
     = (["ns-wl-abc"; "ns-wl-def"],
        Some (ErrorfT "optimization data row 2 value %v (type %T) could not be converted to string"
                (AInt 7))).
Proof.
  split; [reflexivity |].
  exact (proj2 (optimizationIds_first_bad_row "" 0
                  [[AString "ns-wl-abc"]; [AString "ns-wl-def"]]
                  ["ns-wl-abc"; "ns-wl-def"] [] eq_refl)
           [AInt 7] [[AString "ns-wl-ghi"]] eq_refl).
Defined.

(** Two pages follow the first page of the lookup. *)
Lemma optimizationPages_chain_witness :
  servesIdPages Scripted.ContinueQuery PageInputs.idScript PageInputs.firstIds
    PageInputs.idPages
  /\ exists s',
      optimizationPages Scripted.ContinueQuery 2 2 PageInputs.firstIds ["ns-wl-abc"]
        (Inputs.start PageInputs.idScript)
      = (Ret (["ns-wl-abc"; "ns-wl-def"; "ns-wl-ghi"; "ns-wl-jkl"], None), s')
      /\ world s' = []
      /\ length (List.filter isContinue (trace s')) = 2%nat.
Proof.
  assert (servesIdPages Scripted.ContinueQuery PageInputs.idScript PageInputs.firstIds
            PageInputs.idPages) as H.
  { repeat split; reflexivity. }
  split; [exact H |].
  destruct (optimizationPages_chain Scripted.ContinueQuery 2 2 PageInputs.firstIds
              ["ns-wl-abc"] (Inputs.start PageInputs.idScript) PageInputs.idPages H (le_n 2))
    as (p & s' & Hlast & Hrun & Hworld & Hcount).
  exists s'. split; [exact Hrun |]. injection Hlast as <-. by split.
Defined.

(** The lookup made of one started event. *)
Lemma extractStartedBlockersData_only_ignored_blockers_witness :
  extractStartedBlockersData Scripted.sliceToMap
    (Some (Inputs.dataSet [Inputs.startedEvent] ∅))
  = Ret ({[ "ns-wl-abc-3" := PageInputs.startedKept ]}, None)
  /\ onlyIgnoredBlockers {[ "ns-wl-abc-3" := PageInputs.startedKept ]}.
Proof.
  assert (extractStartedBlockersData Scripted.sliceToMap
            (Some (Inputs.dataSet [Inputs.startedEvent] ∅))
          = Ret ({[ "ns-wl-abc-3" := PageInputs.startedKept ]}, None)) as H
    by (vm_compute; reflexivity).
  split; [exact H |].
  exact (proj2 (extractStartedBlockersData_only_ignored_blockers Scripted.sliceToMap
                  _ _ _ H)).
Defined.

(** Two started events of optimization 3: the second replaces the first. *)
Lemma extractStartedBlockersRows_last_wins_witness :
  extractStartedBlockersRows Scripted.sliceToMap [Inputs.startedEvent] ∅
  = Ret ({[ "ns-wl-abc-3" := PageInputs.startedKept ]}, None)
  /\ startedEntry Scripted.sliceToMap PageInputs.startedAgain
     = Some ("ns-wl-abc-3", PageInputs.startedAgainKept)
  /\ exists after,
      extractStartedBlockersRows Scripted.sliceToMap
        [Inputs.startedEvent; PageInputs.startedAgain] ∅
      = Ret (after, None)
      /\ after !! "ns-wl-abc-3" = Some PageInputs.startedAgainKept.
Proof.
  assert (extractStartedBlockersRows Scripted.sliceToMap [Inputs.startedEvent] ∅
          = Ret ({[ "ns-wl-abc-3" := PageInputs.startedKept ]}, None)) as H1
    by (vm_compute; reflexivity).
  assert (startedEntry Scripted.sliceToMap PageInputs.startedAgain
          = Some ("ns-wl-abc-3", PageInputs.startedAgainKept)) as H2
    by (vm_compute; reflexivity).
  split; [exact H1 |]. split; [exact H2 |].
  destruct (extractStartedBlockersRows_last_wins Scripted.sliceToMap
              [Inputs.startedEvent] PageInputs.startedAgain ∅ _ _ _ H1 H2)
    as (after & Hrun & Hkey & _).
  exists after. by split.
Defined.

(** The id "cpu" of the second attribute is inside the id "cpu-limit". *)
Lemma mergeBlockers_covers_witness :
  "cpu" ∈ candidates Inputs.nestedVisit
  /\ Strings.Contains (Strings.Join (snd (mergeBlockers Inputs.nestedVisit)) ",") "cpu" = true
  /\ snd (mergeBlockers Inputs.nestedVisit) <> [].
Proof.
  assert ("cpu" ∈ candidates Inputs.nestedVisit) as H.
  { change ("cpu" ∈ ["cpu-limit"; "cpu"]). apply elem_of_cons. right.
    by apply list_elem_of_singleton. }
  split; [exact H |].
  destruct (mergeBlockers_covers Inputs.nestedVisit "cpu" H) as [Hc Hne].
  split; [exact Hc |]. by apply Hne.
Defined.

(** A recommendation with a started event, and one without. *)
Lemma joinRows_keyed_witness :
  mapM rowKey [Inputs.recommendation; PageInputs.recommendationOther]
  = Some ["ns-wl-abc-3"; "ns-wl-def-1"]
  /\ exists items t,
      joinRows Inputs.mapRange Inputs.blockerRows 0
        [Inputs.recommendation; PageInputs.recommendationOther] [] Inputs.s0
      = (Ret items, mkSt [] ([] ++ t))
      /\ map recEventsRow items = [Inputs.recommendation; PageInputs.recommendationOther]
      /\ length t = 1%nat.
Proof.
  assert (mapM rowKey [Inputs.recommendation; PageInputs.recommendationOther]
          = Some ["ns-wl-abc-3"; "ns-wl-def-1"]) as H by (vm_compute; reflexivity).
  split; [exact H |].
  destruct (joinRows_keyed Inputs.mapRange Inputs.blockerRows 0
              [Inputs.recommendation; PageInputs.recommendationOther]
              ["ns-wl-abc-3"; "ns-wl-def-1"] [] Inputs.s0 H)
    as (items & t & Hrun & Hrows & _ & Hlen).
  exists items, t. split; [exact Hrun |]. split; [exact Hrows |].
  rewrite Hlen. vm_compute. reflexivity.
Defined.

(** The loop enters on the first data set; the service answers the first
    poll with a row. *)
Lemma follow_one_activity_witness :
  exists s',
    FollowInputs.run [ADispatch; ASleep; APoll]
      (followInit FollowInputs.first
         (Inputs.start [inl (Inputs.page [Inputs.otherEvent] Inputs.followOnly)]))
    = Some s'
    /\ oneActivity s'
    /\ followChan s' = None.
Proof.
  destruct (FollowInputs.run [ADispatch; ASleep; APoll]
              (followInit FollowInputs.first
                 (Inputs.start [inl (Inputs.page [Inputs.otherEvent] Inputs.followOnly)])))
    as [s'|] eqn:Hrun; [| vm_compute in Hrun; discriminate].
  exists s'. split; [reflexivity |].
  destruct (follow_one_activity Scripted.ContinueQuery Scripted.sliceToMap
              FollowInputs.interval _ _ _ s' Hrun) as (Hone & Hsend & _).
  split; [exact Hone |].
  pose proof Hrun as Hs. vm_compute in Hs. injection Hs as <-.
  eapply Hsend. reflexivity.
Defined.

(** After the first poll the goroutine holds its result: the send is the
    one step that is possible. *)
Lemma follow_no_deadlock_witness :
  exists s',
    FollowInputs.run [ADispatch; ASleep; APoll]
      (followInit FollowInputs.first
         (Inputs.start [inl (Inputs.page [Inputs.otherEvent] Inputs.followOnly)]))
    = Some s'
    /\ fg s' = Selecting /\ crashed s' = false
    /\ exists a, a <> ASignal /\ is_Some (FollowInputs.step a s').
Proof.
  destruct (FollowInputs.run [ADispatch; ASleep; APoll]
              (followInit FollowInputs.first
                 (Inputs.start [inl (Inputs.page [Inputs.otherEvent] Inputs.followOnly)])))
    as [s'|] eqn:Hrun; [| vm_compute in Hrun; discriminate].
  exists s'. split; [reflexivity |].
  assert (fg s' = Selecting /\ crashed s' = false) as [Hfg Halive].
  { pose proof Hrun as Hs. vm_compute in Hs. injection Hs as <-. by split. }
  split; [exact Hfg |]. split; [exact Halive |].
  destruct (follow_no_deadlock Scripted.ContinueQuery Scripted.sliceToMap
              FollowInputs.interval _ _ _ s' Hrun Hfg Halive) as (a & Ha & Hstep & _).
  by exists a.
Defined.

(** A poll and the send of its result. *)
Lemma follow_run_events_witness :
  exists s' t,
    FollowInputs.run [APoll; ASend]
      (FollowInputs.polling false [inl (Inputs.page [Inputs.otherEvent] Inputs.followOnly)])
    = Some s'
    /\ trace (st s') = ([] ++ t)%list
    /\ forallb (followEvent FollowInputs.interval) t = true.
Proof.
  destruct (FollowInputs.run [APoll; ASend]
              (FollowInputs.polling false
                 [inl (Inputs.page [Inputs.otherEvent] Inputs.followOnly)]))
    as [s'|] eqn:Hrun; [| vm_compute in Hrun; discriminate].
  destruct (follow_run_events Scripted.ContinueQuery Scripted.sliceToMap
              FollowInputs.interval _ _ s' Hrun) as (t & Ht & HP).
  by exists s', t.
Defined.

(** The service answers the first poll with a main data set without rows:
    the loop returns the error of the poll. *)
Lemma follow_ends_by_poll_error_only_witness :
  (ASignal ∉ [ADispatch; ASleep; APoll; ASend; AReturnErr])
  /\ exists s',
      FollowInputs.run [ADispatch; ASleep; APoll; ASend; AReturnErr]
        (followInit FollowInputs.first (Inputs.start [inl Inputs.noRows]))
      = Some s'
      /\ fg s' = Exited (Some (Errorf "follow main dataset main has no rows"))
      /\ exists t, trace (st s') = ([] ++ t)%list /\ existsb isFollowPoll t = true.
Proof.
  assert (ASignal ∉ [ADispatch; ASleep; APoll; ASend; AReturnErr]) as Hsig.
  { intros H. repeat (apply elem_of_cons in H as [H|H]; [discriminate |]).
    by apply elem_of_nil in H. }
  split; [exact Hsig |].
  destruct (FollowInputs.run [ADispatch; ASleep; APoll; ASend; AReturnErr]
              (followInit FollowInputs.first (Inputs.start [inl Inputs.noRows])))
    as [s'|] eqn:Hrun; [| vm_compute in Hrun; discriminate].
  exists s'. split; [reflexivity |].
  assert (fg s' = Exited (Some (Errorf "follow main dataset main has no rows"))) as Hfg.
  { pose proof Hrun as Hs. vm_compute in Hs. by injection Hs as <-. }
  split; [exact Hfg |].
  exact (proj2 (follow_ends_by_poll_error_only Scripted.ContinueQuery Scripted.sliceToMap
                  FollowInputs.interval _ _ _ s' Hsig Hrun) _ Hfg).
Defined.

(** ** The events command across its pages *)

Section AllPagesFacts.

Context {W : Type}.
Variable ExecuteQuery : string -> W -> (Response + string) * W.
Variable ContinueQuery : option DataSet -> string -> W -> (Response + string) * W.
Variable sliceToMap : list (list any) -> gmap string any.

Variable mapRange : nat -> gmap string any -> list (string * any).

Local Abbreviation eventsQuery_ := (eventsQuery ExecuteQuery ContinueQuery sliceToMap).
Local Abbreviation recommendationsQuery_ :=
  (recommendationsQuery ExecuteQuery ContinueQuery sliceToMap mapRange).
Local Abbreviation recommendationsJoin_ :=
  (recommendationsJoin ExecuteQuery sliceToMap mapRange).

(** X21. The events command without a cap and without follow prints the
    rows of all pages. After a first page with rows, when its data set has
    no "next" link the command prints the rows of that page; when the link
    leads along pages the service serves, the command, given fuel for that
    many pages, prints in one listing the rows of the first page followed by
    the rows of every page in page order, with their number as the total,
    and returns nil. *)
Theorem eventsQuery_outputs_all_pages (fuel : nat) (flags : eventsCmdFlags)
    (filterList : list string) (s : St W) (resp : Response) (w' : W) (mds ds : DataSet)
    (rest1 : list any) (rest2 : list (list any)) (rows : list EventsRow) :
  let query := eventsTemplate (eventsTempVals flags filterList "") in
  let log :=
    errorLog "Execution of events query encountered errors. Returned data may not be complete!"
      resp in
  count (evFlags flags) = -1 -> follow (evFlags flags) = false ->
  ExecuteQuery query (world s) = (inl resp, w') ->
  Main resp = Some mds -> Data mds = (ADataSet (Some ds) :: rest1) :: rest2 ->
  extractEventsData sliceToMap (Some ds) = Ret (rows, None) ->
  (hasLink ds "next" = false ->
   eventsQuery_ fuel flags filterList s
   = (Ret (Returned None),
      mkSt w' (trace s ++ EvExecuteQuery query :: log
                 ++ [EvOutputEvents rows (length rows)])))
  /\ forall pages : list pageAnswer,
       hasLink ds "next" = true ->
       servesPages ContinueQuery sliceToMap w' ds pages -> (length pages <= fuel)%nat ->
       exists p,
         last pages = Some p
         /\ let all := (rows ++ concat (map paRows pages))%list in
            eventsQuery_ fuel flags filterList s
            = (Ret (Returned None),
               mkSt (paWorld p)
                 (trace s ++ EvExecuteQuery query :: log
                    ++ pagesTrace "events" 2 ds pages
                    ++ [EvOutputEvents all (length all)])).
Proof.
  intros query log Hcount Hfollow Hq Hmain Hdata Hrows.
  assert (forall next_ok : bool,
             hasLink ds "next" = next_ok ->
             eventsQuery_ fuel flags filterList s
             = (let* pages :=
                  (if next_ok then continuePages ContinueQuery sliceToMap "events" fuel 2
                                     (Some ds) rows
                   else ret (inr (rows, Some ds))) in
                match pages with
                | inl e => ret (Returned (Some e))
                | inr (eventRows, _) =>
                    do emit (EvOutputEvents eventRows (length eventRows)) then
                    ret (Returned None)
                end)%go
                 (mkSt w' (trace s ++ EvExecuteQuery query :: log))) as Hrun.
  { intros next_ok Hlink. unfold eventsQuery, limits. cbn zeta. rewrite Hcount.
    destruct (decide (-1 <> -1)) as [Hne|_]; [done |].
    unfold bind at 1. fold query.
    rewrite (firstPage_rows ExecuteQuery sliceToMap "events" "event" query s resp w' mds
               (Some ds) rest1 rest2 rows Hq Hmain Hdata Hrows).
    rewrite Hfollow, Hlink. fold log.
    unfold bind. destruct next_ok.
    - destruct (continuePages _ _ _ _ _ _ _ _) as [[[e|[eventRows d]]| |] s1]; [done | | done..].
      by destruct d.
    - done. }
  split.
  - intros Hlink. rewrite (Hrun false Hlink). unfold bind, emit, ret. cbn [world trace].
    by rewrite <- app_assoc.
  - intros pages Hlink Hpages Hfuel. rewrite (Hrun true Hlink).
    destruct (continuePages_served ContinueQuery sliceToMap "events" fuel 2 ds rows
                (mkSt w' (trace s ++ EvExecuteQuery query :: log)) pages Hpages Hfuel)
      as (p & Hlast & Hloop).
    exists p. split; [done |]. cbn zeta. unfold bind at 1. rewrite Hloop.
    unfold bind, emit, ret. cbn [world trace].
    by rewrite <- !app_assoc.
Qed.

(** X22. The recommendations command without a cap joins the rows of all
    pages. After a first page with rows whose data set has a "next" link
    that leads along pages the service serves, the command, given fuel for
    that many pages, goes on to the blocker query and the join with the rows
    of the first page followed by the rows of every page in page order, in
    the state of the service after the last page. The follow flag plays no
    part. *)
Theorem recommendationsQuery_joins_all_pages (fuel : nat) (flags : recommendationsCmdFlags)
    (filterList : list string) (s : St W) (resp : Response) (w' : W) (mds ds : DataSet)
    (rest1 : list any) (rest2 : list (list any)) (rows : list EventsRow)
    (pages : list pageAnswer) :
  let tempVals := recommendationsTempVals flags filterList "" in
  let query := recommendationsTemplate tempVals in
  let log :=
    errorLog
      "Execution of recommendations query encountered errors. Returned data may not be complete!"
      resp in
  count (recFlags flags) = -1 ->
  ExecuteQuery query (world s) = (inl resp, w') ->
  Main resp = Some mds -> Data mds = (ADataSet (Some ds) :: rest1) :: rest2 ->
  extractEventsData sliceToMap (Some ds) = Ret (rows, None) ->
  hasLink ds "next" = true ->
  servesPages ContinueQuery sliceToMap w' ds pages -> (length pages <= fuel)%nat ->
  exists p,
    last pages = Some p
    /\ recommendationsQuery_ fuel flags filterList s
       = recommendationsJoin_ tempVals (rows ++ concat (map paRows pages))
           (mkSt (paWorld p)
              (trace s ++ EvExecuteQuery query :: log
                 ++ pagesTrace "recommendations" 2 ds pages)).
Proof.
  intros tempVals query log Hcount Hq Hmain Hdata Hrows Hlink Hpages Hfuel.
  destruct (continuePages_served ContinueQuery sliceToMap "recommendations" fuel 2 ds rows
              (mkSt w' (trace s ++ EvExecuteQuery query :: log)) pages Hpages Hfuel)
    as (p & Hlast & Hloop).
  exists p. split; [done |].
  unfold recommendationsQuery, limits. cbn zeta. rewrite Hcount.
  destruct (decide (-1 <> -1)) as [Hne|_]; [done |].
  unfold bind at 1. fold tempVals. fold query.
  rewrite (firstPage_rows ExecuteQuery sliceToMap "recommendations" "recommendation" query
             s resp w' mds (Some ds) rest1 rest2 rows Hq Hmain Hdata Hrows).
  rewrite Hlink. change (errorLog _ resp) with log.
  cbv beta iota. unfold bind at 1. rewrite Hloop. cbv beta iota. cbn [trace].
  by rewrite <- !app_assoc.
Qed.

End AllPagesFacts.

(** The first page and the two pages that follow it. *)
Lemma eventsQuery_outputs_all_pages_witness :
  exists s',
    eventsQuery Scripted.ExecuteQuery Scripted.ContinueQuery Scripted.sliceToMap 2
      (Inputs.eventsCmd (Inputs.byOptimizer (-1) false)) []
      (Inputs.start (inl (Inputs.page [Inputs.otherEvent] Inputs.nextAndFollow)
                       :: PageInputs.script))
    = (Ret (Returned None), s')
    /\ last (trace s')
       = Some (EvOutputEvents
                 (PageInputs.recordsOf
                    [Inputs.otherEvent; Inputs.recommendationEvent; Inputs.startedEvent])
                 3).
Proof.
  assert (servesPages Scripted.ContinueQuery Scripted.sliceToMap
            PageInputs.script PageInputs.first PageInputs.pages) as H.
  { repeat split; try reflexivity; by eexists _, _, _. }
  destruct (proj2 (eventsQuery_outputs_all_pages Scripted.ExecuteQuery Scripted.ContinueQuery
                     Scripted.sliceToMap 2
                     (Inputs.eventsCmd (Inputs.byOptimizer (-1) false)) []
                     (Inputs.start (inl (Inputs.page [Inputs.otherEvent] Inputs.nextAndFollow)
                                      :: PageInputs.script))
                     (Inputs.page [Inputs.otherEvent] Inputs.nextAndFollow)
                     PageInputs.script
                     (mkDataSet "main" [[ADataSet (Some PageInputs.first)]] ∅)
                     PageInputs.first [] [] (PageInputs.recordsOf [Inputs.otherEvent])
                     eq_refl eq_refl eq_refl eq_refl eq_refl eq_refl)
             PageInputs.pages eq_refl H (le_n 2)) as (p & Hlast & Hrun).
  eexists. split; [exact Hrun |].
  injection Hlast as <-. vm_compute. reflexivity.
Defined.

(** The same pages for the recommendations command; the blocker query then
    finds its script at an end. *)
Lemma recommendationsQuery_joins_all_pages_witness :
  let flags := Inputs.recommendationsCmd (Inputs.byOptimizer (-1) false) in
  recommendationsQuery Scripted.ExecuteQuery Scripted.ContinueQuery Scripted.sliceToMap
    Inputs.mapRange 2 flags []
    (Inputs.start (inl (Inputs.page [Inputs.otherEvent] Inputs.nextAndFollow)
                     :: PageInputs.script))
  = recommendationsJoin Scripted.ExecuteQuery Scripted.sliceToMap Inputs.mapRange
      (recommendationsTempVals flags [] "")
      (PageInputs.recordsOf [Inputs.otherEvent]
         ++ concat (map paRows PageInputs.pages))
      (mkSt []
         ([] ++ EvExecuteQuery (recommendationsTemplate (recommendationsTempVals flags [] ""))
             :: pagesTrace "recommendations" 2 PageInputs.first PageInputs.pages)).
Proof.
  intros flags.
  assert (servesPages Scripted.ContinueQuery Scripted.sliceToMap
            PageInputs.script PageInputs.first PageInputs.pages) as H.
  { repeat split; try reflexivity; by eexists _, _, _. }
  destruct (recommendationsQuery_joins_all_pages Scripted.ExecuteQuery Scripted.ContinueQuery
              Scripted.sliceToMap Inputs.mapRange 2 flags []
              (Inputs.start (inl (Inputs.page [Inputs.otherEvent] Inputs.nextAndFollow)
                               :: PageInputs.script))
              (Inputs.page [Inputs.otherEvent] Inputs.nextAndFollow)
              PageInputs.script
              (mkDataSet "main" [[ADataSet (Some PageInputs.first)]] ∅)
              PageInputs.first [] [] (PageInputs.recordsOf [Inputs.otherEvent])
              PageInputs.pages
              eq_refl eq_refl eq_refl eq_refl eq_refl eq_refl H (le_n 2))
    as (p & Hlast & Hrun).
  injection Hlast as <-. exact Hrun.
Defined.
